(** * College administration back end: fee payments, fees, marks,
      enrollments and the dashboard report

    A shallow embedding of the route handlers

    - [PUT /api/fees/[id]/payment], recording a payment (modules [Payment]
      and [PaymentRequest]),
    - [GET], [POST], [PUT] and [DELETE] of the fees route (modules
      [FeesRoute] and [FeesCrud]),
    - [GET], [POST], [PUT] and [DELETE] of [api/marks/route.ts] (modules
      [MarksRoute] and [MarksCrud]),
    - [POST], [PUT] and [DELETE] of [api/enrollments/route.ts] (module
      [EnrollmentsRoute]),
    - [GET] of the dashboard statistics (modules [Dashboard] and
      [Distributions]),

    over an explicit database state.  JavaScript numbers are IEEE 754
    binary64 values (Rocq's primitive floats, which compute), request bodies
    are JSON objects read as association lists, tables are lists of rows in
    storage order, and each handler returns its HTTP response together with
    the database it leaves behind. *)

From Stdlib Require Import ZArith List String Ascii Bool Lia Floats.
From Stdlib Require Import DecimalString.
From Stdlib Require Uint63.
From Stdlib Require Import Sorting.Sorted Permutation.
Import ListNotations.

Set Warnings "-inexact-float".

Open Scope string_scope.
Open Scope Z_scope.

(* ================================================================= *)
(** ** JavaScript values and the built-ins the handlers call *)

Module JS.

(** A value produced by [request.json()].  Of an object or array that sits
    in a field the handlers use the type, the truthiness and the conversion
    to a string; it carries that conversion. *)
Inductive JSValue : Type :=
| JUndefined
| JNull
| JBool (b : bool)
| JNumber (x : float)
| JString (s : string)
| JObject (to_string : string).

(** A JSON object: [get] reads a property ([undefined] when absent), [has] is
    the [in] operator. *)
Definition JSObject : Type := list (string * JSValue).

Fixpoint get (k : string) (o : JSObject) : JSValue :=
  match o with
  | [] => JUndefined
  | (k', v) :: o' => if String.eqb k k' then v else get k o'
  end.

Fixpoint has (k : string) (o : JSObject) : bool :=
  match o with
  | [] => false
  | (k', _) :: o' => String.eqb k k' || has k o'
  end.

Fixpoint set (k : string) (v : JSValue) (o : JSObject) : JSObject :=
  match o with
  | [] => [(k, v)]
  | (k', v') :: o' => if String.eqb k k' then (k, v) :: o' else (k', v') :: set k v o'
  end.

Definition is_undefined (v : JSValue) : bool :=
  match v with JUndefined => true | _ => false end.

Definition is_null (v : JSValue) : bool :=
  match v with JNull => true | _ => false end.

Definition typeof_number (v : JSValue) : bool :=
  match v with JNumber _ => true | _ => false end.

Definition typeof_string (v : JSValue) : bool :=
  match v with JString _ => true | _ => false end.

(** [!x] is [negb (truthy x)]. *)
Definition number_truthy (x : float) : bool :=
  negb (PrimFloat.is_zero x || PrimFloat.is_nan x).

Definition truthy (v : JSValue) : bool :=
  match v with
  | JUndefined | JNull => false
  | JBool b => b
  | JNumber x => number_truthy x
  | JString s => negb (String.eqb s "")
  | JObject _ => true
  end.

(** [x || 0] on a nullable number. *)
Definition or_zero (x : option float) : float :=
  match x with
  | Some y => if number_truthy y then y else 0%float
  | None => 0%float
  end.

(** The integer a finite, integer-valued double stands for. *)
Definition float_to_Z (x : float) : option Z :=
  match Prim2SF x with
  | S754_zero _ => Some 0
  | S754_finite s m e =>
      let mag :=
        if 0 <=? e then Some (Zpos m * 2 ^ e)
        else if (Zpos m) mod (2 ^ (- e)) =? 0 then Some (Zpos m / 2 ^ (- e))
        else None in
      option_map (fun n => if s then - n else n) mag
  | S754_infinity _ | S754_nan => None
  end.

(** The double of an integer below 2^63 in magnitude (exact below 2^53). *)
Definition float_of_Z (n : Z) : float :=
  if n <? 0 then PrimFloat.opp (PrimFloat.of_uint63 (Uint63.of_Z (- n)))
  else PrimFloat.of_uint63 (Uint63.of_Z n).

Definition Math_abs (x : float) : float := PrimFloat.abs x.

(** [Math.round]: the nearest integer, ties towards +infinity; NaN, the
    infinities, the zeros and integers are returned as they are, and a result
    of zero keeps the sign of the argument. *)
Definition Math_round (x : float) : float :=
  match Prim2SF x with
  | S754_finite s m e =>
      if 0 <=? e then x
      else
        let d := 2 ^ (- e) in
        let n := (2 * (if s then Zneg m else Zpos m) + d) / (2 * d) in
        if n =? 0 then (if s then neg_zero else 0%float) else float_of_Z n
  | _ => x
  end.

(** [Number::toString]: decided here for NaN, the infinities, the zeros and
    the safe integers, whose digits are those of the integer; the shortest
    round-trip digits of any other double are left to [frac], a function of
    the engine. *)
Definition Number_toString (frac : float -> string) (x : float) : string :=
  if PrimFloat.is_nan x then "NaN"
  else if PrimFloat.is_infinity x then
    (if PrimFloat.get_sign x then "-Infinity" else "Infinity")
  else
    match float_to_Z x with
    | Some n =>
        if Z.abs n <? 2 ^ 53 then NilZero.string_of_int (Z.to_int n) else frac x
    | None => frac x
    end.

Definition ToString (frac : float -> string) (v : JSValue) : string :=
  match v with
  | JUndefined => "undefined"
  | JNull => "null"
  | JBool true => "true"
  | JBool false => "false"
  | JNumber x => Number_toString frac x
  | JString s => s
  | JObject s => s
  end.

(** *** [parseInt] without a radix

    Leading white space is skipped, a sign is read, a [0x]/[0X] prefix selects
    radix 16, and the longest prefix of digits is the value, rounded to the
    nearest double; no digit at all is NaN, here [None].

    A string is the sequence of the UTF-8 bytes of its text.  White space is
    the language's WhiteSpace and LineTerminator: TAB, LF, VT, FF, CR, SP, and
    U+00A0, U+1680, U+2000 to U+200A, U+2028, U+2029, U+202F, U+205F, U+3000
    and U+FEFF, which take two or three bytes. *)

Definition is_space (c : ascii) : bool :=
  let n := N_of_ascii c in
  ((9 <=? n) && (n <=? 13) || (n =? 32))%N.

(** U+00A0 is C2 A0. *)
Definition is_space2 (c1 c2 : ascii) : bool :=
  ((N_of_ascii c1 =? 194) && (N_of_ascii c2 =? 160))%N.

(** U+1680 is E1 9A 80; U+2000 to U+200A are E2 80 80 to E2 80 8A; U+2028,
    U+2029 and U+202F are E2 80 A8, E2 80 A9 and E2 80 AF; U+205F is
    E2 81 9F; U+3000 is E3 80 80; U+FEFF is EF BB BF. *)
Definition is_space3 (c1 c2 c3 : ascii) : bool :=
  let n1 := N_of_ascii c1 in
  let n2 := N_of_ascii c2 in
  let n3 := N_of_ascii c3 in
  ((n1 =? 225) && (n2 =? 154) && (n3 =? 128)
   || (n1 =? 226) && (n2 =? 128)
      && ((128 <=? n3) && (n3 <=? 138) || (n3 =? 168) || (n3 =? 169)
          || (n3 =? 175))
   || (n1 =? 226) && (n2 =? 129) && (n3 =? 159)
   || (n1 =? 227) && (n2 =? 128) && (n3 =? 128)
   || (n1 =? 239) && (n2 =? 187) && (n3 =? 191))%N.

Fixpoint skip_spaces (s : string) : string :=
  match s with
  | String c1 r1 =>
      if is_space c1 then skip_spaces r1
      else
        match r1 with
        | String c2 r2 =>
            if is_space2 c1 c2 then skip_spaces r2
            else
              match r2 with
              | String c3 r3 =>
                  if is_space3 c1 c2 c3 then skip_spaces r3 else s
              | EmptyString => s
              end
        | EmptyString => s
        end
  | EmptyString => s
  end.

(** The integer nearest to [n] that a double holds (ties to the even
    significand); [n] itself below 2^53 in magnitude.  Beyond the largest
    double the value of the language is Infinity, which is no key of a
    table; the integer is kept there. *)
Definition nearest_double (n : Z) : Z :=
  let a := Z.abs n in
  let k := Z.log2 a - 52 in
  if k <=? 0 then n
  else
    let q := a / 2 ^ k in
    let r := a mod 2 ^ k in
    let half := 2 ^ (k - 1) in
    let q' := if (half <? r) || ((r =? half) && Z.odd q) then q + 1 else q in
    Z.sgn n * (q' * 2 ^ k).

Definition digit_value (radix : Z) (c : ascii) : option Z :=
  let n := Z.of_N (N_of_ascii c) in
  let d :=
    if (48 <=? n) && (n <=? 57) then Some (n - 48)
    else if (97 <=? n) && (n <=? 122) then Some (n - 87)
    else if (65 <=? n) && (n <=? 90) then Some (n - 55)
    else None in
  match d with
  | Some v => if v <? radix then Some v else None
  | None => None
  end.

(** The digits read so far are [acc]; [None] while none was read. *)
Fixpoint read_digits (radix : Z) (s : string) (acc : option Z) : option Z :=
  match s with
  | String c s' =>
      match digit_value radix c with
      | Some d =>
          read_digits radix s'
            (Some (match acc with Some a => a * radix + d | None => d end))
      | None => acc
      end
  | EmptyString => acc
  end.

Definition parseInt_string (s : string) : option Z :=
  let s1 := skip_spaces s in
  let '(neg, s2) :=
    match s1 with
    | String "-" r => (true, r)
    | String "+" r => (false, r)
    | _ => (false, s1)
    end in
  let '(radix, s3) :=
    match s2 with
    | String "0" (String "x" r) => (16, r)
    | String "0" (String "X" r) => (16, r)
    | _ => (10, s2)
    end in
  option_map (fun n => nearest_double (if neg then - n else n))
    (read_digits radix s3 None).

Definition parseInt (frac : float -> string) (v : JSValue) : option Z :=
  parseInt_string (ToString frac v).

(** [isNaN(parseInt(v))]. *)
Definition parseInt_isNaN (frac : float -> string) (v : JSValue) : bool :=
  match parseInt frac v with Some _ => false | None => true end.

End JS.

(* ================================================================= *)
(** ** The tables of [db/schema.ts] *)

Module Schema.

Record Student : Type := mkStudent {
  s_id : Z;
  s_userId : option Z;
  s_name : string;
  s_email : string;
  s_course : string;
  s_year : Z;
  s_balance : option float;
  s_phone : option string;
  s_address : option string;
  s_enrollmentDate : string;
  s_status : string;
  s_createdAt : string;
  s_updatedAt : string }.

Record Course : Type := mkCourse {
  c_id : Z;
  c_title : string;
  c_code : string;
  c_credits : Z;
  c_department : string;
  c_syllabus : option string;
  c_enrolledCount : option Z;
  c_createdAt : string;
  c_updatedAt : string }.

Record Faculty : Type := mkFaculty {
  fa_id : Z;
  fa_userId : option Z;
  fa_name : string;
  fa_email : string;
  fa_department : string;
  fa_designation : string;
  fa_salary : float;
  fa_lastPaymentDate : option string;
  fa_assignedCourses : option string;
  fa_createdAt : string;
  fa_updatedAt : string }.

Record Fee : Type := mkFee {
  f_id : Z;
  f_studentId : option Z;
  f_amount : float;
  f_dueDate : string;
  f_paidDate : option string;
  f_status : string;
  f_type : string;
  f_createdAt : string;
  f_updatedAt : string }.

Record Marks : Type := mkMarks {
  m_id : Z;
  m_studentId : option Z;
  m_courseId : option Z;
  m_semester : Z;
  m_internalMarks : option Z;
  m_externalMarks : option Z;
  m_totalMarks : option Z;
  m_grade : option string;
  m_createdAt : string;
  m_updatedAt : string }.

Record Attendance : Type := mkAttendance {
  a_id : Z;
  a_studentId : option Z;
  a_courseId : option Z;
  a_date : string;
  a_status : string;
  a_session : string;
  a_createdAt : string;
  a_updatedAt : string }.

Record Enrollment : Type := mkEnrollment {
  e_id : Z;
  e_studentId : option Z;
  e_courseId : option Z;
  e_enrollmentDate : string;
  e_status : string;
  e_createdAt : string;
  e_updatedAt : string }.

(** The database: each table is the list of its rows, in storage order. *)
Record DB : Type := mkDB {
  students : list Student;
  courses : list Course;
  faculty : list Faculty;
  fees : list Fee;
  marks : list Marks;
  attendance : list Attendance;
  enrollments : list Enrollment }.

Definition with_fees (fs : list Fee) (db : DB) : DB :=
  mkDB (students db) (courses db) (faculty db) fs (marks db) (attendance db) (enrollments db).

Definition with_students (ss : list Student) (db : DB) : DB :=
  mkDB ss (courses db) (faculty db) (fees db) (marks db) (attendance db) (enrollments db).

Definition with_marks (ms : list Marks) (db : DB) : DB :=
  mkDB (students db) (courses db) (faculty db) (fees db) ms (attendance db) (enrollments db).

(** [eq(column, value)] on a nullable integer column: NULL matches nothing. *)
Definition col_eq (col : option Z) (v : Z) : bool :=
  match col with Some x => x =? v | None => false end.

(** [db.update(table).set(..).where(cond).returning()]: the table after the
    update, and the rows that were updated. *)
Definition update_where {A : Type} (cond : A -> bool) (upd : A -> A)
    (rows : list A) : list A * list A :=
  (map (fun r => if cond r then upd r else r) rows,
   map upd (filter cond rows)).

Definition student_by_id (db : DB) (id : Z) : option Student :=
  find (fun s => s_id s =? id) (students db).

Definition fee_by_id (db : DB) (id : Z) : option Fee :=
  find (fun f => f_id f =? id) (fees db).

End Schema.

(** HTTP responses: a status with either a payload or the [{error, code}]
    object of the failure paths. *)
Module Http.

Record ErrorBody : Type := mkError { error : string; code : option string }.

Inductive Response (A : Type) : Type :=
| Json (status : Z) (payload : A)
| Fail (status : Z) (e : ErrorBody).

Arguments Json {A} status payload.
Arguments Fail {A} status e.

Definition fail {A : Type} (st : Z) (msg : string) (c : string) : Response A :=
  Fail st (mkError msg (Some c)).

Definition status_of {A : Type} (r : Response A) : Z :=
  match r with Json st _ => st | Fail st _ => st end.

Definition code_of {A : Type} (r : Response A) : option string :=
  match r with Json _ _ => None | Fail _ e => code e end.

Definition is_success {A : Type} (r : Response A) : bool :=
  match r with Json _ _ => true | Fail _ _ => false end.

End Http.

(** What the run-time leaves open: the digits [Number::toString] prints for a
    double that is not a safe integer, whether [Date.parse] of a value is NaN,
    and the text a TEXT column keeps of a value that is not a string ([None]
    when the driver throws).  The handlers are parametrised by it. *)
Record Engine : Type := mkEngine {
  frac_digits : float -> string;
  date_is_NaN : JS.JSValue -> bool;
  text_cell : JS.JSValue -> option string }.

(* ================================================================= *)
(** ** [PUT /api/fees/[id]/payment]: recording a payment *)

Module Payment.
Import JS Schema Http.

(** The session's user, as [getCurrentUser] returns it. *)
Record User : Type := mkUser { user_id : Z; user_role : string }.

Record PaymentDetails : Type := mkDetails {
  pd_amount_paid : float;
  pd_payment_method : string;
  pd_transaction_id : string;
  pd_processed_by : Z;
  pd_processed_at : string }.

Record StudentInfo : Type := mkInfo {
  si_id : Z;
  si_name : string;
  si_previousBalance : float;
  si_newBalance : float }.

(** [{...updatedFee[0], paymentDetails, studentInfo}]. *)
Record PaymentResponse : Type := mkPaymentResponse {
  pr_fee : Fee;
  pr_paymentDetails : PaymentDetails;
  pr_studentInfo : StudentInfo }.

Definition Resp : Type := Response PaymentResponse.

(** [String.prototype.trim]: the white space at both ends is dropped. *)
Fixpoint trim_end (s : string) : string :=
  match s with
  | String c r =>
      if String.eqb (skip_spaces s) "" then "" else String c (trim_end r)
  | EmptyString => ""
  end.

Definition trim (s : string) : string := trim_end (skip_spaces s).

(** The request after the checks that do not read the database. *)
Record Validated : Type := mkValidated {
  v_user : User;
  v_feeId : Z;
  v_amount : float;
  v_method : string;
  v_txn : string }.

Definition validate (user : option User) (id : string) (body : JSObject)
    : Resp + Validated :=
  match user with
  | None => inl (Fail 401 (mkError "Authentication required" None))
  | Some u =>
      match parseInt_string id with
      | None => inl (fail 400 "Valid fee ID is required" "INVALID_ID")
      | Some feeId =>
          if has "userId" body || has "user_id" body then
            inl (fail 400 "User ID cannot be provided in request body"
                   "USER_ID_NOT_ALLOWED")
          else
            let amount_paid := get "amount_paid" body in
            let payment_method := get "payment_method" body in
            let transaction_id := get "transaction_id" body in
            if is_undefined amount_paid || is_null amount_paid then
              inl (fail 400 "Amount paid is required" "MISSING_AMOUNT_PAID")
            else
              match payment_method with
              | JString pm =>
                  if negb (truthy payment_method) then
                    inl (fail 400 "Payment method is required"
                           "MISSING_PAYMENT_METHOD")
                  else
                    match transaction_id with
                    | JString tx =>
                        if negb (truthy transaction_id) then
                          inl (fail 400 "Transaction ID is required"
                                 "MISSING_TRANSACTION_ID")
                        else
                          match amount_paid with
                          | JNumber a =>
                              if (a <=? 0)%float then
                                inl (fail 400
                                       "Amount paid must be a positive number"
                                       "INVALID_AMOUNT")
                              else inr (mkValidated u feeId a pm tx)
                          | _ =>
                              inl (fail 400
                                     "Amount paid must be a positive number"
                                     "INVALID_AMOUNT")
                          end
                    | _ =>
                        inl (fail 400 "Transaction ID is required"
                               "MISSING_TRANSACTION_ID")
                    end
              | _ =>
                  inl (fail 400 "Payment method is required"
                         "MISSING_PAYMENT_METHOD")
              end
      end
  end.

(** [select {fee, student} from fees left join students on fees.studentId =
    students.id where fees.id = feeId limit 1]. *)
Definition select_fee (db : DB) (feeId : Z) : list (Fee * option Student) :=
  firstn 1
    (flat_map
       (fun f =>
          match filter (fun s => col_eq (f_studentId f) (s_id s)) (students db) with
          | [] => [(f, None)]
          | ss => map (fun s => (f, Some s)) ss
          end)
       (filter (fun f => f_id f =? feeId) (fees db))).

Definition mismatch_message (eng : Engine) (amount_paid fee_amount : float) : string :=
  "Amount paid (" ++ Number_toString (frac_digits eng) amount_paid
    ++ ") does not match fee amount ("
    ++ Number_toString (frac_digits eng) fee_amount ++ ")".

(** The checks on the row read: existence of the fee and of its student, the
    status of the fee, the amount. *)
Definition check (eng : Engine) (v : Validated)
    (feeRecord : list (Fee * option Student)) : Resp + (Fee * Student) :=
  match feeRecord with
  | [] => inl (fail 404 "Fee record not found" "FEE_NOT_FOUND")
  | (fee, None) :: _ =>
      inl (fail 404 "Associated student not found" "STUDENT_NOT_FOUND")
  | (fee, Some student) :: _ =>
      if String.eqb (f_status fee) "paid" then
        inl (fail 400 "Fee has already been paid" "FEE_ALREADY_PAID")
      else if negb (String.eqb (f_status fee) "pending")
              && negb (String.eqb (f_status fee) "overdue") then
        inl (fail 400
               "Fee must be in pending or overdue status to process payment"
               "INVALID_FEE_STATUS")
      else if (0.01 <? Math_abs (v_amount v - f_amount fee))%float then
        inl (fail 400 (mismatch_message eng (v_amount v) (f_amount fee))
               "AMOUNT_MISMATCH")
      else inr (fee, student)
  end.

Definition mark_paid (now : string) (f : Fee) : Fee :=
  mkFee (f_id f) (f_studentId f) (f_amount f) (f_dueDate f) (Some now) "paid"
        (f_type f) (f_createdAt f) now.

Definition set_balance (b : float) (now : string) (s : Student) : Student :=
  mkStudent (s_id s) (s_userId s) (s_name s) (s_email s) (s_course s) (s_year s)
            (Some b) (s_phone s) (s_address s) (s_enrollmentDate s) (s_status s)
            (s_createdAt s) now.

(** [update fees set status, paidDate, updatedAt where id = feeId returning]. *)
Definition write_fee (now : string) (feeId : Z) (db : DB) : DB * list Fee :=
  let '(fs, updated) :=
    update_where (fun f => f_id f =? feeId) (mark_paid now) (fees db) in
  (with_fees fs db, updated).

(** [update students set balance, updatedAt where id = student.id]. *)
Definition write_student (now : string) (student : Student) (newBalance : float)
    (db : DB) : DB :=
  with_students
    (fst (update_where (fun s => s_id s =? s_id student)
            (set_balance newBalance now) (students db)))
    db.

Definition newBalance (student : Student) (amount_paid : float) : float :=
  (or_zero (s_balance student) - amount_paid)%float.

Definition paymentResponse (now : string) (v : Validated) (student : Student)
    (updatedFee : Fee) : PaymentResponse :=
  mkPaymentResponse updatedFee
    (mkDetails (v_amount v) (trim (v_method v)) (trim (v_txn v))
       (user_id (v_user v)) now)
    (mkInfo (s_id student) (s_name student) (or_zero (s_balance student))
       (newBalance student (v_amount v))).

(** The handler on a body that is a JSON object, run without interruption;
    [now] is [new Date().toISOString()].  The request as it arrives, with a
    body that may be no object, is [PaymentRequest.PUT] below. *)
Definition PUT (eng : Engine) (now : string) (user : option User) (id : string)
    (body : JSObject) (db : DB) : Resp * DB :=
  match validate user id body with
  | inl r => (r, db)
  | inr v =>
      match check eng v (select_fee db (v_feeId v)) with
      | inl r => (r, db)
      | inr (fee, student) =>
          let '(db1, updatedFee) := write_fee now (v_feeId v) db in
          match updatedFee with
          | [] => (fail 500 "Failed to update fee record" "UPDATE_FAILED", db1)
          | updated :: _ =>
              let db2 :=
                write_student now student (newBalance student (v_amount v)) db1 in
              (Json 200 (paymentResponse now v student updated), db2)
          end
      end
  end.

(** The spec's names for the failures of this handler. *)
Inductive ErrorKind : Type :=
| Unauthenticated | InvalidInput | NotFound | Conflict | InvalidState
| AmountMismatch | Internal.

Definition kind_of_code (c : string) : ErrorKind :=
  if String.eqb c "FEE_NOT_FOUND" || String.eqb c "STUDENT_NOT_FOUND" then NotFound
  else if String.eqb c "FEE_ALREADY_PAID" then Conflict
  else if String.eqb c "INVALID_FEE_STATUS" then InvalidState
  else if String.eqb c "AMOUNT_MISMATCH" then AmountMismatch
  else if String.eqb c "UPDATE_FAILED" then Internal
  else InvalidInput.

Definition kind (r : Resp) : option ErrorKind :=
  match r with
  | Json _ _ => None
  | Fail _ e =>
      match code e with
      | Some c => Some (kind_of_code c)
      | None => Some Unauthenticated
      end
  end.

End Payment.

(* ================================================================= *)
(** ** [PUT] of the fees route: the generic update of a fee *)

Module FeesRoute.
Import JS Schema Http.

Definition Resp : Type := Response (option Fee).

Definition validTypes : list string := ["tuition"; "exam"; "library"; "hostel"].
Definition validStatuses : list string := ["pending"; "paid"; "overdue"].

(** [list.includes(v)]: only a string equals an element of these lists. *)
Definition includes (l : list string) (v : JSValue) : bool :=
  match v with
  | JString s => existsb (String.eqb s) l
  | _ => false
  end.

(** The text a TEXT column keeps of the value written to it. *)
Definition stored_text (eng : Engine) (v : JSValue) : option string :=
  match v with
  | JString s => Some s
  | _ => text_cell eng v
  end.

(** The [updates] object: a field is [None] when the body did not provide
    it; [paidDate] may be provided as [null]. *)
Record Updates : Type := mkUpdates {
  up_studentId : option Z;
  up_amount : option float;
  up_dueDate : option string;
  up_type : option string;
  up_status : option string;
  up_paidDate : option (option string);
  up_updatedAt : string }.

Definition or_else {A : Type} (x : option A) (d : A) : A :=
  match x with Some y => y | None => d end.

(** [set(updates)] on one row. *)
Definition apply_updates (up : Updates) (f : Fee) : Fee :=
  mkFee (f_id f)
        (match up_studentId up with Some k => Some k | None => f_studentId f end)
        (or_else (up_amount up) (f_amount f))
        (or_else (up_dueDate up) (f_dueDate f))
        (or_else (up_paidDate up) (f_paidDate f))
        (or_else (up_status up) (f_status f))
        (or_else (up_type up) (f_type f))
        (f_createdAt f)
        (up_updatedAt up).

(** [select from students where id = studentId limit 1], the id being a
    JavaScript number: only an integer-valued one can equal a key. *)
Definition studentExists (db : DB) (studentId : float) : list Student :=
  match float_to_Z studentId with
  | Some k => firstn 1 (filter (fun s => s_id s =? k) (students db))
  | None => []
  end.

(** The answer of the [catch]; its message goes on with the text of the
    error caught, which is left out. *)
Definition internal_error : Resp :=
  Fail 500 (mkError "Internal server error" None).

(** The validation of the body, field by field, building [updates]. *)
Definition build_updates (eng : Engine) (now : string) (body : JSObject)
    (db : DB) : Resp + Updates :=
  let studentId := get "studentId" body in
  let amount := get "amount" body in
  let dueDate := get "dueDate" body in
  let type := get "type" body in
  let status := get "status" body in
  let paidDate := get "paidDate" body in
  let check_student : Resp + option Z :=
    match studentId with
    | JUndefined => inr None
    | JNumber x =>
        match studentExists db x with
        | [] => inl (fail 400 "Student not found" "STUDENT_NOT_FOUND")
        | _ :: _ => inr (float_to_Z x)
        end
    | _ => inl (fail 400 "Student ID must be a number" "INVALID_STUDENT_ID")
    end in
  match check_student with
  | inl r => inl r
  | inr up_sid =>
      let check_amount : Resp + option float :=
        match amount with
        | JUndefined => inr None
        | JNumber x =>
            if (x <=? 0)%float then
              inl (fail 400 "Amount must be a positive number" "INVALID_AMOUNT")
            else inr (Some x)
        | _ => inl (fail 400 "Amount must be a positive number" "INVALID_AMOUNT")
        end in
      match check_amount with
      | inl r => inl r
      | inr up_amt =>
          if negb (is_undefined dueDate) && date_is_NaN eng dueDate then
            inl (fail 400 "Due date must be a valid date" "INVALID_DUE_DATE")
          else if negb (is_undefined type) && negb (includes validTypes type) then
            inl (fail 400
                   "Invalid fee type. Must be one of: tuition, exam, library, hostel"
                   "INVALID_TYPE")
          else if negb (is_undefined status)
                  && negb (includes validStatuses status) then
            inl (fail 400
                   "Invalid status. Must be one of: pending, paid, overdue"
                   "INVALID_STATUS")
          else if negb (is_undefined paidDate) && negb (is_null paidDate)
                  && date_is_NaN eng paidDate then
            inl (fail 400 "Paid date must be a valid date" "INVALID_PAID_DATE")
          else
            (* the values as the columns keep them *)
            let text (v : JSValue) : Resp + option string :=
              match v with
              | JUndefined => inr None
              | _ => match stored_text eng v with
                     | Some s => inr (Some s)
                     | None => inl internal_error
                     end
              end in
            match text dueDate, text type, text status with
            | inr up_due, inr up_ty, inr up_st =>
                let paid : Resp + option (option string) :=
                  match paidDate with
                  | JUndefined => inr None
                  | JNull => inr (Some None)
                  | _ => match stored_text eng paidDate with
                         | Some s => inr (Some (Some s))
                         | None => inl internal_error
                         end
                  end in
                match paid with
                | inr up_paid =>
                    inr (mkUpdates up_sid up_amt up_due up_ty up_st up_paid now)
                | inl r => inl r
                end
            | inl r, _, _ => inl r
            | _, inl r, _ => inl r
            | _, _, inl r => inl r
            end
      end
  end.

(** The handler; [id] is [searchParams.get('id')]. *)
Definition PUT (eng : Engine) (now : string) (id : option string)
    (body : JSObject) (db : DB) : Resp * DB :=
  match match id with Some s => parseInt_string s | None => None end with
  | None => (fail 400 "Valid ID is required" "INVALID_ID", db)
  | Some feeId =>
      match firstn 1 (filter (fun f => f_id f =? feeId) (fees db)) with
      | [] => (Fail 404 (mkError "Fee record not found" None), db)
      | _ :: _ =>
          match build_updates eng now body db with
          | inl r => (r, db)
          | inr up =>
              let '(fs, updated) :=
                update_where (fun f => f_id f =? feeId) (apply_updates up)
                  (fees db) in
              (Json 200 (hd_error updated), with_fees fs db)
          end
      end
  end.

End FeesRoute.

(* ================================================================= *)
(** ** The fees route: fetching, creating and deleting a fee *)

Module FeesCrud.
Import JS Schema Http FeesRoute.

(** [GET] with an [id] in the query: the branch [if (id)], taken when the
    parameter is present and not empty.  The listing branch is not modelled:
    [None]. *)
Definition GET (id : option string) (db : DB) : option (Response Fee) :=
  match id with
  | None => None
  | Some s =>
      if String.eqb s "" then None
      else
        Some
          match parseInt_string s with
          | None => fail 400 "Valid ID is required" "INVALID_ID"
          | Some k =>
              match firstn 1 (filter (fun f => f_id f =? k) (fees db)) with
              | [] => Fail 404 (mkError "Fee record not found" None)
              | record :: _ => Json 200 record
              end
          end
  end.

(** [POST]; [newId] is the key the engine assigns, and [now] and [later] are
    the two readings of the clock, the first for createdAt and the second
    for updatedAt. *)
Definition POST (eng : Engine) (now later : string) (newId : Z)
    (body : JSObject) (db : DB) : Resp * DB :=
  let studentId := get "studentId" body in
  let amount := get "amount" body in
  let dueDate := get "dueDate" body in
  let type := get "type" body in
  let status := get "status" body in
  let paidDate := get "paidDate" body in
  match studentId with
  | JNumber sid =>
      if negb (truthy studentId) then
        (fail 400 "Student ID is required and must be a number"
           "MISSING_STUDENT_ID", db)
      else
        match amount with
        | JNumber amt =>
            if negb (truthy amount) || (amt <=? 0)%float then
              (fail 400 "Amount is required and must be a positive number"
                 "INVALID_AMOUNT", db)
            else
              match dueDate with
              | JString due =>
                  if negb (truthy dueDate) then
                    (fail 400 "Due date is required" "MISSING_DUE_DATE", db)
                  else
                    match type with
                    | JString ty =>
                        if negb (truthy type) then
                          (fail 400 "Fee type is required" "MISSING_TYPE", db)
                        else if negb (includes validTypes type) then
                          (fail 400
                             "Invalid fee type. Must be one of: tuition, exam, library, hostel"
                             "INVALID_TYPE", db)
                        else if truthy status
                                && negb (includes validStatuses status) then
                          (fail 400
                             "Invalid status. Must be one of: pending, paid, overdue"
                             "INVALID_STATUS", db)
                        else if date_is_NaN eng dueDate then
                          (fail 400 "Due date must be a valid date"
                             "INVALID_DUE_DATE", db)
                        else
                          match studentExists db sid with
                          | [] =>
                              (fail 400 "Student not found" "STUDENT_NOT_FOUND",
                               db)
                          | _ :: _ =>
                              if truthy paidDate && date_is_NaN eng paidDate then
                                (fail 400 "Paid date must be a valid date"
                                   "INVALID_PAID_DATE", db)
                              else
                                let st :=
                                  match status with
                                  | JString s =>
                                      if truthy status then s else "pending"
                                  | _ => "pending"
                                  end in
                                let paid : Resp + option string :=
                                  if truthy paidDate then
                                    match stored_text eng paidDate with
                                    | Some s => inr (Some s)
                                    | None => inl internal_error
                                    end
                                  else inr None in
                                match paid with
                                | inl r => (r, db)
                                | inr pd =>
                                    let newFee :=
                                      mkFee newId (float_to_Z sid) amt due pd st
                                            ty now later in
                                    (Json 201 (Some newFee),
                                     with_fees (fees db ++ [newFee]) db)
                                end
                          end
                    | _ => (fail 400 "Fee type is required" "MISSING_TYPE", db)
                    end
              | _ => (fail 400 "Due date is required" "MISSING_DUE_DATE", db)
              end
        | _ =>
            (fail 400 "Amount is required and must be a positive number"
               "INVALID_AMOUNT", db)
        end
  | _ =>
      (fail 400 "Student ID is required and must be a number"
         "MISSING_STUDENT_ID", db)
  end.

(** The body of the answer to a [DELETE]. *)
Record Deleted : Type := mkDeleted {
  message : string;
  deletedRecord : option Fee }.

(** [DELETE]; [id] is [searchParams.get('id')]. *)
Definition DELETE (id : option string) (db : DB) : Response Deleted * DB :=
  match match id with Some s => parseInt_string s | None => None end with
  | None => (fail 400 "Valid ID is required" "INVALID_ID", db)
  | Some k =>
      match firstn 1 (filter (fun f => f_id f =? k) (fees db)) with
      | [] => (Fail 404 (mkError "Fee record not found" None), db)
      | _ :: _ =>
          let deleted := filter (fun f => f_id f =? k) (fees db) in
          (Json 200
             (mkDeleted "Fee record deleted successfully" (hd_error deleted)),
           with_fees (filter (fun f => negb (f_id f =? k)) (fees db)) db)
      end
  end.

End FeesCrud.

(* ================================================================= *)
(** ** What a handler leaves alone, and what the fees table keeps *)

Module Frames.
Import JS Schema.

(** [db'] differs from [db] in the fees table at most. *)
Definition only_fees_changed (db db' : DB) : Prop :=
  students db' = students db /\ courses db' = courses db /\
  faculty db' = faculty db /\ marks db' = marks db /\
  attendance db' = attendance db /\ enrollments db' = enrollments db.

(** [db'] differs from [db] in the marks table at most. *)
Definition only_marks_changed (db db' : DB) : Prop :=
  students db' = students db /\ courses db' = courses db /\
  faculty db' = faculty db /\ fees db' = fees db /\
  attendance db' = attendance db /\ enrollments db' = enrollments db.

(** [db'] differs from [db] in the fees and students tables at most. *)
Definition only_ledger_changed (db db' : DB) : Prop :=
  courses db' = courses db /\ faculty db' = faculty db /\
  marks db' = marks db /\ attendance db' = attendance db /\
  enrollments db' = enrollments db.

(** A fee as the endpoints write it: an amount that is not [<= 0], a type
    and a status among the valid ones. *)
Definition fee_ok (f : Fee) : Prop :=
  (f_amount f <=? 0)%float = false /\
  In (f_type f) FeesRoute.validTypes /\
  In (f_status f) FeesRoute.validStatuses.

Definition fees_ok (db : DB) : Prop := Forall fee_ok (fees db).

(** The value a text column receives from a field of the body, as the
    generic update passes it on: nothing for an absent field. *)
Definition text_of (eng : Engine) (v : JSValue)
    : FeesRoute.Resp + option string :=
  match v with
  | JUndefined => inr None
  | _ => match FeesRoute.stored_text eng v with
         | Some s => inr (Some s)
         | None => inl FeesRoute.internal_error
         end
  end.

Definition paid_of (eng : Engine) (v : JSValue)
    : FeesRoute.Resp + option (option string) :=
  match v with
  | JUndefined => inr None
  | JNull => inr (Some None)
  | _ => match FeesRoute.stored_text eng v with
         | Some s => inr (Some (Some s))
         | None => inl FeesRoute.internal_error
         end
  end.

End Frames.

(* ================================================================= *)
(** ** [PUT /api/fees/[id]/payment]: the request as it arrives *)

Module PaymentRequest.
Import JS Schema Http.

(** The body of the request.  [request.json()] throws on text that is not
    JSON; destructuring throws on [null]; the [in] operator throws on a
    boolean, a number or a string.  An array is an object whose keys are its
    indices. *)
Inductive Body : Type :=
| NotJSON
| Null
| Boolean (b : bool)
| Number (x : float)
| Text (s : string)
| Object (o : JSObject).

Definition is_object (body : Body) : bool :=
  match body with Object _ => true | _ => false end.

(** The answer of the [catch]; its message goes on with the text of the
    error caught, which is left out. *)
Definition internal_error : Payment.Resp :=
  Fail 500 (mkError "Internal server error" None).

(** The handler inside its [try]: the session and the id are checked before
    the body is read, and what is thrown while the body is read is answered
    by the [catch].  On an object the handler goes on as [Payment.PUT]
    has it; the queries are taken to return. *)
Definition PUT (eng : Engine) (now : string) (user : option Payment.User)
    (id : string) (body : Body) (db : DB) : Payment.Resp * DB :=
  match user with
  | None => (Fail 401 (mkError "Authentication required" None), db)
  | Some _ =>
      match parseInt_string id with
      | None => (fail 400 "Valid fee ID is required" "INVALID_ID", db)
      | Some _ =>
          match body with
          | Object o => Payment.PUT eng now user id o db
          | _ => (internal_error, db)
          end
      end
  end.

End PaymentRequest.

(* ================================================================= *)
(** ** [POST] and [PUT] of [api/marks/route.ts]: marks, total and grade *)

Module MarksRoute.
Import JS Schema Http.

Definition Resp : Type := Response (option Marks).

(** Marks are integers on both sides of the database: [parseInt] results and
    INTEGER columns. *)
Definition calculateGrade (totalMarks : Z) : string :=
  if 90 <=? totalMarks then "A"
  else if 80 <=? totalMarks then "B"
  else if 70 <=? totalMarks then "C"
  else if 60 <=? totalMarks then "D"
  else "F".

(** [x || 0] on an integer. *)
Definition int_or_zero (x : Z) : Z := if x =? 0 then 0 else x.

Definition calculateTotalMarks (internalMarks externalMarks : Z) : Z :=
  int_or_zero internalMarks + int_or_zero externalMarks.

(** [x || 0] on a [parseInt] result (NaN is falsy) or a nullable column. *)
Definition opt_or_zero (x : option Z) : Z :=
  match x with Some n => int_or_zero n | None => 0 end.

(** [isNaN(parseInt(v)) || parseInt(v) < 0 || parseInt(v) > 100]. *)
Definition marks_out_of_range (eng : Engine) (v : JSValue) : bool :=
  match parseInt (frac_digits eng) v with
  | None => true
  | Some n => (n <? 0) || (100 <? n)
  end.

Definition student_rows (db : DB) (k : Z) : list Student :=
  firstn 1 (filter (fun s => s_id s =? k) (students db)).

Definition course_rows (db : DB) (k : Z) : list Course :=
  firstn 1 (filter (fun c => c_id c =? k) (courses db)).

Definition marks_by_id (db : DB) (k : Z) : option Marks :=
  find (fun m => m_id m =? k) (marks db).

(** The handler of POST; [newId] is the key the engine assigns to the row,
    and [now] and [later] are the two readings of the clock, the first for
    createdAt and the second for updatedAt. *)
Definition POST (eng : Engine) (now later : string) (newId : Z)
    (body : JSObject) (db : DB) : Resp * DB :=
  let studentId := get "studentId" body in
  let courseId := get "courseId" body in
  let semester := get "semester" body in
  let internalMarks := get "internalMarks" body in
  let externalMarks := get "externalMarks" body in
  let parse := parseInt (frac_digits eng) in
  if negb (truthy studentId) then
    (fail 400 "student_id is required" "MISSING_STUDENT_ID", db)
  else if negb (truthy courseId) then
    (fail 400 "course_id is required" "MISSING_COURSE_ID", db)
  else if negb (truthy semester) then
    (fail 400 "semester is required" "MISSING_SEMESTER", db)
  else
    match parse studentId, parse courseId, parse semester with
    | None, _, _ =>
        (fail 400 "Valid student_id is required" "INVALID_STUDENT_ID", db)
    | Some _, None, _ =>
        (fail 400 "Valid course_id is required" "INVALID_COURSE_ID", db)
    | Some _, Some _, None =>
        (fail 400 "Valid semester is required" "INVALID_SEMESTER", db)
    | Some sid, Some cid, Some sem =>
        if negb (is_undefined internalMarks)
           && marks_out_of_range eng internalMarks then
          (fail 400 "Internal marks must be a number between 0 and 100"
             "INVALID_INTERNAL_MARKS", db)
        else if negb (is_undefined externalMarks)
                && marks_out_of_range eng externalMarks then
          (fail 400 "External marks must be a number between 0 and 100"
             "INVALID_EXTERNAL_MARKS", db)
        else
          match student_rows db sid with
          | [] => (fail 400 "Student not found" "STUDENT_NOT_FOUND", db)
          | _ :: _ =>
              match course_rows db cid with
              | [] => (fail 400 "Course not found" "COURSE_NOT_FOUND", db)
              | _ :: _ =>
                  let parsedInternalMarks := opt_or_zero (parse internalMarks) in
                  let parsedExternalMarks := opt_or_zero (parse externalMarks) in
                  let totalMarks :=
                    calculateTotalMarks parsedInternalMarks parsedExternalMarks in
                  let grade := calculateGrade totalMarks in
                  let newRecord :=
                    mkMarks newId (Some sid) (Some cid) sem
                            (Some parsedInternalMarks) (Some parsedExternalMarks)
                            (Some totalMarks) (Some grade) now later in
                  (Json 201 (Some newRecord),
                   with_marks (marks db ++ [newRecord]) db)
              end
          end
    end.

(** The [updates] object of PUT. *)
Record Updates : Type := mkUpdates {
  up_updatedAt : string;
  up_studentId : option Z;
  up_courseId : option Z;
  up_semester : option Z;
  up_internalMarks : option Z;
  up_externalMarks : option Z;
  up_totalMarks : option Z;
  up_grade : option string }.

Definition over {A : Type} (x : option A) (old : option A) : option A :=
  match x with Some y => Some y | None => old end.

Definition apply_updates (up : Updates) (m : Marks) : Marks :=
  mkMarks (m_id m)
          (over (up_studentId up) (m_studentId m))
          (over (up_courseId up) (m_courseId m))
          (match up_semester up with Some s => s | None => m_semester m end)
          (over (up_internalMarks up) (m_internalMarks m))
          (over (up_externalMarks up) (m_externalMarks m))
          (over (up_totalMarks up) (m_totalMarks m))
          (over (up_grade up) (m_grade m))
          (m_createdAt m)
          (up_updatedAt up).

(** A field of the body that is an id checked against a table: absent, or
    parsed and present in the table. *)
Definition checked_id {A : Type} (eng : Engine) (v : JSValue)
    (rows : Z -> list A) (invalid missing : Resp) : Resp + option Z :=
  match v with
  | JUndefined => inr None
  | _ =>
      match parseInt (frac_digits eng) v with
      | None => inl invalid
      | Some k =>
          match rows k with
          | [] => inl missing
          | _ :: _ => inr (Some k)
          end
      end
  end.

Definition checked_marks (eng : Engine) (v : JSValue) (invalid : Resp)
    : Resp + option Z :=
  match v with
  | JUndefined => inr None
  | _ =>
      if marks_out_of_range eng v then inl invalid
      else inr (parseInt (frac_digits eng) v)
  end.

(** The validation of PUT's body against the current record, building
    [updates]. *)
Definition build_updates (eng : Engine) (now : string) (body : JSObject)
    (db : DB) (currentRecord : Marks) : Resp + Updates :=
  let studentId := get "studentId" body in
  let courseId := get "courseId" body in
  let semester := get "semester" body in
  let internalMarks := get "internalMarks" body in
  let externalMarks := get "externalMarks" body in
  match checked_id eng studentId (student_rows db)
          (fail 400 "Valid student_id is required" "INVALID_STUDENT_ID")
          (fail 400 "Student not found" "STUDENT_NOT_FOUND") with
  | inl r => inl r
  | inr up_sid =>
      match checked_id eng courseId (course_rows db)
              (fail 400 "Valid course_id is required" "INVALID_COURSE_ID")
              (fail 400 "Course not found" "COURSE_NOT_FOUND") with
      | inl r => inl r
      | inr up_cid =>
          match (match semester with
                 | JUndefined => inr None
                 | _ => match parseInt (frac_digits eng) semester with
                        | None =>
                            inl (fail 400 "Valid semester is required"
                                   "INVALID_SEMESTER" : Resp)
                        | Some s => inr (Some s)
                        end
                 end) with
          | inl r => inl r
          | inr up_sem =>
              match checked_marks eng internalMarks
                      (fail 400
                         "Internal marks must be a number between 0 and 100"
                         "INVALID_INTERNAL_MARKS") with
              | inl r => inl r
              | inr up_int =>
                  match checked_marks eng externalMarks
                          (fail 400
                             "External marks must be a number between 0 and 100"
                             "INVALID_EXTERNAL_MARKS") with
                  | inl r => inl r
                  | inr up_ext =>
                      if negb (is_undefined internalMarks)
                         || negb (is_undefined externalMarks) then
                        let newInternalMarks :=
                          over up_int (m_internalMarks currentRecord) in
                        let newExternalMarks :=
                          over up_ext (m_externalMarks currentRecord) in
                        let totalMarks :=
                          calculateTotalMarks (opt_or_zero newInternalMarks)
                            (opt_or_zero newExternalMarks) in
                        inr (mkUpdates now up_sid up_cid up_sem up_int up_ext
                               (Some totalMarks)
                               (Some (calculateGrade totalMarks)))
                      else
                        inr (mkUpdates now up_sid up_cid up_sem up_int up_ext
                               None None)
                  end
              end
          end
      end
  end.

(** The handler of PUT; [id] is [searchParams.get('id')]. *)
Definition PUT (eng : Engine) (now : string) (id : option string)
    (body : JSObject) (db : DB) : Resp * DB :=
  match match id with Some s => parseInt_string s | None => None end with
  | None => (fail 400 "Valid ID is required" "INVALID_ID", db)
  | Some k =>
      match firstn 1 (filter (fun m => m_id m =? k) (marks db)) with
      | [] => (Fail 404 (mkError "Marks record not found" None), db)
      | currentRecord :: _ =>
          match build_updates eng now body db currentRecord with
          | inl r => (r, db)
          | inr up =>
              let '(ms, updated) :=
                update_where (fun m => m_id m =? k) (apply_updates up)
                  (marks db) in
              (Json 200 (hd_error updated), with_marks ms db)
          end
      end
  end.

(** The sum of the two components of a record as the specification has it,
    written without the handlers' helpers: a NULL component adds nothing. *)
Definition components_sum (m : Marks) : Z :=
  match m_internalMarks m, m_externalMarks m with
  | Some i, Some e => i + e
  | Some i, None => i
  | None, Some e => e
  | None, None => 0
  end.

(** A record whose total is the sum of its components and whose grade is the
    grade of that sum. *)
Definition derived (m : Marks) : Prop :=
  m_totalMarks m = Some (components_sum m) /\
  m_grade m = Some (calculateGrade (components_sum m)).

Definition in_range (x : option Z) : Prop :=
  match x with Some n => 0 <= n <= 100 | None => True end.

End MarksRoute.

(* ================================================================= *)
(** ** The marks route: fetching and deleting a record *)

Module MarksCrud.
Import JS Schema Http MarksRoute.

(** [GET] with an [id] in the query: the branch [if (id)], taken when the
    parameter is present and not empty.  The listing branch is not modelled:
    [None]. *)
Definition GET (id : option string) (db : DB) : option (Response Marks) :=
  match id with
  | None => None
  | Some s =>
      if String.eqb s "" then None
      else
        Some
          match parseInt_string s with
          | None => fail 400 "Valid ID is required" "INVALID_ID"
          | Some k =>
              match firstn 1 (filter (fun m => m_id m =? k) (marks db)) with
              | [] => Fail 404 (mkError "Marks record not found" None)
              | record :: _ => Json 200 record
              end
          end
  end.

(** The body of the answer to a [DELETE]. *)
Record Deleted : Type := mkDeleted {
  message : string;
  record : option Marks }.

Definition DELETE (id : option string) (db : DB) : Response Deleted * DB :=
  match match id with Some s => parseInt_string s | None => None end with
  | None => (fail 400 "Valid ID is required" "INVALID_ID", db)
  | Some k =>
      match firstn 1 (filter (fun m => m_id m =? k) (marks db)) with
      | [] => (Fail 404 (mkError "Marks record not found" None), db)
      | _ :: _ =>
          let deleted := filter (fun m => m_id m =? k) (marks db) in
          (Json 200
             (mkDeleted "Marks record deleted successfully" (hd_error deleted)),
           with_marks (filter (fun m => negb (m_id m =? k)) (marks db)) db)
      end
  end.

(** The grades from best to worst. *)
Definition grade_rank (g : string) : Z :=
  if String.eqb g "A" then 4
  else if String.eqb g "B" then 3
  else if String.eqb g "C" then 2
  else if String.eqb g "D" then 1
  else 0.

End MarksCrud.

(* ================================================================= *)
(** ** [GET] of the dashboard statistics: the report *)

Module Dashboard.
Import JS Schema Http.

(** [count()] of a query's rows, a JavaScript number. *)
Definition count {A : Type} (rows : list A) : Z := Z.of_nat (List.length rows).

(** *** ORDER BY .. DESC LIMIT n

    Text is compared byte by byte and NULL sorts below every text.  Among
    rows with equal keys the engine is free; here they keep their order. *)

Definition text_leb (x y : string) : bool := String.leb x y.

Definition null_leb (x y : option string) : bool :=
  match x, y with
  | None, _ => true
  | Some _, None => false
  | Some a, Some b => text_leb a b
  end.

Section OrderBy.
Context {A K : Type} (leb : K -> K -> bool) (key : A -> K).

Fixpoint insert_desc (x : A) (sorted : list A) : list A :=
  match sorted with
  | [] => [x]
  | y :: rest =>
      if leb (key y) (key x) then x :: sorted else y :: insert_desc x rest
  end.

Definition order_by_desc (rows : list A) : list A :=
  fold_right insert_desc [] rows.

(** [x] may come before [y] in a descending order. *)
Definition desc (x y : A) : Prop := leb (key y) (key x) = true.
End OrderBy.

(** *** The activity feeds *)

Record RecentEnrollment : Type := mkRecentEnrollment {
  re_id : Z;
  re_studentName : string;
  re_courseName : string;
  re_enrollmentDate : string;
  re_status : string }.

Record RecentFeePayment : Type := mkRecentFeePayment {
  rf_id : Z;
  rf_studentName : string;
  rf_amount : float;
  rf_type : string;
  rf_paidDate : option string;
  rf_status : string }.

(** [enrollments inner join students .. inner join courses ..]. *)
Definition enrollment_join (db : DB) : list (Enrollment * Student * Course) :=
  flat_map
    (fun e =>
       flat_map
         (fun s =>
            map (fun c => (e, s, c))
              (filter (fun c => col_eq (e_courseId e) (c_id c)) (courses db)))
         (filter (fun s => col_eq (e_studentId e) (s_id s)) (students db)))
    (enrollments db).

Definition enrollment_createdAt (r : Enrollment * Student * Course) : string :=
  e_createdAt (fst (fst r)).

Definition recent_enrollment_rows (db : DB) : list (Enrollment * Student * Course) :=
  firstn 10 (order_by_desc text_leb enrollment_createdAt (enrollment_join db)).

Definition select_enrollment (r : Enrollment * Student * Course) : RecentEnrollment :=
  let '(e, s, c) := r in
  mkRecentEnrollment (e_id e) (s_name s) (c_title c) (e_enrollmentDate e)
    (e_status e).

Definition recentEnrollments (db : DB) : list RecentEnrollment :=
  map select_enrollment (recent_enrollment_rows db).

(** [fees inner join students .. where fees.status = 'paid']. *)
Definition paid_fee_join (db : DB) : list (Fee * Student) :=
  flat_map
    (fun f =>
       map (fun s => (f, s))
         (filter (fun s => col_eq (f_studentId f) (s_id s)) (students db)))
    (filter (fun f => String.eqb (f_status f) "paid") (fees db)).

Definition fee_paidDate (r : Fee * Student) : option string :=
  f_paidDate (fst r).

Definition recent_payment_rows (db : DB) : list (Fee * Student) :=
  firstn 10 (order_by_desc null_leb fee_paidDate (paid_fee_join db)).

Definition select_payment (r : Fee * Student) : RecentFeePayment :=
  let '(f, s) := r in
  mkRecentFeePayment (f_id f) (s_name s) (f_amount f) (f_type f) (f_paidDate f)
    (f_status f).

Definition recentFeePayments (db : DB) : list RecentFeePayment :=
  map select_payment (recent_payment_rows db).

(** *** The statistics *)

(** [count > 0 ? Math.round((part / count) * 100) : 0]. *)
Definition percentage (part total : Z) : float :=
  if 0 <? total then
    Math_round ((float_of_Z part / float_of_Z total) * 100)%float
  else 0%float.

Record Overview : Type := mkOverview {
  ov_totalStudents : Z;
  ov_totalCourses : Z;
  ov_totalFaculty : Z;
  ov_pendingFees : Z;
  ov_overdueFees : Z }.

Record EnrollmentStats : Type := mkEnrollmentStats {
  es_total : Z;
  es_active : Z;
  es_completionRate : float }.

Record AttendanceStats : Type := mkAttendanceStats {
  as_totalRecords : Z;
  as_presentRecords : Z;
  as_overallPercentage : float }.

Record RecentActivities : Type := mkRecentActivities {
  ra_enrollments : list RecentEnrollment;
  ra_feePayments : list RecentFeePayment }.

(** The part of [dashboardStats] modelled here; the distributions, the fee
    sums and trend and the performance metrics are further fields of the
    same object, each from a query of its own. *)
Record DashboardStats : Type := mkDashboardStats {
  overview : Overview;
  enrollmentStats : EnrollmentStats;
  recentActivities : RecentActivities;
  attendanceStats : AttendanceStats;
  generatedAt : string }.

Definition GET (now : string) (db : DB) : Response DashboardStats :=
  let totalStudents :=
    count (filter (fun s => String.eqb (s_status s) "active") (students db)) in
  let totalCourses := count (courses db) in
  let totalFaculty := count (faculty db) in
  let pendingFees :=
    count (filter (fun f => String.eqb (f_status f) "pending") (fees db)) in
  let overdueFees :=
    count (filter (fun f => String.eqb (f_status f) "overdue") (fees db)) in
  let totalEnrollments := count (enrollments db) in
  let activeEnrollments :=
    count (filter (fun e => String.eqb (e_status e) "active") (enrollments db)) in
  let totalAttendanceRecords := count (attendance db) in
  let presentRecords :=
    count (filter (fun a => String.eqb (a_status a) "present") (attendance db)) in
  let attendancePercentage := percentage presentRecords totalAttendanceRecords in
  Json 200
    (mkDashboardStats
       (mkOverview totalStudents totalCourses totalFaculty pendingFees overdueFees)
       (mkEnrollmentStats totalEnrollments activeEnrollments
          (percentage activeEnrollments totalEnrollments))
       (mkRecentActivities (recentEnrollments db) (recentFeePayments db))
       (mkAttendanceStats totalAttendanceRecords presentRecords
          attendancePercentage)
       now).

End Dashboard.

(* ================================================================= *)
(** ** The percentages of the report, in exact arithmetic *)

Module ExactPercentage.
Import JS Dashboard.








End ExactPercentage.

(* ================================================================= *)
(** ** [GET] of the dashboard statistics: the distributions *)

Module Distributions.
Import JS Schema Http Dashboard.

(** *** SELECT key, count() .. GROUP BY key

    One row for each key, with the number of rows that have it.  The engine
    is free in the order of the groups; here they come in the order of their
    first row. *)
Section GroupBy.
Context {A K : Type} (eqb : K -> K -> bool) (key : A -> K).

Fixpoint bump (k : K) (groups : list (K * Z)) : list (K * Z) :=
  match groups with
  | [] => [(k, 1)]
  | (k', n) :: rest =>
      if eqb k' k then (k', n + 1) :: rest else (k', n) :: bump k rest
  end.

Definition group_count (rows : list A) : list (K * Z) :=
  fold_left (fun groups r => bump (key r) groups) rows [].

(** The count of the group of [k], 0 when there is none. *)
Definition count_of (k : K) (groups : list (K * Z)) : Z :=
  match find (fun g => eqb (fst g) k) groups with
  | Some g => snd g
  | None => 0
  end.
End GroupBy.

(** Groups as a GROUP BY gives them: no key twice, no empty group. *)
Definition well_grouped {K : Type} (groups : list (K * Z)) : Prop :=
  NoDup (map fst groups) /\ Forall (fun g => 0 < snd g) groups.

Definition active (s : Student) : bool := String.eqb (s_status s) "active".

Definition studentsByCourse (db : DB) : list (string * Z) :=
  group_count String.eqb s_course (filter active (students db)).

Definition studentsByYear (db : DB) : list (Z * Z) :=
  group_count Z.eqb s_year (filter active (students db)).

Definition facultyByDepartment (db : DB) : list (string * Z) :=
  group_count String.eqb fa_department (faculty db).

Definition studentStatusDistribution (db : DB) : list (string * Z) :=
  group_count String.eqb s_status (students db).

(** The counts of a distribution, added up. *)
Definition total {K : Type} (groups : list (K * Z)) : Z :=
  fold_right (fun g n => snd g + n) 0 groups.

End Distributions.

(* ================================================================= *)
(** ** The enrollments route: creating, updating and deleting *)

Module EnrollmentsRoute.
Import JS Schema Http.

Definition Resp : Type := Response Enrollment.

Definition VALID_STATUS_VALUES : list string := ["active"; "dropped"; "completed"].

Definition with_enrollments (es : list Enrollment) (db : DB) : DB :=
  mkDB (students db) (courses db) (faculty db) (fees db) (marks db)
       (attendance db) es.

Definition enrollment_by_id (db : DB) (k : Z) : option Enrollment :=
  find (fun e => e_id e =? k) (enrollments db).

(** The answer of the [catch]; its message goes on with the text of the
    error caught, which is left out. *)
Definition internal_error : Resp :=
  Fail 500 (mkError "Internal server error" None).

Definition invalid_status : Resp :=
  fail 400 "Status must be one of: active, dropped, completed" "INVALID_STATUS".

(** [select from enrollments where student_id = .. and course_id = ..]. *)
Definition same_pair (sid cid : Z) (e : Enrollment) : bool :=
  col_eq (e_studentId e) sid && col_eq (e_courseId e) cid.

(** [POST]; [newId] is the key the engine assigns. *)
Definition POST (eng : Engine) (now : string) (newId : Z) (body : JSObject)
    (db : DB) : Resp * DB :=
  let studentId := get "studentId" body in
  let courseId := get "courseId" body in
  let enrollmentDate := get "enrollmentDate" body in
  let status := get "status" body in
  let parse := parseInt (frac_digits eng) in
  if negb (truthy studentId) then
    (fail 400 "Student ID is required" "MISSING_STUDENT_ID", db)
  else if negb (truthy courseId) then
    (fail 400 "Course ID is required" "MISSING_COURSE_ID", db)
  else
    match parse studentId, parse courseId with
    | None, _ =>
        (fail 400 "Valid student ID is required" "INVALID_STUDENT_ID", db)
    | Some _, None =>
        (fail 400 "Valid course ID is required" "INVALID_COURSE_ID", db)
    | Some sid, Some cid =>
        if truthy status
           && negb (FeesRoute.includes VALID_STATUS_VALUES status) then
          (invalid_status, db)
        else
          match MarksRoute.student_rows db sid with
          | [] => (fail 400 "Student not found" "STUDENT_NOT_FOUND", db)
          | _ :: _ =>
              match MarksRoute.course_rows db cid with
              | [] => (fail 400 "Course not found" "COURSE_NOT_FOUND", db)
              | _ :: _ =>
                  match firstn 1 (filter (same_pair sid cid) (enrollments db)) with
                  | _ :: _ =>
                      (fail 400 "Student is already enrolled in this course"
                         "ENROLLMENT_EXISTS", db)
                  | [] =>
                      let currentTimestamp := now in
                      (* [enrollmentDate || currentTimestamp], [status || 'active'],
                         as the columns keep them *)
                      let date :=
                        if truthy enrollmentDate then
                          FeesRoute.stored_text eng enrollmentDate
                        else Some currentTimestamp in
                      let st :=
                        if truthy status then FeesRoute.stored_text eng status
                        else Some "active" in
                      match date, st with
                      | Some d, Some s =>
                          let newEnrollment :=
                            mkEnrollment newId (Some sid) (Some cid) d s
                              currentTimestamp currentTimestamp in
                          (Json 201 newEnrollment,
                           with_enrollments (enrollments db ++ [newEnrollment]) db)
                      | _, _ => (internal_error, db)
                      end
                  end
              end
          end
    end.

(** The [updateData] object of PUT. *)
Record Updates : Type := mkUpdates {
  up_updatedAt : string;
  up_studentId : option Z;
  up_courseId : option Z;
  up_enrollmentDate : option string;
  up_status : option string }.

Definition apply_updates (up : Updates) (e : Enrollment) : Enrollment :=
  mkEnrollment (e_id e)
    (match up_studentId up with Some k => Some k | None => e_studentId e end)
    (match up_courseId up with Some k => Some k | None => e_courseId e end)
    (match up_enrollmentDate up with Some d => d | None => e_enrollmentDate e end)
    (match up_status up with Some s => s | None => e_status e end)
    (e_createdAt e)
    (up_updatedAt up).

(** A foreign key of PUT's body: absent, or parsed and present in its
    table. *)
Definition checked_key {A : Type} (eng : Engine) (v : JSValue)
    (rows : Z -> list A) (invalid missing : Resp) : Resp + option Z :=
  match v with
  | JUndefined => inr None
  | _ =>
      match parseInt (frac_digits eng) v with
      | None => inl invalid
      | Some k =>
          match rows k with
          | [] => inl missing
          | _ :: _ => inr (Some k)
          end
      end
  end.

(** The value a NOT NULL text column receives from a field of [updateData]:
    nothing for an absent field, and the write fails on [null]. *)
Definition text_field (eng : Engine) (v : JSValue) : Resp + option string :=
  match v with
  | JUndefined => inr None
  | JNull => inl internal_error
  | _ => match FeesRoute.stored_text eng v with
         | Some s => inr (Some s)
         | None => inl internal_error
         end
  end.

(** [eq(column, value)] where the value may be NULL itself. *)
Definition col_is (col value : option Z) : bool :=
  match value with Some v => col_eq col v | None => false end.

(** The rows of the query for a duplicate: the same student and course and,
    as the handler has it, the id of the record being updated. *)
Definition duplicateEnrollment (db : DB) (k : Z)
    (finalStudentId finalCourseId : option Z) : list Enrollment :=
  firstn 1
    (filter (fun e => col_is (e_studentId e) finalStudentId
                      && col_is (e_courseId e) finalCourseId
                      && (e_id e =? k))
       (enrollments db)).

(** [PUT]; [id] is [searchParams.get('id')]. *)
Definition PUT (eng : Engine) (now : string) (id : option string)
    (body : JSObject) (db : DB) : Resp * DB :=
  let studentId := get "studentId" body in
  let courseId := get "courseId" body in
  let enrollmentDate := get "enrollmentDate" body in
  let status := get "status" body in
  match match id with Some s => parseInt_string s | None => None end with
  | None => (fail 400 "Valid ID is required" "INVALID_ID", db)
  | Some k =>
      match firstn 1 (filter (fun e => e_id e =? k) (enrollments db)) with
      | [] => (Fail 404 (mkError "Enrollment not found" None), db)
      | existingEnrollment :: _ =>
          if truthy status
             && negb (FeesRoute.includes VALID_STATUS_VALUES status) then
            (invalid_status, db)
          else
            match checked_key eng studentId (MarksRoute.student_rows db)
                    (fail 400 "Valid student ID is required" "INVALID_STUDENT_ID")
                    (fail 400 "Student not found" "STUDENT_NOT_FOUND") with
            | inl r => (r, db)
            | inr up_sid =>
                match checked_key eng courseId (MarksRoute.course_rows db)
                        (fail 400 "Valid course ID is required"
                           "INVALID_COURSE_ID")
                        (fail 400 "Course not found" "COURSE_NOT_FOUND") with
                | inl r => (r, db)
                | inr up_cid =>
                    let exists_already :=
                      if negb (is_undefined studentId)
                         || negb (is_undefined courseId) then
                        let finalStudentId :=
                          match up_sid with
                          | Some s => Some s
                          | None => e_studentId existingEnrollment
                          end in
                        let finalCourseId :=
                          match up_cid with
                          | Some c => Some c
                          | None => e_courseId existingEnrollment
                          end in
                        match duplicateEnrollment db k finalStudentId
                                finalCourseId with
                        | d :: _ => negb (e_id d =? k)
                        | [] => false
                        end
                      else false in
                    if exists_already then
                      (fail 400 "Student is already enrolled in this course"
                         "ENROLLMENT_EXISTS", db)
                    else
                      match text_field eng enrollmentDate,
                            text_field eng status with
                      | inl r, _ => (r, db)
                      | inr _, inl r => (r, db)
                      | inr up_date, inr up_st =>
                          let up := mkUpdates now up_sid up_cid up_date up_st in
                          let '(es, updated) :=
                            update_where (fun e => e_id e =? k)
                              (apply_updates up) (enrollments db) in
                          match updated with
                          | [] =>
                              (Fail 404 (mkError "Enrollment not found" None),
                               with_enrollments es db)
                          | u :: _ => (Json 200 u, with_enrollments es db)
                          end
                      end
                end
            end
      end
  end.

(** The body of the answer to a [DELETE]. *)
Record Deleted : Type := mkDeleted {
  message : string;
  deleted : Enrollment }.

Definition DELETE (id : option string) (db : DB) : Response Deleted * DB :=
  match match id with Some s => parseInt_string s | None => None end with
  | None => (fail 400 "Valid ID is required" "INVALID_ID", db)
  | Some k =>
      match firstn 1 (filter (fun e => e_id e =? k) (enrollments db)) with
      | [] => (Fail 404 (mkError "Enrollment not found" None), db)
      | _ :: _ =>
          let gone := filter (fun e => e_id e =? k) (enrollments db) in
          let db' :=
            with_enrollments
              (filter (fun e => negb (e_id e =? k)) (enrollments db)) db in
          match gone with
          | [] => (Fail 404 (mkError "Enrollment not found" None), db')
          | d :: _ => (Json 200 (mkDeleted "Enrollment deleted successfully" d), db')
          end
      end
  end.

(** The pairs of student and course of the enrollments. *)
Definition pairs (db : DB) : list (option Z * option Z) :=
  map (fun e => (e_studentId e, e_courseId e)) (enrollments db).

(** [db'] differs from [db] in the enrollments table at most. *)
Definition only_enrollments_changed (db db' : DB) : Prop :=
  students db' = students db /\ courses db' = courses db /\
  faculty db' = faculty db /\ fees db' = fees db /\
  marks db' = marks db /\ attendance db' = attendance db.

End EnrollmentsRoute.

(* ================================================================= *)
(** ** Payments in flight

    The handler awaits the database three times: the select, the update of
    the fee, the update of the student.  Each statement is atomic; between
    two of them another request may run.  A request in flight is at one of
    the stages below, and a schedule says which of two requests moves next. *)

Module Concurrent.
Import JS Schema Http Payment.

Record Request : Type := mkRequest {
  rq_now : string;
  rq_user : option User;
  rq_id : string;
  rq_body : JSObject }.

Inductive Stage : Type :=
| Start
| Checked (v : Validated) (student : Student)
| FeeWritten (v : Validated) (student : Student) (updated : Fee)
| Done (r : Resp).

(** One move of a request: up to and including its next statement. *)
Definition step (eng : Engine) (rq : Request) (s : Stage) (db : DB)
    : Stage * DB :=
  match s with
  | Start =>
      match validate (rq_user rq) (rq_id rq) (rq_body rq) with
      | inl r => (Done r, db)
      | inr v =>
          match check eng v (select_fee db (v_feeId v)) with
          | inl r => (Done r, db)
          | inr (fee, student) => (Checked v student, db)
          end
      end
  | Checked v student =>
      let '(db1, updatedFee) := write_fee (rq_now rq) (v_feeId v) db in
      match updatedFee with
      | [] => (Done (fail 500 "Failed to update fee record" "UPDATE_FAILED"), db1)
      | updated :: _ => (FeeWritten v student updated, db1)
      end
  | FeeWritten v student updated =>
      (Done (Json 200 (paymentResponse (rq_now rq) v student updated)),
       write_student (rq_now rq) student (newBalance student (v_amount v)) db)
  | Done r => (Done r, db)
  end.

(** A request run alone, to its end. *)
Definition alone (eng : Engine) (rq : Request) (db : DB) : Stage * DB :=
  let '(s1, db1) := step eng rq Start db in
  let '(s2, db2) := step eng rq s1 db1 in
  step eng rq s2 db2.

(** Two requests under a schedule: [true] moves the first, [false] the
    second. *)
Fixpoint run (eng : Engine) (rq1 rq2 : Request) (sched : list bool)
    (s1 s2 : Stage) (db : DB) : Stage * Stage * DB :=
  match sched with
  | [] => (s1, s2, db)
  | true :: rest =>
      let '(s1', db') := step eng rq1 s1 db in run eng rq1 rq2 rest s1' s2 db'
  | false :: rest =>
      let '(s2', db') := step eng rq2 s2 db in run eng rq1 rq2 rest s1 s2' db'
  end.

Definition response (s : Stage) : option Resp :=
  match s with Done r => Some r | _ => None end.

End Concurrent.

(* ================================================================= *)
(** ** The precondition checks of the payment, as an ordered list *)

Module PaymentOrder.
Import JS Schema Http Payment.

(** A check reads the request body, the database and the fee id; it comes
    with the code of the failure it reports. *)
Definition Check : Type := (JSObject -> DB -> Z -> bool) * string.

Definition amount_missing (body : JSObject) (_ : DB) (_ : Z) : bool :=
  is_undefined (get "amount_paid" body) || is_null (get "amount_paid" body).

Definition method_missing (body : JSObject) (_ : DB) (_ : Z) : bool :=
  negb (truthy (get "payment_method" body))
  || negb (typeof_string (get "payment_method" body)).

Definition txn_missing (body : JSObject) (_ : DB) (_ : Z) : bool :=
  negb (truthy (get "transaction_id" body))
  || negb (typeof_string (get "transaction_id" body)).

Definition amount_invalid (body : JSObject) (_ : DB) (_ : Z) : bool :=
  match get "amount_paid" body with
  | JNumber a => (a <=? 0)%float
  | _ => true
  end.

Definition fee_missing (_ : JSObject) (db : DB) (feeId : Z) : bool :=
  match fee_by_id db feeId with Some _ => false | None => true end.

Definition student_missing (_ : JSObject) (db : DB) (feeId : Z) : bool :=
  match fee_by_id db feeId with
  | Some fee =>
      match f_studentId fee with
      | Some sid =>
          match student_by_id db sid with Some _ => false | None => true end
      | None => true
      end
  | None => false
  end.

Definition already_paid (_ : JSObject) (db : DB) (feeId : Z) : bool :=
  match fee_by_id db feeId with
  | Some fee => String.eqb (f_status fee) "paid"
  | None => false
  end.

Definition not_payable (_ : JSObject) (db : DB) (feeId : Z) : bool :=
  match fee_by_id db feeId with
  | Some fee =>
      negb (String.eqb (f_status fee) "pending")
      && negb (String.eqb (f_status fee) "overdue")
  | None => false
  end.

Definition amount_off (body : JSObject) (db : DB) (feeId : Z) : bool :=
  match get "amount_paid" body, fee_by_id db feeId with
  | JNumber a, Some fee => (0.01 <? Math_abs (a - f_amount fee))%float
  | _, _ => false
  end.

(** The code of the first check of the list that fails, if any. *)
Fixpoint first_failure (checks : list Check) (body : JSObject) (db : DB)
    (feeId : Z) : option string :=
  match checks with
  | [] => None
  | (fails, c) :: rest =>
      if fails body db feeId then Some c else first_failure rest body db feeId
  end.

Definition input_checks : list Check :=
  [ (amount_missing, "MISSING_AMOUNT_PAID");
    (method_missing, "MISSING_PAYMENT_METHOD");
    (txn_missing, "MISSING_TRANSACTION_ID");
    (amount_invalid, "INVALID_AMOUNT") ].

Definition existence_checks : list Check :=
  [ (fee_missing, "FEE_NOT_FOUND");
    (student_missing, "STUDENT_NOT_FOUND") ].

Definition state_checks : list Check :=
  [ (already_paid, "FEE_ALREADY_PAID");
    (not_payable, "INVALID_FEE_STATUS");
    (amount_off, "AMOUNT_MISMATCH") ].

(** The order of the handler: inputs, then the fee and its student, then the
    status and the amount. *)
Definition handler_order : list Check :=
  input_checks ++ existence_checks ++ state_checks.

(** The order the specification lists: the fee and its student, then the
    inputs, then the status and the amount. *)
Definition spec_order : list Check :=
  existence_checks ++ input_checks ++ state_checks.

(** A fee without a student row: its column is NULL or dangling. *)
Definition orphan (db : DB) (fee : Fee) : Prop :=
  match f_studentId fee with
  | Some sid => student_by_id db sid = None
  | None => True
  end.

End PaymentOrder.

(* ================================================================= *)
(** ** Two payments of one fee, abstractly

    Two valid requests for the same payable fee: all that matters of a
    request in flight is how far it got, and of the database, which request
    wrote the fee last and which wrote the student last. *)

Module TwoPayments.
Import JS Schema Http Payment Concurrent.

Record Setting : Type := mkSetting {
  eng : Engine;
  rq1 : Request;
  rq2 : Request;
  v1 : Validated;
  v2 : Validated;
  db0 : DB;
  feeId : Z;
  fee0 : Fee;
  sid : Z;
  st0 : Student }.

(** Both requests pass the input validation and name the fee [feeId], which
    is pending or overdue, belongs to the student [st0], and whose amount
    both requests match within the tolerance. *)
Definition well_set (S : Setting) : Prop :=
  validate (rq_user (rq1 S)) (rq_id (rq1 S)) (rq_body (rq1 S)) = inr (v1 S) /\
  validate (rq_user (rq2 S)) (rq_id (rq2 S)) (rq_body (rq2 S)) = inr (v2 S) /\
  v_feeId (v1 S) = feeId S /\
  v_feeId (v2 S) = feeId S /\
  fee_by_id (db0 S) (feeId S) = Some (fee0 S) /\
  f_studentId (fee0 S) = Some (sid S) /\
  student_by_id (db0 S) (sid S) = Some (st0 S) /\
  (f_status (fee0 S) = "pending" \/ f_status (fee0 S) = "overdue") /\
  (0.01 <? Math_abs (v_amount (v1 S) - f_amount (fee0 S)))%float = false /\
  (0.01 <? Math_abs (v_amount (v2 S) - f_amount (fee0 S)))%float = false.

Definition rq (S : Setting) (who : bool) : Request :=
  if who then rq1 S else rq2 S.

Definition vd (S : Setting) (who : bool) : Validated :=
  if who then v1 S else v2 S.

Inductive AStage : Type := AStart | AChecked | AWritten | APaid | AConflict.

Record Abs : Type := mkAbs {
  p1 : AStage;
  p2 : AStage;
  fee_writer : option bool;
  student_writer : option bool }.

Definition stage_of (who : bool) (a : Abs) : AStage :=
  if who then p1 a else p2 a.

Definition with_stage (who : bool) (p : AStage) (a : Abs) : Abs :=
  if who then mkAbs p (p2 a) (fee_writer a) (student_writer a)
  else mkAbs (p1 a) p (fee_writer a) (student_writer a).

Definition abs_step (who : bool) (a : Abs) : Abs :=
  match stage_of who a with
  | AStart =>
      match fee_writer a with
      | None => with_stage who AChecked a
      | Some _ => with_stage who AConflict a
      end
  | AChecked =>
      with_stage who AWritten
        (mkAbs (p1 a) (p2 a) (Some who) (student_writer a))
  | AWritten =>
      with_stage who APaid (mkAbs (p1 a) (p2 a) (fee_writer a) (Some who))
  | APaid | AConflict => a
  end.

Fixpoint abs_run (sched : list bool) (a : Abs) : Abs :=
  match sched with
  | [] => a
  | who :: rest => abs_run rest (abs_step who a)
  end.

Definition abs_init : Abs := mkAbs AStart AStart None None.

Definition wrote_fee (p : AStage) : bool :=
  match p with AWritten | APaid => true | _ => false end.

Definition is_paid (p : AStage) : bool :=
  match p with APaid => true | _ => false end.

Definition is_done (p : AStage) : bool :=
  match p with APaid | AConflict => true | _ => false end.

(** What holds of every state the two requests can reach. *)
Definition good (a : Abs) : bool :=
  match fee_writer a with
  | None =>
      negb (wrote_fee (p1 a)) && negb (wrote_fee (p2 a))
      && negb (is_done (p1 a)) && negb (is_done (p2 a))
      && match student_writer a with None => true | Some _ => false end
  | Some w =>
      wrote_fee (stage_of w a)
      && match student_writer a with
         | None => negb (is_paid (p1 a)) && negb (is_paid (p2 a))
         | Some w' => is_paid (stage_of w' a)
         end
  end.

(** The stage and the database an abstract state stands for. *)
Definition conflict : Resp :=
  fail 400 "Fee has already been paid" "FEE_ALREADY_PAID".

Definition cstage (S : Setting) (who : bool) (p : AStage) : Stage :=
  let now := rq_now (rq S who) in
  let v := vd S who in
  match p with
  | AStart => Start
  | AChecked => Checked v (st0 S)
  | AWritten => FeeWritten v (st0 S) (mark_paid now (fee0 S))
  | APaid =>
      Done (Json 200 (paymentResponse now v (st0 S) (mark_paid now (fee0 S))))
  | AConflict => Done conflict
  end.

Definition cfees (S : Setting) (w : option bool) : list Fee :=
  match w with
  | None => fees (db0 S)
  | Some who =>
      map (fun f => if f_id f =? feeId S
                    then mark_paid (rq_now (rq S who)) f else f)
        (fees (db0 S))
  end.

Definition cstudents (S : Setting) (w : option bool) : list Student :=
  match w with
  | None => students (db0 S)
  | Some who =>
      map (fun s => if s_id s =? s_id (st0 S)
                    then set_balance (newBalance (st0 S) (v_amount (vd S who)))
                           (rq_now (rq S who)) s
                    else s)
        (students (db0 S))
  end.

Definition cdb (S : Setting) (a : Abs) : DB :=
  with_students (cstudents S (student_writer a))
    (with_fees (cfees S (fee_writer a)) (db0 S)).

(** The answer to a request that paid. *)
Definition paid_response (S : Setting) (who : bool) : Resp :=
  Json 200
    (paymentResponse (rq_now (rq S who)) (vd S who) (st0 S)
       (mark_paid (rq_now (rq S who)) (fee0 S))).

End TwoPayments.

(* ================================================================= *)
(** ** Data for the worked examples *)

Module Scenario.
Import JS Schema Http Payment Concurrent TwoPayments.

(** An engine for the examples; none of them prints a fractional number,
    parses a date or stores a value that is not a string. *)
Definition engine : Engine :=
  mkEngine (fun _ => "") (fun _ => true) (fun _ => None).

(** An engine whose [Date.parse] takes the strings of ten characters or
    more, the dates of the examples among them. *)
Definition dated : Engine :=
  mkEngine (fun _ => "")
           (fun v => match v with
                     | JString s => (String.length s <? 10)%nat
                     | _ => true
                     end)
           (fun _ => None).

Definition admin : User := mkUser 1 "admin".

Definition t0 : string := "2025-01-01T08:00:00.000Z".
Definition t1 : string := "2025-01-15T10:00:00.000Z".
Definition t2 : string := "2025-01-15T10:05:00.000Z".

Definition student7 : Student :=
  mkStudent 7 None "Asha Rao" "asha@college.test" "B.Sc Physics" 2
            (Some 1200%float) None None "2024-07-01" "active" t0 t0.

Definition fee1 : Fee :=
  mkFee 1 (Some 7) 500%float "2025-01-31" None "pending" "tuition" t0 t0.

(** Fee 1 of 500.00, pending, owed by student 7 whose balance is 1200.00. *)
Definition db0 : DB := mkDB [student7] [] [] [fee1] [] [] [].

Definition payment (amount : float) (txn : string) : JSObject :=
  [("amount_paid", JNumber amount); ("payment_method", JString "cash");
   ("transaction_id", JString txn)].

(** The database after fee 1 was paid at [t1]. *)
Definition db_paid : DB :=
  snd (PUT engine t1 (Some admin) "1" (payment 500%float "TXN-001") db0).

Definition fee300 : Fee :=
  mkFee 2 (Some 7) 300%float "2025-02-28" None "overdue" "exam" t0 t0.

Definition db300 : DB := mkDB [student7] [] [] [fee300] [] [] [].

(** Two paid fees of student 7: fee 11 was created first and paid last. *)
Definition two_payments : DB :=
  mkDB [student7] [] []
       [ mkFee 11 (Some 7) 100%float "2025-03-31" (Some "2025-03-01T09:00:00.000Z")
               "paid" "exam" "2025-01-01T09:00:00.000Z" "2025-03-01T09:00:00.000Z";
         mkFee 12 (Some 7) 200%float "2025-03-31" (Some "2025-02-15T09:00:00.000Z")
               "paid" "library" "2025-02-01T09:00:00.000Z"
               "2025-02-15T09:00:00.000Z" ]
       [] [] [].

(** Three enrollments of student 7: the first two in course 3, the third in
    a course that does not exist. *)
Definition campus : DB :=
  mkDB [student7]
       [mkCourse 3 "Mechanics" "PH101" 4 "Physics" None (Some 2) t0 t0]
       [] [] [] []
       [ mkEnrollment 21 (Some 7) (Some 3) "2025-01-10" "completed"
                      "2025-01-10T09:00:00.000Z" "2025-01-10T09:00:00.000Z";
         mkEnrollment 22 (Some 7) (Some 3) "2025-02-10" "active"
                      "2025-02-10T09:00:00.000Z" "2025-02-10T09:00:00.000Z";
         mkEnrollment 23 (Some 7) (Some 4) "2025-03-10" "active"
                      "2025-03-10T09:00:00.000Z" "2025-03-10T09:00:00.000Z" ].

(** The body of a POST that creates an exam fee of 300.00 for student 7. *)
Definition new_fee : JSObject :=
  [("studentId", JNumber 7%float); ("amount", JNumber 300%float);
   ("dueDate", JString "2025-02-28"); ("type", JString "exam")].

(** Student 7 with 35 + 50 in course 3, first semester. *)
Definition marks31 : Marks :=
  mkMarks 31 (Some 7) (Some 3) 1 (Some 35) (Some 50) (Some 85) (Some "B") t0 t0.

Definition graded : DB :=
  mkDB [student7]
       [mkCourse 3 "Mechanics" "PH101" 4 "Physics" None (Some 1) t0 t0]
       [] [] [marks31] [] [].

(** The body of a POST that records 40 + 45 for student 7 in course 3. *)
Definition new_marks : JSObject :=
  [("studentId", JNumber 7%float); ("courseId", JNumber 3%float);
   ("semester", JNumber 2%float); ("internalMarks", JNumber 40%float);
   ("externalMarks", JNumber 45%float)].

(** Student 7 enrolled in course 3 and in course 5. *)
Definition enrolled : DB :=
  mkDB [student7]
       [mkCourse 3 "Mechanics" "PH101" 4 "Physics" None (Some 1) t0 t0;
        mkCourse 5 "Optics" "PH205" 3 "Physics" None (Some 1) t0 t0;
        mkCourse 6 "Algebra" "MA101" 4 "Mathematics" None (Some 0) t0 t0]
       [] [] [] []
       [ mkEnrollment 41 (Some 7) (Some 3) "2025-01-10" "active" t0 t0;
         mkEnrollment 42 (Some 7) (Some 5) "2025-01-11" "active" t0 t0 ].

(** The body of a POST that enrolls student 7 in course 6. *)
Definition new_enrollment : JSObject :=
  [("studentId", JNumber 7%float); ("courseId", JNumber 6%float)].

(** Fee 1 still pending beside a fee paid on January 5th; a second student
    and two teachers. *)
Definition ledger : DB :=
  mkDB [student7;
        mkStudent 8 None "Vikram Das" "vikram@college.test" "B.Sc Physics" 1
                  (Some 0%float) None None "2024-07-01" "inactive" t0 t0]
       [] 
       [mkFaculty 1 None "R. Iyer" "iyer@college.test" "Physics" "Professor"
                  90000%float None None t0 t0;
        mkFaculty 2 None "S. Khan" "khan@college.test" "Physics" "Lecturer"
                  60000%float None None t0 t0]
       [ mkFee 11 (Some 7) 100%float "2025-01-10" (Some "2025-01-05T09:00:00.000Z")
               "paid" "exam" t0 "2025-01-05T09:00:00.000Z";
         fee1 ]
       [] [] [].

(** Student 7 owing both fees. *)
Definition two_fees : DB := mkDB [student7] [] [] [fee1; fee300] [] [] [].

(** A record of 35 + 50 stored with total 0 and grade F, as a seed or an
    import may leave it. *)
Definition stale_marks : Marks :=
  mkMarks 31 (Some 7) (Some 3) 1 (Some 35) (Some 50) (Some 0) (Some "F") t0 t0.

Definition stale : DB :=
  mkDB [student7]
       [mkCourse 3 "Mechanics" "PH101" 4 "Physics" None (Some 1) t0 t0]
       [] [] [stale_marks] [] [].


(** Two requests to pay fee 1, each with the right amount. *)
Definition first_request : Request :=
  mkRequest t1 (Some admin) "1" (payment 500%float "TXN-001").

Definition second_request : Request :=
  mkRequest t2 (Some admin) "1" (payment 500%float "TXN-002").

Definition double_payment : Setting :=
  mkSetting engine first_request second_request
    (mkValidated admin 1 500%float "cash" "TXN-001")
    (mkValidated admin 1 500%float "cash" "TXN-002")
    db0 1 fee1 7 student7.

End Scenario.

(* ================================================================= *)
(** ** Facts about doubles *)

Module FloatFacts.

Lemma SFcompare_swap (x y : spec_float) :
  SFcompare y x = option_map CompOpp (SFcompare x y).
Proof.
  destruct x as [sx|sx| |sx mx ex], y as [sy|sy| |sy my ey]; cbn;
    try reflexivity;
    try (destruct sx; reflexivity); try (destruct sy; reflexivity);
    try (destruct sx, sy; reflexivity).
  destruct sx, sy; cbn; try reflexivity;
    rewrite (Z.compare_antisym ex ey);
    destruct (ex ?= ey) eqn:E; cbn; try reflexivity;
    rewrite (Pos.compare_cont_antisym mx my Eq); cbn;
    destruct (Pos.compare_cont Eq mx my); reflexivity.
Qed.

Lemma ltb_not_leb (x y : float) :
  (x <? y)%float = true -> (y <=? x)%float = false.
Proof.
  rewrite FloatAxioms.ltb_spec, FloatAxioms.leb_spec. unfold SFltb, SFleb.
  rewrite (SFcompare_swap (Prim2SF x) (Prim2SF y)).
  destruct (SFcompare (Prim2SF x) (Prim2SF y)) as [[| |]|]; cbn; congruence.
Qed.

Lemma leb_not_ltb (x y : float) :
  (x <=? y)%float = true -> (y <? x)%float = false.
Proof.
  rewrite FloatAxioms.ltb_spec, FloatAxioms.leb_spec. unfold SFltb, SFleb.
  rewrite (SFcompare_swap (Prim2SF x) (Prim2SF y)).
  destruct (SFcompare (Prim2SF x) (Prim2SF y)) as [[| |]|]; cbn; congruence.
Qed.

(** Subtracting a positive double from either zero gives its opposite. *)
Lemma zero_sub_positive (z a : float) :
  PrimFloat.is_zero z = true -> (0 <? a)%float = true ->
  (z - a)%float = (0 - a)%float.
Proof.
  unfold PrimFloat.is_zero. rewrite FloatAxioms.eqb_spec, FloatAxioms.ltb_spec.
  intros Hz Ha. apply Prim2SF_inj. rewrite !sub_spec.
  change (Prim2SF 0%float) with (S754_zero false) in *.
  destruct (Prim2SF z) as [sz|[|]| |[|] mz ez]; cbn in Hz; try discriminate Hz.
  destruct (Prim2SF a) as [sa|[|]| |[|] ma ea]; cbn in Ha; try discriminate Ha;
    destruct sz; reflexivity.
Qed.

End FloatFacts.

(* ================================================================= *)
(** ** Facts about tables *)

Module TableFacts.
Import Schema.

Lemma find_filter {A : Type} (p : A -> bool) (l : list A) (x : A) :
  find p l = Some x -> exists rest, filter p l = x :: rest.
Proof.
  induction l as [|y l IH]; cbn; [discriminate|].
  destruct (p y) eqn:E; intros H.
  - injection H as ->. eauto.
  - auto.
Qed.

Lemma find_none_filter {A : Type} (p : A -> bool) (l : list A) :
  find p l = None -> filter p l = [].
Proof.
  induction l as [|y l IH]; cbn; [reflexivity|].
  destruct (p y); [discriminate | exact IH].
Qed.

Lemma filter_false {A : Type} (l : list A) : filter (fun _ => false) l = [].
Proof. induction l; cbn; auto. Qed.

Lemma filter_nil_find {A : Type} (p : A -> bool) (l : list A) :
  filter p l = [] -> find p l = None.
Proof.
  induction l as [|y l IH]; cbn; [reflexivity|].
  destruct (p y); [discriminate | exact IH].
Qed.

Lemma find_key {A : Type} (key : A -> Z) (k : Z) (l : list A) (x : A) :
  find (fun r => key r =? k) l = Some x -> key x = k.
Proof.
  intros H. apply find_some in H. destruct H as [_ H]. lia.
Qed.

(** Looking a key up after an update that keeps keys. *)
Lemma find_update {A : Type} (key : A -> Z) (k k' : Z) (upd : A -> A)
    (l : list A) :
  (forall r, key (upd r) = key r) ->
  find (fun r => key r =? k') (map (fun r => if key r =? k then upd r else r) l)
  = if k' =? k then option_map upd (find (fun r => key r =? k') l)
    else find (fun r => key r =? k') l.
Proof.
  intros Hkey. induction l as [|y l IH]; cbn.
  - destruct (k' =? k); reflexivity.
  - destruct (key y =? k) eqn:Ek.
    + rewrite Hkey. destruct (key y =? k') eqn:Ek'.
      * assert ((k' =? k) = true) as -> by lia. reflexivity.
      * exact IH.
    + destruct (key y =? k') eqn:Ek'.
      * assert ((k' =? k) = false) as -> by lia. reflexivity.
      * exact IH.
Qed.

(** An update whose condition no row meets changes nothing. *)
Lemma update_none {A : Type} (cond : A -> bool) (upd : A -> A) (l : list A) :
  filter cond l = [] -> map (fun r => if cond r then upd r else r) l = l.
Proof.
  induction l as [|y l IH]; cbn; [reflexivity|].
  destruct (cond y); [discriminate|]. intros H. now rewrite IH.
Qed.

End TableFacts.

(* ================================================================= *)
(** ** Facts about the payment handler *)

Module PaymentFacts.
Import JS Schema Http Payment PaymentOrder TableFacts FloatFacts.

Lemma select_fee_found (db : DB) (feeId sid : Z) (fee : Fee) (st : Student) :
  fee_by_id db feeId = Some fee ->
  f_studentId fee = Some sid ->
  student_by_id db sid = Some st ->
  select_fee db feeId = [(fee, Some st)].
Proof.
  unfold fee_by_id, student_by_id, select_fee. intros Hf Hs Hst.
  destruct (find_filter _ _ _ Hf) as [rest ->]. cbn [flat_map].
  rewrite Hs. cbn [col_eq].
  assert (Heq : filter (fun s => sid =? s_id s) (students db)
                = filter (fun s => s_id s =? sid) (students db)).
  { apply filter_ext. intros s. apply Z.eqb_sym. }
  rewrite Heq. destruct (find_filter _ _ _ Hst) as [rest' ->]. reflexivity.
Qed.

Lemma select_fee_missing (db : DB) (feeId : Z) :
  fee_by_id db feeId = None -> select_fee db feeId = [].
Proof.
  unfold fee_by_id, select_fee. intros H.
  now rewrite (find_none_filter _ _ H).
Qed.

Lemma select_fee_orphan (db : DB) (feeId : Z) (fee : Fee) :
  fee_by_id db feeId = Some fee -> orphan db fee ->
  select_fee db feeId = [(fee, None)].
Proof.
  unfold fee_by_id, student_by_id, select_fee, orphan. intros Hf Ho.
  destruct (find_filter _ _ _ Hf) as [rest ->]. cbn [flat_map].
  destruct (f_studentId fee) as [sid|]; cbn [col_eq].
  - assert (Heq : filter (fun s => sid =? s_id s) (students db)
                  = filter (fun s => s_id s =? sid) (students db)).
    { apply filter_ext. intros s. apply Z.eqb_sym. }
    rewrite Heq, (find_none_filter _ _ Ho). reflexivity.
  - rewrite filter_false. reflexivity.
Qed.

(** Whatever [select_fee] returns is the first fee with that id. *)
Lemma select_fee_fee (db : DB) (feeId : Z) (fee : Fee) (st : option Student)
    (tl : list (Fee * option Student)) :
  select_fee db feeId = (fee, st) :: tl ->
  fee_by_id db feeId = Some fee /\ tl = [] /\
  exists rest, filter (fun f => f_id f =? feeId) (fees db) = fee :: rest.
Proof.
  unfold select_fee, fee_by_id.
  destruct (find (fun f => f_id f =? feeId) (fees db)) as [f|] eqn:Hf.
  - destruct (find_filter _ _ _ Hf) as [rest Hr]. rewrite Hr. cbn [flat_map].
    destruct (filter _ (students db)) as [|s ss]; cbn; intros H;
      injection H as <- _ <-; eauto.
  - rewrite (find_none_filter _ _ Hf). discriminate.
Qed.

(** The student [select_fee] joins is the first one with the fee's id. *)
Lemma select_fee_student (db : DB) (feeId : Z) (fee : Fee) (st : Student)
    (tl : list (Fee * option Student)) :
  select_fee db feeId = (fee, Some st) :: tl ->
  f_studentId fee = Some (s_id st) /\ student_by_id db (s_id st) = Some st.
Proof.
  intros H. destruct (select_fee_fee _ _ _ _ _ H) as (Hf & _ & rest & Hr).
  unfold select_fee in H. rewrite Hr in H. cbn [flat_map] in H.
  destruct (f_studentId fee) as [sid|] eqn:Hs; cbn [col_eq] in H.
  - destruct (filter (fun s => sid =? s_id s) (students db)) as [|s ss] eqn:Hss.
    + cbn in H. discriminate.
    + cbn in H. injection H as <- _.
      assert (Hin : In s (filter (fun s => sid =? s_id s) (students db)))
        by (rewrite Hss; left; reflexivity).
      apply filter_In in Hin. destruct Hin as [_ Hk].
      assert (sid = s_id s) as -> by lia. split; [reflexivity|].
      unfold student_by_id.
      assert (Heq : filter (fun s0 => s_id s =? s_id s0) (students db)
                  = filter (fun s0 => s_id s0 =? s_id s) (students db)).
      { apply filter_ext. intros s0. apply Z.eqb_sym. }
      rewrite Heq in Hss. clear - Hss.
      induction (students db) as [|y l IH]; cbn in *; [discriminate|].
      destruct (s_id y =? s_id s); [now injection Hss as -> _ | auto].
  - rewrite filter_false in H. cbn in H. discriminate.
Qed.

Lemma fee_after_write_fee (now : string) (feeId k : Z) (db : DB) :
  fee_by_id (fst (write_fee now feeId db)) k
  = if k =? feeId then option_map (mark_paid now) (fee_by_id db k)
    else fee_by_id db k.
Proof.
  unfold write_fee, fee_by_id, update_where. cbn.
  apply (find_update f_id). reflexivity.
Qed.

Lemma student_after_write_student (now : string) (st : Student) (b : float)
    (k : Z) (db : DB) :
  student_by_id (write_student now st b db) k
  = if k =? s_id st then option_map (set_balance b now) (student_by_id db k)
    else student_by_id db k.
Proof.
  unfold write_student, student_by_id, update_where. cbn.
  apply (find_update s_id). reflexivity.
Qed.

Lemma validate_ok (u : User) (id : string) (feeId : Z) (body : JSObject)
    (a : float) (pm tx : string) :
  parseInt_string id = Some feeId ->
  has "userId" body = false -> has "user_id" body = false ->
  get "amount_paid" body = JNumber a -> (a <=? 0)%float = false ->
  get "payment_method" body = JString pm -> pm <> "" ->
  get "transaction_id" body = JString tx -> tx <> "" ->
  validate (Some u) id body = inr (mkValidated u feeId a pm tx).
Proof.
  intros Hid H1 H2 Ha Hpos Hpm Hpm' Htx Htx'.
  unfold validate. rewrite Hid, H1, H2, Ha, Hpm, Htx. cbn.
  apply String.eqb_neq in Hpm', Htx'. rewrite Hpm', Htx', Hpos. reflexivity.
Qed.

(** A successful validation fixes the fields it read. *)
Lemma validate_inr (user : option User) (id : string) (body : JSObject)
    (v : Validated) :
  validate user id body = inr v ->
  user = Some (v_user v) /\ parseInt_string id = Some (v_feeId v) /\
  has "userId" body = false /\ has "user_id" body = false /\
  get "amount_paid" body = JNumber (v_amount v) /\
  (v_amount v <=? 0)%float = false /\
  get "payment_method" body = JString (v_method v) /\ v_method v <> "" /\
  get "transaction_id" body = JString (v_txn v) /\ v_txn v <> "".
Proof.
  unfold validate. destruct user as [u|]; [|discriminate].
  destruct (parseInt_string id) as [feeId|]; [|discriminate].
  destruct (has "userId" body); [discriminate|].
  destruct (has "user_id" body); [discriminate|]. cbn [orb].
  destruct (get "amount_paid" body) as [| | |a| |]; cbn; try discriminate;
    destruct (get "payment_method" body) as [| | | |pm|]; cbn; try discriminate;
    destruct (String.eqb pm "") eqn:Epm; cbn; try discriminate;
    destruct (get "transaction_id" body) as [| | | |tx|]; cbn; try discriminate;
    destruct (String.eqb tx "") eqn:Etx; cbn; try discriminate.
  destruct (a <=? 0)%float eqn:Ea; [discriminate|].
  intros H. injection H as <-. cbn.
  apply String.eqb_neq in Epm, Etx. repeat split; auto.
Qed.

(** Every failure response leaves the database as it was. *)
Lemma PUT_failure_keeps_db (eng : Engine) (now : string) (user : option User)
    (id : string) (body : JSObject) (db : DB) :
  is_success (fst (PUT eng now user id body db)) = false ->
  snd (PUT eng now user id body db) = db.
Proof.
  unfold PUT. destruct (validate user id body) as [r|v]; [reflexivity|].
  destruct (check eng v (select_fee db (v_feeId v))) as [r|[fee st]] eqn:Hc;
    [reflexivity|].
  unfold check in Hc.
  destruct (select_fee db (v_feeId v)) as [|[fee' [st'|]] tl] eqn:Hsel;
    try discriminate.
  destruct (select_fee_fee _ _ _ _ _ Hsel) as (_ & _ & rest & Hr).
  unfold write_fee, update_where. rewrite Hr. cbn. discriminate.
Qed.

(** The run of the handler on a request that passed [validate] and found a
    payable fee with its student. *)
Lemma PUT_payable (eng : Engine) (now : string) (user : option User)
    (id : string) (body : JSObject) (db : DB) (v : Validated) (fee : Fee)
    (sid : Z) (st : Student) :
  validate user id body = inr v ->
  fee_by_id db (v_feeId v) = Some fee ->
  f_studentId fee = Some sid ->
  student_by_id db sid = Some st ->
  f_status fee = "pending" \/ f_status fee = "overdue" ->
  (0.01 <? Math_abs (v_amount v - f_amount fee))%float = false ->
  PUT eng now user id body db
  = (Json 200 (paymentResponse now v st (mark_paid now fee)),
     write_student now st (newBalance st (v_amount v))
       (fst (write_fee now (v_feeId v) db))).
Proof.
  intros Hv Hf Hs Hst Hstatus Htol. unfold PUT. rewrite Hv.
  rewrite (select_fee_found _ _ _ _ _ Hf Hs Hst). unfold check.
  assert (String.eqb (f_status fee) "paid" = false) as ->
    by (destruct Hstatus as [-> | ->]; reflexivity).
  assert (negb (String.eqb (f_status fee) "pending")
          && negb (String.eqb (f_status fee) "overdue") = false) as ->
    by (destruct Hstatus as [-> | ->]; reflexivity).
  rewrite Htol. unfold write_fee, update_where, fee_by_id in *.
  destruct (find_filter _ _ _ Hf) as [rest ->]. reflexivity.
Qed.

Lemma or_zero_sub (b a : float) :
  PrimFloat.is_nan b = false -> (0 <? a)%float = true ->
  (or_zero (Some b) - a)%float = (b - a)%float.
Proof.
  intros Hb Ha. unfold or_zero, number_truthy. rewrite Hb, orb_false_r.
  destruct (PrimFloat.is_zero b) eqn:Hz; cbn; [|reflexivity].
  symmetry. now apply zero_sub_positive.
Qed.

(** C1.  A payment of a positive amount within 0.01 of the fee's amount, with
    a payment method and a transaction id that are non-empty strings, against
    a fee that is pending or overdue and whose student exists, succeeds (HTTP
    200): the fee is stored with status "paid" and with paidDate and updatedAt
    set to the current time, the student's balance is its prior value
    ([balance || 0]) minus amountPaid, and the response reports the balance
    before and after. *)
Theorem recordPayment_succeeds (eng : Engine) (now : string) (u : User)
    (id : string) (feeId : Z) (body : JSObject) (db : DB) (fee : Fee) (sid : Z)
    (st : Student) (a : float) (pm tx : string) :
  parseInt_string id = Some feeId ->
  has "userId" body = false -> has "user_id" body = false ->
  fee_by_id db feeId = Some fee ->
  f_studentId fee = Some sid ->
  student_by_id db sid = Some st ->
  f_status fee = "pending" \/ f_status fee = "overdue" ->
  get "amount_paid" body = JNumber a ->
  (0 <? a)%float = true ->
  (Math_abs (a - f_amount fee) <=? 0.01)%float = true ->
  get "payment_method" body = JString pm -> pm <> "" ->
  get "transaction_id" body = JString tx -> tx <> "" ->
  exists (payload : PaymentResponse) (db' : DB) (fee' : Fee) (st' : Student),
    PUT eng now (Some u) id body db = (Json 200 payload, db') /\
    (fee_by_id db' feeId = Some fee' /\
     f_status fee' = "paid" /\ f_paidDate fee' = Some now /\
     f_updatedAt fee' = now /\ f_amount fee' = f_amount fee) /\
    (student_by_id db' sid = Some st' /\
     s_balance st' = Some (or_zero (s_balance st) - a)%float /\
     s_updatedAt st' = now /\
     (forall b, s_balance st = Some b -> PrimFloat.is_nan b = false ->
                s_balance st' = Some (b - a)%float)) /\
    (pr_fee payload = fee' /\
     si_previousBalance (pr_studentInfo payload) = or_zero (s_balance st) /\
     si_newBalance (pr_studentInfo payload) = (or_zero (s_balance st) - a)%float).
Proof.
  intros Hid Hk1 Hk2 Hf Hs Hst Hstatus Ha Hpos Htol Hpm Hpm' Htx Htx'.
  pose proof (validate_ok u id feeId body a pm tx Hid Hk1 Hk2 Ha
                (ltb_not_leb _ _ Hpos) Hpm Hpm' Htx Htx') as Hv.
  pose proof (PUT_payable eng now (Some u) id body db _ fee sid st Hv Hf Hs Hst
                Hstatus (leb_not_ltb _ _ Htol)) as HPUT.
  cbn [v_feeId v_amount] in HPUT.
  assert (Hsid : s_id st = sid) by (apply (find_key s_id) with (l := students db); exact Hst).
  eexists _, _, (mark_paid now fee), (set_balance (newBalance st a) now st).
  split; [exact HPUT|]. split; [|split].
  - repeat split.
    change (fee_by_id (fst (write_fee now feeId db)) feeId = Some (mark_paid now fee)).
    rewrite fee_after_write_fee, Z.eqb_refl, Hf. reflexivity.
  - rewrite student_after_write_student, Hsid, Z.eqb_refl.
    change (student_by_id (fst (write_fee now feeId db)) sid)
      with (student_by_id db sid).
    rewrite Hst. repeat split.
    intros b Hb Hnan. cbn. unfold newBalance. rewrite Hb.
    now rewrite or_zero_sub.
  - repeat split.
Qed.

(** The spec's scenario: 500.00 paid against fee 1, balance 1200.00. *)
Lemma recordPayment_succeeds_scenario :
  exists (payload : PaymentResponse) (db' : DB) (fee' : Fee) (st' : Student),
    PUT Scenario.engine Scenario.t1 (Some Scenario.admin) "1"
        (Scenario.payment 500%float "TXN-001") Scenario.db0
    = (Json 200 payload, db') /\
    (fee_by_id db' 1 = Some fee' /\
     f_status fee' = "paid" /\ f_paidDate fee' = Some Scenario.t1 /\
     f_updatedAt fee' = Scenario.t1 /\ f_amount fee' = 500%float) /\
    (student_by_id db' 7 = Some st' /\
     s_balance st' = Some (or_zero (Some 1200%float) - 500)%float /\
     s_updatedAt st' = Scenario.t1 /\
     (forall b, Some 1200%float = Some b -> PrimFloat.is_nan b = false ->
                s_balance st' = Some (b - 500)%float)) /\
    (pr_fee payload = fee' /\
     si_previousBalance (pr_studentInfo payload) = or_zero (Some 1200%float) /\
     si_newBalance (pr_studentInfo payload)
     = (or_zero (Some 1200%float) - 500)%float).
Proof.
  apply (recordPayment_succeeds Scenario.engine Scenario.t1 Scenario.admin "1" 1
           (Scenario.payment 500%float "TXN-001") Scenario.db0 Scenario.fee1 7
           Scenario.student7 500%float "cash" "TXN-001");
    try reflexivity; try discriminate.
  left; reflexivity.
Defined.

Example scenario_balance_700 :
  option_map s_balance (student_by_id Scenario.db_paid 7)
  = Some (Some 700%float).
Proof. reflexivity. Qed.

Example scenario_response_balances :
  match fst (PUT Scenario.engine Scenario.t1 (Some Scenario.admin) "1"
               (Scenario.payment 500%float "TXN-001") Scenario.db0) with
  | Json 200 p =>
      si_previousBalance (pr_studentInfo p) = 1200%float /\
      si_newBalance (pr_studentInfo p) = 700%float
  | _ => False
  end.
Proof. cbn. split; reflexivity. Qed.

(** The row read for a fee that exists, joined or not. *)
Lemma select_fee_exists (db : DB) (feeId : Z) (fee : Fee) :
  fee_by_id db feeId = Some fee ->
  exists st, select_fee db feeId = [(fee, st)].
Proof.
  intros Hf. destruct (f_studentId fee) as [sid|] eqn:Hs.
  - destruct (student_by_id db sid) as [st|] eqn:Hst.
    + exists (Some st). now apply select_fee_found with (sid := sid).
    + exists None. apply select_fee_orphan; [exact Hf|].
      unfold orphan. now rewrite Hs.
  - exists None. apply select_fee_orphan; [exact Hf|].
    unfold orphan. now rewrite Hs.
Qed.

(** C2, as the handler has it.  A payment against a fee whose status is
    "paid" never succeeds and leaves the whole database (the fee and the
    student's balance with it) unchanged, whatever the arguments; and when the
    arguments pass the input validation and the fee's student exists, the
    failure is the Conflict "Fee has already been paid", whatever the amount. *)
Theorem recordPayment_paid_rejected (eng : Engine) (now : string)
    (user : option User) (id : string) (feeId : Z) (body : JSObject) (db : DB)
    (fee : Fee) :
  parseInt_string id = Some feeId ->
  fee_by_id db feeId = Some fee ->
  f_status fee = "paid" ->
  is_success (fst (PUT eng now user id body db)) = false /\
  snd (PUT eng now user id body db) = db /\
  (forall v sid st,
     validate user id body = inr v ->
     f_studentId fee = Some sid -> student_by_id db sid = Some st ->
     fst (PUT eng now user id body db)
     = fail 400 "Fee has already been paid" "FEE_ALREADY_PAID" /\
     kind (fst (PUT eng now user id body db)) = Some Conflict).
Proof.
  intros Hid Hf Hpaid.
  assert (Hfail : is_success (fst (PUT eng now user id body db)) = false).
  { unfold PUT. destruct (validate user id body) as [r|v] eqn:Hv.
    - unfold validate in Hv.
      repeat match type of Hv with
             | inl _ = inl _ => injection Hv as <-; reflexivity
             | inr _ = inl _ => discriminate Hv
             | context [match ?x with _ => _ end] => destruct x
             end.
    - destruct (validate_inr _ _ _ _ Hv) as (_ & Hid' & _).
      rewrite Hid in Hid'. injection Hid' as <-.
      destruct (select_fee_exists _ _ _ Hf) as [[st|] ->]; cbn; [|reflexivity].
      rewrite Hpaid. reflexivity. }
  split; [exact Hfail|]. split; [now apply PUT_failure_keeps_db|].
  intros v sid st Hv Hs Hst.
  destruct (validate_inr _ _ _ _ Hv) as (_ & Hid' & _).
  rewrite Hid in Hid'. injection Hid' as Hid'.
  unfold PUT. rewrite Hv, <- Hid', (select_fee_found _ _ _ _ _ Hf Hs Hst).
  cbn. rewrite Hpaid. split; reflexivity.
Qed.

(** The replay of the scenario: fee 1 is paid, the second call is refused
    with Conflict and the balance stays at 700.00. *)
Lemma recordPayment_paid_rejected_replay :
  let call := PUT Scenario.engine Scenario.t2 (Some Scenario.admin) "1"
                (Scenario.payment 500%float "TXN-002") Scenario.db_paid in
  is_success (fst call) = false /\
  snd call = Scenario.db_paid /\
  (forall v sid st,
     validate (Some Scenario.admin) "1" (Scenario.payment 500%float "TXN-002")
     = inr v ->
     f_studentId (mark_paid Scenario.t1 Scenario.fee1) = Some sid ->
     student_by_id Scenario.db_paid sid = Some st ->
     fst call = fail 400 "Fee has already been paid" "FEE_ALREADY_PAID" /\
     kind (fst call) = Some Conflict).
Proof.
  apply (recordPayment_paid_rejected Scenario.engine Scenario.t2
           (Some Scenario.admin) "1" 1 (Scenario.payment 500%float "TXN-002")
           Scenario.db_paid (mark_paid Scenario.t1 Scenario.fee1));
    reflexivity.
Defined.

Example replay_is_conflict :
  kind (fst (PUT Scenario.engine Scenario.t2 (Some Scenario.admin) "1"
               (Scenario.payment 500%float "TXN-002") Scenario.db_paid))
  = Some Conflict /\
  option_map s_balance
    (student_by_id
       (snd (PUT Scenario.engine Scenario.t2 (Some Scenario.admin) "1"
               (Scenario.payment 500%float "TXN-002") Scenario.db_paid)) 7)
  = Some (Some 700%float).
Proof. split; reflexivity. Qed.

(** C2 as stated fails: against the paid fee 1, a request whose amount is 0
    is answered with the input error INVALID_AMOUNT, not with Conflict. *)
Lemma recordPayment_paid_not_always_conflict :
  let r := fst (PUT Scenario.engine Scenario.t2 (Some Scenario.admin) "1"
                  (Scenario.payment 0%float "TXN-002") Scenario.db_paid) in
  option_map f_status (fee_by_id Scenario.db_paid 1) = Some "paid" /\
  code_of r = Some "INVALID_AMOUNT" /\
  kind r = Some InvalidInput /\
  kind r <> Some Conflict.
Proof. cbn. repeat split; discriminate. Qed.

(** C3.  For a pending or overdue fee whose student exists and a request that
    is otherwise valid (authenticated, no identity key, a positive amount, a
    payment method and a transaction id that are non-empty strings), the
    handler answers AMOUNT_MISMATCH exactly when |amountPaid - Fee.amount| >
    0.01 (the subtraction, absolute value and comparison of doubles the code
    computes); the message then carries both numbers and the database is
    unchanged; and when the difference is at most 0.01 the payment succeeds. *)
Theorem recordPayment_amount_tolerance (eng : Engine) (now : string) (u : User)
    (id : string) (feeId : Z) (body : JSObject) (db : DB) (fee : Fee) (sid : Z)
    (st : Student) (a : float) (pm tx : string) :
  parseInt_string id = Some feeId ->
  has "userId" body = false -> has "user_id" body = false ->
  fee_by_id db feeId = Some fee ->
  f_studentId fee = Some sid ->
  student_by_id db sid = Some st ->
  f_status fee = "pending" \/ f_status fee = "overdue" ->
  get "amount_paid" body = JNumber a ->
  (0 <? a)%float = true ->
  get "payment_method" body = JString pm -> pm <> "" ->
  get "transaction_id" body = JString tx -> tx <> "" ->
  let r := fst (PUT eng now (Some u) id body db) in
  let db' := snd (PUT eng now (Some u) id body db) in
  (kind r = Some AmountMismatch
   <-> (0.01 <? Math_abs (a - f_amount fee))%float = true) /\
  ((0.01 <? Math_abs (a - f_amount fee))%float = true ->
   r = Fail 400
         (mkError
            ("Amount paid (" ++ Number_toString (frac_digits eng) a
               ++ ") does not match fee amount ("
               ++ Number_toString (frac_digits eng) (f_amount fee) ++ ")")
            (Some "AMOUNT_MISMATCH")) /\
   db' = db) /\
  ((Math_abs (a - f_amount fee) <=? 0.01)%float = true ->
   is_success r = true /\ status_of r = 200).
Proof.
  intros Hid Hk1 Hk2 Hf Hs Hst Hstatus Ha Hpos Hpm Hpm' Htx Htx' r db'.
  pose proof (validate_ok u id feeId body a pm tx Hid Hk1 Hk2 Ha
                (ltb_not_leb _ _ Hpos) Hpm Hpm' Htx Htx') as Hv.
  destruct (0.01 <? Math_abs (a - f_amount fee))%float eqn:Hgt.
  - assert (Hr : PUT eng now (Some u) id body db
                 = (fail 400 (mismatch_message eng a (f_amount fee))
                      "AMOUNT_MISMATCH", db)).
    { unfold PUT. rewrite Hv. cbn [v_feeId].
      rewrite (select_fee_found _ _ _ _ _ Hf Hs Hst). unfold check.
      cbn [v_amount]. rewrite Hgt.
      destruct Hstatus as [-> | ->]; reflexivity. }
    subst r db'. rewrite Hr. cbn [fst snd]. split; [|split].
    + split; reflexivity.
    + intros _. split; reflexivity.
    + intros Hle. apply leb_not_ltb in Hle. congruence.
  - pose proof (PUT_payable eng now (Some u) id body db _ fee sid st Hv Hf Hs
                  Hst Hstatus Hgt) as Hr.
    subst r db'. rewrite Hr. cbn [fst snd]. split; [|split].
    + split; discriminate.
    + discriminate.
    + intros _. split; reflexivity.
Qed.

(** 250.00 offered for the overdue fee of 300.00. *)
Lemma recordPayment_amount_tolerance_scenario :
  let r := fst (PUT Scenario.engine Scenario.t1 (Some Scenario.admin) "2"
                  (Scenario.payment 250%float "TXN-009") Scenario.db300) in
  let db' := snd (PUT Scenario.engine Scenario.t1 (Some Scenario.admin) "2"
                    (Scenario.payment 250%float "TXN-009") Scenario.db300) in
  (kind r = Some AmountMismatch
   <-> (0.01 <? Math_abs (250 - 300))%float = true) /\
  ((0.01 <? Math_abs (250 - 300))%float = true ->
   r = Fail 400
         (mkError
            ("Amount paid ("
               ++ Number_toString (frac_digits Scenario.engine) 250%float
               ++ ") does not match fee amount ("
               ++ Number_toString (frac_digits Scenario.engine) 300%float
               ++ ")")
            (Some "AMOUNT_MISMATCH")) /\
   db' = Scenario.db300) /\
  ((Math_abs (250 - 300) <=? 0.01)%float = true ->
   is_success r = true /\ status_of r = 200).
Proof.
  apply (recordPayment_amount_tolerance Scenario.engine Scenario.t1
           Scenario.admin "2" 2 (Scenario.payment 250%float "TXN-009")
           Scenario.db300 Scenario.fee300 7 Scenario.student7 250%float
           "cash" "TXN-009");
    try reflexivity; try discriminate.
  right; reflexivity.
Defined.

Example mismatch_message_250_300 :
  fst (PUT Scenario.engine Scenario.t1 (Some Scenario.admin) "2"
         (Scenario.payment 250%float "TXN-009") Scenario.db300)
  = fail 400 "Amount paid (250) does not match fee amount (300)"
      "AMOUNT_MISMATCH".
Proof. reflexivity. Qed.

(** In doubles 300.01 - 300 is just below 0.01, so a cent above the fee is
    within the tolerance; two cents are not. *)
Example one_cent_above_accepted :
  is_success (fst (PUT Scenario.engine Scenario.t1 (Some Scenario.admin) "2"
                     (Scenario.payment 300.01%float "TXN-009") Scenario.db300))
  = true.
Proof. reflexivity. Qed.

Example two_cents_above_refused :
  code_of (fst (PUT Scenario.engine Scenario.t1 (Some Scenario.admin) "2"
                  (Scenario.payment 300.02%float "TXN-009") Scenario.db300))
  = Some "AMOUNT_MISMATCH".
Proof. reflexivity. Qed.

Example half_cent_accepted :
  is_success (fst (PUT Scenario.engine Scenario.t1 (Some Scenario.admin) "2"
                     (Scenario.payment 300.005%float "TXN-009") Scenario.db300))
  = true.
Proof. reflexivity. Qed.


Lemma validate_inl_code (u : User) (id : string) (feeId : Z) (body : JSObject)
    (db : DB) (r : Resp) :
  parseInt_string id = Some feeId ->
  has "userId" body = false -> has "user_id" body = false ->
  validate (Some u) id body = inl r ->
  first_failure input_checks body db feeId <> None /\
  code_of r = first_failure input_checks body db feeId.
Proof.
  intros Hid Hk1 Hk2. unfold validate. rewrite Hid, Hk1, Hk2. cbn [orb].
  unfold input_checks, first_failure, amount_missing, method_missing,
    txn_missing, amount_invalid.
  destruct (get "amount_paid" body) as [| | |a| |];
    destruct (get "payment_method" body) as [| | | |pm|];
    destruct (get "transaction_id" body) as [| | | |tx|]; cbn;
    repeat match goal with
           | |- context [String.eqb ?x ""] => destruct (String.eqb x ""); cbn
           | |- context [(?x <=? 0)%float] => destruct (x <=? 0)%float; cbn
           end;
    rewrite ?orb_true_r;
    intros H; first [ discriminate H
                    | injection H as <-; split; [discriminate | reflexivity]
                    ].
Qed.

Lemma validate_inr_checks (user : option User) (id : string) (body : JSObject)
    (db : DB) (feeId : Z) (v : Validated) :
  validate user id body = inr v ->
  first_failure input_checks body db feeId = None.
Proof.
  intros Hv. destruct (validate_inr _ _ _ _ Hv)
    as (_ & _ & _ & _ & Ha & Hpos & Hpm & Hpm' & Htx & Htx').
  unfold input_checks, first_failure, amount_missing, method_missing,
    txn_missing, amount_invalid.
  rewrite Ha, Hpm, Htx, Hpos. cbn.
  apply String.eqb_neq in Hpm', Htx'. now rewrite Hpm', Htx'.
Qed.

Lemma first_failure_app (c1 c2 : list Check) (body : JSObject) (db : DB)
    (feeId : Z) :
  first_failure (c1 ++ c2) body db feeId
  = match first_failure c1 body db feeId with
    | Some c => Some c
    | None => first_failure c2 body db feeId
    end.
Proof.
  induction c1 as [|[p c] c1 IH]; cbn; [reflexivity|].
  destruct (p body db feeId); [reflexivity | exact IH].
Qed.

(** The response of the handler is the failure of the first failing check
    of [handler_order]. *)
Lemma recordPayment_check_order_aux (eng : Engine) (now : string) (u : User)
    (id : string) (feeId : Z) (body : JSObject) (db : DB) :
  parseInt_string id = Some feeId ->
  has "userId" body = false -> has "user_id" body = false ->
  let r := fst (PUT eng now (Some u) id body db) in
  code_of r = first_failure handler_order body db feeId /\
  (is_success r = true <-> first_failure handler_order body db feeId = None).
Proof.
  intros Hid Hk1 Hk2 r. subst r. unfold handler_order.
  rewrite !first_failure_app. unfold PUT.
  destruct (validate (Some u) id body) as [r|v] eqn:Hv.
  - destruct (validate_inl_code u id feeId body db r Hid Hk1 Hk2 Hv) as [Hne Hc].
    cbn [fst]. destruct (first_failure input_checks body db feeId) as [c|] eqn:Hff;
      [|congruence].
    split; [exact Hc|].
    split; [|discriminate]. destruct r; cbn in *; congruence.
  - rewrite (validate_inr_checks _ _ _ db feeId _ Hv).
    destruct (validate_inr _ _ _ _ Hv) as (_ & Hid' & _ & _ & Ha & _).
    rewrite Hid in Hid'. injection Hid' as <-.
    unfold existence_checks, state_checks, first_failure, fee_missing,
      student_missing, already_paid, not_payable, amount_off.
    rewrite Ha.
    destruct (fee_by_id db feeId) as [fee|] eqn:Hf.
    + destruct (f_studentId fee) as [sid|] eqn:Hs.
      * destruct (student_by_id db sid) as [st|] eqn:Hst.
        -- rewrite (select_fee_found _ _ _ _ _ Hf Hs Hst). unfold check.
           destruct (String.eqb (f_status fee) "paid") eqn:Hp;
             [cbn; repeat split; discriminate|].
           destruct (negb (String.eqb (f_status fee) "pending")
                     && negb (String.eqb (f_status fee) "overdue")) eqn:Hn;
             [cbn; repeat split; discriminate|].
           destruct (0.01 <? Math_abs (v_amount v - f_amount fee))%float eqn:Hm;
             [cbn; repeat split; discriminate|].
           unfold write_fee, update_where, fee_by_id in *.
           destruct (find_filter _ _ _ Hf) as [rest ->]. cbn.
           repeat split; discriminate.
        -- rewrite (select_fee_orphan _ _ _ Hf)
             by (unfold orphan; now rewrite Hs).
           cbn. repeat split; discriminate.
      * rewrite (select_fee_orphan _ _ _ Hf) by (unfold orphan; now rewrite Hs).
        cbn. repeat split; discriminate.
    + rewrite (select_fee_missing _ _ Hf). cbn. repeat split; discriminate.
Qed.

(** C4, as the handler has it.  For an authenticated request with a fee id
    and no identity key, the response is the failure of the first check that
    fails in the order: amount present, payment method, transaction id, amount
    a positive number (InvalidInput); fee exists, student exists (NotFound);
    fee not already paid (Conflict), fee pending or overdue (InvalidState);
    amount within the tolerance (AmountMismatch).  The payment succeeds
    exactly when none fails.  So a request for a fee that does not exist gets
    NotFound when its inputs are valid, and the input failure otherwise. *)
Theorem recordPayment_check_order (eng : Engine) (now : string) (u : User)
    (id : string) (feeId : Z) (body : JSObject) (db : DB) :
  parseInt_string id = Some feeId ->
  has "userId" body = false -> has "user_id" body = false ->
  let r := fst (PUT eng now (Some u) id body db) in
  code_of r = first_failure handler_order body db feeId /\
  (is_success r = true <-> first_failure handler_order body db feeId = None) /\
  (fee_by_id db feeId = None ->
   kind r = Some (match first_failure input_checks body db feeId with
                  | Some _ => InvalidInput
                  | None => NotFound
                  end)).
Proof.
  intros Hid Hk1 Hk2 r.
  destruct (recordPayment_check_order_aux eng now u id feeId body db Hid Hk1 Hk2)
    as [Hcode Hsucc].
  fold r in Hcode, Hsucc. split; [exact Hcode|]. split; [exact Hsucc|].
  intros Hf. unfold handler_order in Hcode. rewrite !first_failure_app in Hcode.
  clearbody r. destruct r as [|st e]; cbn [code_of kind] in *.
  - destruct (first_failure input_checks body db feeId); [discriminate Hcode|].
    unfold existence_checks, first_failure, fee_missing in Hcode.
    rewrite Hf in Hcode. discriminate Hcode.
  - rewrite Hcode.
    destruct (first_failure input_checks body db feeId) as [c|] eqn:Hff.
    + f_equal. unfold input_checks, first_failure in Hff.
      repeat match type of Hff with
             | (if ?b then _ else _) = _ => destruct b
             end; inversion Hff; reflexivity.
    + unfold existence_checks, first_failure, fee_missing. rewrite Hf.
      reflexivity.
Qed.

(** Fee 99 does not exist and the request carries no amount. *)
Lemma recordPayment_check_order_example :
  let body : JSObject :=
    [("payment_method", JString "cash"); ("transaction_id", JString "TXN-7")] in
  let r := fst (PUT Scenario.engine Scenario.t1 (Some Scenario.admin) "99" body
                  Scenario.db0) in
  code_of r = first_failure handler_order body Scenario.db0 99 /\
  (is_success r = true
   <-> first_failure handler_order body Scenario.db0 99 = None) /\
  (fee_by_id Scenario.db0 99 = None ->
   kind r = Some (match first_failure input_checks body Scenario.db0 99 with
                  | Some _ => InvalidInput
                  | None => NotFound
                  end)).
Proof.
  apply (recordPayment_check_order Scenario.engine Scenario.t1 Scenario.admin
           "99" 99
           [("payment_method", JString "cash");
            ("transaction_id", JString "TXN-7")] Scenario.db0);
    reflexivity.
Defined.

(** C4 as stated fails: fee 99 does not exist, so the order of the
    specification reports FEE_NOT_FOUND first; the handler, given a request
    without an amount, answers MISSING_AMOUNT_PAID, an InvalidInput. *)
Lemma recordPayment_not_spec_order :
  let body : JSObject :=
    [("payment_method", JString "cash"); ("transaction_id", JString "TXN-7")] in
  let r := fst (PUT Scenario.engine Scenario.t1 (Some Scenario.admin) "99" body
                  Scenario.db0) in
  fee_by_id Scenario.db0 99 = None /\
  first_failure spec_order body Scenario.db0 99 = Some "FEE_NOT_FOUND" /\
  code_of r = Some "MISSING_AMOUNT_PAID" /\
  kind r = Some InvalidInput /\
  kind r <> Some NotFound.
Proof. cbn. repeat split; discriminate. Qed.

(** C5, as the handler has it.  For an authenticated request with a fee id
    and no identity key: when amountPaid is missing, null, not a number, or a
    number <= 0 (zero, a negative number, -Infinity), the payment fails with
    an InvalidInput and the database is unchanged; the failure names the
    amount (MISSING_AMOUNT_PAID when it is missing or null, INVALID_AMOUNT
    otherwise) when the payment method and the transaction id are non-empty
    strings.  And whatever the request, the payment succeeds only if
    amountPaid is a number that is not <= 0. *)
Theorem recordPayment_amount_validated (eng : Engine) (now : string)
    (u : User) (id : string) (feeId : Z) (body : JSObject) (db : DB) :
  parseInt_string id = Some feeId ->
  has "userId" body = false -> has "user_id" body = false ->
  let r := fst (PUT eng now (Some u) id body db) in
  let db' := snd (PUT eng now (Some u) id body db) in
  (amount_invalid body db feeId = true ->
   kind r = Some InvalidInput /\ db' = db /\
   code_of r = first_failure input_checks body db feeId /\
   (method_missing body db feeId = false -> txn_missing body db feeId = false ->
    code_of r = Some (if amount_missing body db feeId
                      then "MISSING_AMOUNT_PAID" else "INVALID_AMOUNT"))) /\
  (is_success r = true ->
   exists a, get "amount_paid" body = JNumber a /\ (a <=? 0)%float = false).
Proof.
  intros Hid Hk1 Hk2 r db'.
  destruct (recordPayment_check_order_aux eng now u id feeId body db Hid Hk1 Hk2)
    as [Hcode Hsucc].
  fold r in Hcode, Hsucc. split.
  - intros Hbad.
    assert (Hin : exists c, first_failure input_checks body db feeId = Some c /\
                  kind_of_code c = InvalidInput /\
                  (method_missing body db feeId = false ->
                   txn_missing body db feeId = false ->
                   c = if amount_missing body db feeId
                       then "MISSING_AMOUNT_PAID" else "INVALID_AMOUNT")).
    { unfold input_checks, first_failure. rewrite Hbad.
      destruct (amount_missing body db feeId).
      - eexists; repeat split.
      - destruct (method_missing body db feeId);
          [eexists; split; [reflexivity|split; [reflexivity|discriminate]]|].
        destruct (txn_missing body db feeId);
          [eexists; split; [reflexivity|split; [reflexivity|discriminate]]|].
        eexists; repeat split. }
    destruct Hin as (c & Hc & Hk & Hnamed).
    unfold handler_order in Hcode. rewrite first_failure_app, Hc in Hcode.
    assert (Hfail : is_success r = false).
    { destruct r; [discriminate Hcode | reflexivity]. }
    split; [|split; [|split]].
    + destruct r as [|st e]; [discriminate|]. cbn in *. rewrite Hcode.
      now rewrite Hk.
    + subst db'. now apply PUT_failure_keeps_db.
    + now rewrite Hc.
    + intros Hm Ht. rewrite Hcode. f_equal. now apply Hnamed.
  - intros Hok. apply Hsucc in Hok.
    unfold handler_order in Hok. rewrite first_failure_app in Hok.
    destruct (first_failure input_checks body db feeId) eqn:Hff;
      [discriminate|]. clear Hok.
    unfold input_checks, first_failure, amount_invalid in Hff.
    destruct (amount_missing body db feeId); [discriminate|].
    destruct (method_missing body db feeId); [discriminate|].
    destruct (txn_missing body db feeId); [discriminate|].
    destruct (get "amount_paid" body) as [| | |a| |]; try discriminate.
    exists a. split; [reflexivity|]. now destruct (a <=? 0)%float.
Qed.

(** A payment of 0 against the pending fee 1. *)
Lemma recordPayment_amount_validated_zero :
  let body := Scenario.payment 0%float "TXN-001" in
  let r := fst (PUT Scenario.engine Scenario.t1 (Some Scenario.admin) "1" body
                  Scenario.db0) in
  let db' := snd (PUT Scenario.engine Scenario.t1 (Some Scenario.admin) "1" body
                    Scenario.db0) in
  (amount_invalid body Scenario.db0 1 = true ->
   kind r = Some InvalidInput /\ db' = Scenario.db0 /\
   code_of r = first_failure input_checks body Scenario.db0 1 /\
   (method_missing body Scenario.db0 1 = false ->
    txn_missing body Scenario.db0 1 = false ->
    code_of r = Some (if amount_missing body Scenario.db0 1
                      then "MISSING_AMOUNT_PAID" else "INVALID_AMOUNT"))) /\
  (is_success r = true ->
   exists a, get "amount_paid" body = JNumber a /\ (a <=? 0)%float = false).
Proof.
  apply (recordPayment_amount_validated Scenario.engine Scenario.t1
           Scenario.admin "1" 1 (Scenario.payment 0%float "TXN-001")
           Scenario.db0);
    reflexivity.
Defined.

(** C5 as stated fails: Infinity (what JSON.parse makes of 1e999) is not
    refused as an input; against the pending fee of 500.00 the failure is
    AMOUNT_MISMATCH, not an InvalidInput naming the amount. *)
Lemma recordPayment_infinity_not_invalid_input :
  let r := fst (PUT Scenario.engine Scenario.t1 (Some Scenario.admin) "1"
                  (Scenario.payment infinity "TXN-001") Scenario.db0) in
  PrimFloat.is_finite infinity = false /\
  code_of r = Some "AMOUNT_MISMATCH" /\
  kind r = Some AmountMismatch /\
  kind r <> Some InvalidInput.
Proof. cbn. repeat split; discriminate. Qed.

(** Nor is the success path closed to it: a fee whose amount is Infinity is
    paid by an amount of Infinity, the difference being NaN. *)
Example infinity_pays_infinity :
  let fee := mkFee 3 (Some 7) infinity "2025-03-31" None "pending" "hostel"
               Scenario.t0 Scenario.t0 in
  let db := mkDB [Scenario.student7] [] [] [fee] [] [] [] in
  let call := PUT Scenario.engine Scenario.t1 (Some Scenario.admin) "3"
                (Scenario.payment infinity "TXN-003") db in
  is_success (fst call) = true /\
  option_map s_balance (student_by_id (snd call) 7) = Some (Some neg_infinity).
Proof. cbn. split; reflexivity. Qed.

End PaymentFacts.

(* ================================================================= *)
(** ** Who writes the status of a fee *)

Module FeesFacts.
Import JS Schema Http TableFacts PaymentFacts.

(** What a successful payment did. *)
Lemma payment_success_inv (eng : Engine) (now : string)
    (user : option Payment.User) (id : string) (body : JSObject) (db : DB) :
  is_success (fst (Payment.PUT eng now user id body db)) = true ->
  exists (v : Payment.Validated) (fee : Fee) (st : Student),
    Payment.validate user id body = inr v /\
    fee_by_id db (Payment.v_feeId v) = Some fee /\
    f_studentId fee = Some (s_id st) /\
    student_by_id db (s_id st) = Some st /\
    (f_status fee = "pending" \/ f_status fee = "overdue") /\
    (0.01 <? Math_abs (Payment.v_amount v - f_amount fee))%float = false /\
    Payment.PUT eng now user id body db
    = (Json 200 (Payment.paymentResponse now v st (Payment.mark_paid now fee)),
       Payment.write_student now st (Payment.newBalance st (Payment.v_amount v))
         (fst (Payment.write_fee now (Payment.v_feeId v) db))).
Proof.
  intros Hok.
  destruct (Payment.validate user id body) as [r|v] eqn:Hv.
  { unfold Payment.PUT in Hok. rewrite Hv in Hok. cbn in Hok.
    unfold Payment.validate in Hv.
    repeat match type of Hv with
           | inl _ = inl _ => injection Hv as <-; discriminate Hok
           | inr _ = inl _ => discriminate Hv
           | context [match ?x with _ => _ end] => destruct x
           end. }
  destruct (Payment.select_fee db (Payment.v_feeId v)) as [|[fee [st|]] tl] eqn:Hsel;
    try (unfold Payment.PUT in Hok; rewrite Hv, Hsel in Hok; discriminate Hok).
  destruct (select_fee_fee _ _ _ _ _ Hsel) as (Hf & _ & _).
  destruct (select_fee_student _ _ _ _ _ Hsel) as (Hs & Hst).
  assert (Hcheck : (f_status fee = "pending" \/ f_status fee = "overdue") /\
          (0.01 <? Math_abs (Payment.v_amount v - f_amount fee))%float = false).
  { unfold Payment.PUT in Hok. rewrite Hv, Hsel in Hok. unfold Payment.check in Hok.
    destruct (String.eqb (f_status fee) "paid"); [discriminate Hok|].
    destruct (String.eqb (f_status fee) "pending") eqn:E1.
    - apply String.eqb_eq in E1. cbn in Hok.
      destruct (0.01 <? _)%float; [discriminate Hok | auto].
    - destruct (String.eqb (f_status fee) "overdue") eqn:E2; [|discriminate Hok].
      apply String.eqb_eq in E2. cbn in Hok.
      destruct (0.01 <? _)%float; [discriminate Hok | auto]. }
  destruct Hcheck as [Hstatus Htol].
  exists v, fee, st. repeat split; try assumption.
  now apply PUT_payable with (sid := s_id st).
Qed.

(** What the payment does to any fee of the table. *)
Lemma payment_fee_effect (eng : Engine) (now : string)
    (user : option Payment.User) (id : string) (body : JSObject) (db : DB)
    (k : Z) (g : Fee) :
  fee_by_id db k = Some g ->
  let db' := snd (Payment.PUT eng now user id body db) in
  fee_by_id db' k = Some g \/
  ((f_status g = "pending" \/ f_status g = "overdue") /\
   fee_by_id db' k = Some (Payment.mark_paid now g) /\
   exists (a : float) (sid : Z) (st st' : Student),
     get "amount_paid" body = JNumber a /\
     f_studentId g = Some sid /\
     student_by_id db sid = Some st /\
     student_by_id db' sid = Some st' /\
     s_balance st' = Some (or_zero (s_balance st) - a)%float).
Proof.
  intros Hg db'. subst db'.
  destruct (is_success (fst (Payment.PUT eng now user id body db))) eqn:Hok.
  - destruct (payment_success_inv _ _ _ _ _ _ Hok)
      as (v & fee & st & Hv & Hf & Hs & Hst & Hstatus & _ & ->).
    cbn [snd].
    change (fee_by_id (Payment.write_student now st
                         (Payment.newBalance st (Payment.v_amount v))
                         (fst (Payment.write_fee now (Payment.v_feeId v) db))) k)
      with (fee_by_id (fst (Payment.write_fee now (Payment.v_feeId v) db)) k).
    rewrite fee_after_write_fee.
    destruct (k =? Payment.v_feeId v) eqn:Ek.
    + assert (k = Payment.v_feeId v) as -> by lia.
      rewrite Hf in Hg. injection Hg as ->. right.
      split; [exact Hstatus|]. rewrite Hf. split; [reflexivity|].
      destruct (validate_inr _ _ _ _ Hv) as (_ & _ & _ & _ & Ha & _).
      exists (Payment.v_amount v), (s_id st), st,
        (Payment.set_balance (Payment.newBalance st (Payment.v_amount v)) now st).
      repeat split; try assumption.
      rewrite student_after_write_student, Z.eqb_refl.
      change (student_by_id (fst (Payment.write_fee now (Payment.v_feeId v) db))
                (s_id st))
        with (student_by_id db (s_id st)).
      now rewrite Hst.
    + left. exact Hg.
  - left. now rewrite PUT_failure_keeps_db.
Qed.

Lemma feesPUT_students (eng : Engine) (now : string) (id : option string)
    (body : JSObject) (db : DB) :
  students (snd (FeesRoute.PUT eng now id body db)) = students db.
Proof.
  unfold FeesRoute.PUT.
  destruct (match id with Some s => parseInt_string s | None => None end);
    [|reflexivity].
  destruct (firstn 1 _); [reflexivity|].
  destruct (FeesRoute.build_updates eng now body db); reflexivity.
Qed.

(** The generic update, given only a status. *)
Lemma feesPUT_status (eng : Engine) (now : string) (id : string) (k : Z)
    (db : DB) (g : Fee) (s : string) :
  parseInt_string id = Some k ->
  fee_by_id db k = Some g ->
  In s FeesRoute.validStatuses ->
  let g' := mkFee (f_id g) (f_studentId g) (f_amount g) (f_dueDate g)
              (f_paidDate g) s (f_type g) (f_createdAt g) now in
  fst (FeesRoute.PUT eng now (Some id) [("status", JString s)] db)
  = Json 200 (Some g') /\
  fee_by_id (snd (FeesRoute.PUT eng now (Some id) [("status", JString s)] db)) k
  = Some g'.
Proof.
  intros Hid Hg Hs g'. unfold FeesRoute.PUT. rewrite Hid.
  unfold fee_by_id in Hg. destruct (find_filter _ _ _ Hg) as [rest Hr].
  rewrite Hr. cbn [firstn].
  assert (Hb : FeesRoute.build_updates eng now [("status", JString s)] db
               = inr (FeesRoute.mkUpdates None None None None (Some s) None now)).
  { destruct Hs as [<-|[<-|[<-|[]]]]; reflexivity. }
  rewrite Hb. unfold update_where. rewrite Hr. cbn [fst snd map hd_error].
  split; [reflexivity|].
  unfold fee_by_id. cbn [fees with_fees].
  rewrite (find_update f_id) by reflexivity.
  rewrite Z.eqb_refl, Hg. reflexivity.
Qed.

(** The generic update stores the validated fields on the fee, whatever its
    status. *)
Lemma feesPUT_applies (eng : Engine) (now : string) (id : string) (k : Z)
    (body : JSObject) (db : DB) (g : Fee) (up : FeesRoute.Updates) :
  parseInt_string id = Some k ->
  fee_by_id db k = Some g ->
  FeesRoute.build_updates eng now body db = inr up ->
  fst (FeesRoute.PUT eng now (Some id) body db)
  = Json 200 (Some (FeesRoute.apply_updates up g)) /\
  fee_by_id (snd (FeesRoute.PUT eng now (Some id) body db)) k
  = Some (FeesRoute.apply_updates up g).
Proof.
  intros Hid Hg Hb. unfold FeesRoute.PUT. rewrite Hid.
  unfold fee_by_id in Hg. destruct (find_filter _ _ _ Hg) as [rest Hr].
  rewrite Hr. cbn [firstn]. rewrite Hb. unfold update_where. rewrite Hr.
  cbn [fst snd map hd_error]. split; [reflexivity|].
  unfold fee_by_id. cbn [fees with_fees].
  rewrite (find_update f_id) by reflexivity.
  rewrite Z.eqb_refl, Hg. reflexivity.
Qed.

(** C7, as the system has it.  For a fee that exists: the payment operation
    leaves it as it is when its status is "paid", and otherwise either leaves
    it or moves it from pending/overdue to paid together with the decrement of
    its student's balance.  The generic update never changes a student (so no
    balance), and it stores the amount, paidDate and status it validated on
    the fee whatever the fee's current status; given only a status among
    pending, paid and overdue it always succeeds and stores that status. *)
Theorem fee_status_writers (eng : Engine) (now : string) (db : DB) (k : Z)
    (g : Fee) :
  fee_by_id db k = Some g ->
  (forall user id body,
     let db' := snd (Payment.PUT eng now user id body db) in
     (f_status g = "paid" -> fee_by_id db' k = Some g) /\
     (fee_by_id db' k = Some g \/
      ((f_status g = "pending" \/ f_status g = "overdue") /\
       fee_by_id db' k = Some (Payment.mark_paid now g) /\
       exists (a : float) (sid : Z) (st st' : Student),
         get "amount_paid" body = JNumber a /\
         f_studentId g = Some sid /\
         student_by_id db sid = Some st /\
         student_by_id db' sid = Some st' /\
         s_balance st' = Some (or_zero (s_balance st) - a)%float))) /\
  (forall id body,
     students (snd (FeesRoute.PUT eng now id body db)) = students db) /\
  (forall id body up,
     parseInt_string id = Some k ->
     FeesRoute.build_updates eng now body db = inr up ->
     fee_by_id (snd (FeesRoute.PUT eng now (Some id) body db)) k
     = Some (FeesRoute.apply_updates up g)) /\
  (forall id s,
     parseInt_string id = Some k ->
     In s FeesRoute.validStatuses ->
     option_map f_status
       (fee_by_id
          (snd (FeesRoute.PUT eng now (Some id) [("status", JString s)] db)) k)
     = Some s).
Proof.
  intros Hg. split; [|split; [|split]].
  - intros user id body db'.
    pose proof (payment_fee_effect eng now user id body db k g Hg) as H.
    cbv zeta in H. fold db' in H. split; [|exact H].
    intros Hpaid. destruct H as [H | ([Hs | Hs] & _)]; [exact H| |];
      rewrite Hpaid in Hs; discriminate Hs.
  - intros id body. apply feesPUT_students.
  - intros id body up Hid Hb.
    now destruct (feesPUT_applies eng now id k body db g up Hid Hg Hb).
  - intros id s Hid Hs.
    destruct (feesPUT_status eng now id k db g s Hid Hg Hs) as [_ ->].
    reflexivity.
Qed.

(** Fee 1 of the scenario, once paid. *)
Lemma fee_status_writers_paid_fee :
  (forall user id body,
     let db' := snd (Payment.PUT Scenario.engine Scenario.t2 user id body
                       Scenario.db_paid) in
     (f_status (Payment.mark_paid Scenario.t1 Scenario.fee1) = "paid" ->
      fee_by_id db' 1 = Some (Payment.mark_paid Scenario.t1 Scenario.fee1)) /\
     (fee_by_id db' 1 = Some (Payment.mark_paid Scenario.t1 Scenario.fee1) \/
      ((f_status (Payment.mark_paid Scenario.t1 Scenario.fee1) = "pending" \/
        f_status (Payment.mark_paid Scenario.t1 Scenario.fee1) = "overdue") /\
       fee_by_id db' 1
       = Some (Payment.mark_paid Scenario.t2
                 (Payment.mark_paid Scenario.t1 Scenario.fee1)) /\
       exists (a : float) (sid : Z) (st st' : Student),
         get "amount_paid" body = JNumber a /\
         f_studentId (Payment.mark_paid Scenario.t1 Scenario.fee1) = Some sid /\
         student_by_id Scenario.db_paid sid = Some st /\
         student_by_id db' sid = Some st' /\
         s_balance st' = Some (or_zero (s_balance st) - a)%float))) /\
  (forall id body,
     students (snd (FeesRoute.PUT Scenario.engine Scenario.t2 id body
                      Scenario.db_paid))
     = students Scenario.db_paid) /\
  (forall id body up,
     parseInt_string id = Some 1 ->
     FeesRoute.build_updates Scenario.engine Scenario.t2 body Scenario.db_paid
     = inr up ->
     fee_by_id (snd (FeesRoute.PUT Scenario.engine Scenario.t2 (Some id) body
                       Scenario.db_paid)) 1
     = Some (FeesRoute.apply_updates up
               (Payment.mark_paid Scenario.t1 Scenario.fee1))) /\
  (forall id s,
     parseInt_string id = Some 1 ->
     In s FeesRoute.validStatuses ->
     option_map f_status
       (fee_by_id
          (snd (FeesRoute.PUT Scenario.engine Scenario.t2 (Some id)
                  [("status", JString s)] Scenario.db_paid)) 1)
     = Some s).
Proof.
  apply (fee_status_writers Scenario.engine Scenario.t2 Scenario.db_paid 1
           (Payment.mark_paid Scenario.t1 Scenario.fee1)).
  reflexivity.
Defined.

(** C7 as stated fails: the generic update moves the paid fee 1 back to
    "pending", changes its amount and clears its paidDate; the student's
    balance keeps the deduction. *)
Lemma generic_update_reopens_paid_fee :
  let body : JSObject :=
    [("status", JString "pending"); ("amount", JNumber 1%float);
     ("paidDate", JNull)] in
  let call := FeesRoute.PUT Scenario.engine Scenario.t2 (Some "1") body
                Scenario.db_paid in
  option_map f_status (fee_by_id Scenario.db_paid 1) = Some "paid" /\
  option_map f_amount (fee_by_id Scenario.db_paid 1) = Some 500%float /\
  option_map f_paidDate (fee_by_id Scenario.db_paid 1) = Some (Some Scenario.t1) /\
  status_of (fst call) = 200 /\
  option_map f_status (fee_by_id (snd call) 1) = Some "pending" /\
  option_map f_amount (fee_by_id (snd call) 1) = Some 1%float /\
  option_map f_paidDate (fee_by_id (snd call) 1) = Some None /\
  option_map s_balance (student_by_id (snd call) 7) = Some (Some 700%float).
Proof. cbn. repeat split. Qed.

(** And it marks the pending fee 1 paid without touching the balance. *)
Example generic_update_pays_without_balance :
  let call := FeesRoute.PUT Scenario.engine Scenario.t2 (Some "1")
                [("status", JString "paid")] Scenario.db0 in
  option_map f_status (fee_by_id (snd call) 1) = Some "paid" /\
  option_map s_balance (student_by_id (snd call) 7) = Some (Some 1200%float).
Proof. cbn. repeat split. Qed.

End FeesFacts.

(* ================================================================= *)
(** ** Facts about the dashboard *)

Module DashboardFacts.
Import JS Schema Http Dashboard ExactPercentage.

(** *** The order of text *)

Lemma ascii_compare_N (a b : ascii) :
  Ascii.compare a b = N.compare (N_of_ascii a) (N_of_ascii b).
Proof. reflexivity. Qed.

Lemma string_compare_trans (a b c : string) :
  String.compare a b <> Gt -> String.compare b c <> Gt ->
  String.compare a c <> Gt.
Proof.
  revert b c. induction a as [|x a IH]; intros [|y b] [|z c]; cbn;
    try congruence.
  rewrite !ascii_compare_N.
  destruct (N.compare_spec (N_of_ascii x) (N_of_ascii y)) as [Exy|Lxy|Gxy];
    destruct (N.compare_spec (N_of_ascii y) (N_of_ascii z)) as [Eyz|Lyz|Gyz];
    try congruence; intros Hab Hbc.
  - rewrite Exy, Eyz, N.compare_refl. now apply IH with (b := b).
  - rewrite Exy. apply N.compare_lt_iff in Lyz. rewrite Lyz. discriminate.
  - rewrite <- Eyz. apply N.compare_lt_iff in Lxy. rewrite Lxy. discriminate.
  - assert (H : (N_of_ascii x < N_of_ascii z)%N) by lia.
    apply N.compare_lt_iff in H. rewrite H. discriminate.
Qed.

Lemma text_leb_trans (a b c : string) :
  text_leb a b = true -> text_leb b c = true -> text_leb a c = true.
Proof.
  unfold text_leb, String.leb. intros Hab Hbc.
  pose proof (string_compare_trans a b c) as H.
  destruct (String.compare a b), (String.compare b c), (String.compare a c);
    try reflexivity; try discriminate; exfalso; apply H; congruence.
Qed.

Lemma text_leb_total (a b : string) :
  text_leb a b = false -> text_leb b a = true.
Proof.
  intros H. destruct (String.leb_total a b) as [H'|H']; [|exact H'].
  unfold text_leb in H. congruence.
Qed.

Lemma null_leb_trans (a b c : option string) :
  null_leb a b = true -> null_leb b c = true -> null_leb a c = true.
Proof.
  destruct a, b, c; cbn; try congruence. apply text_leb_trans.
Qed.

Lemma null_leb_total (a b : option string) :
  null_leb a b = false -> null_leb b a = true.
Proof. destruct a, b; cbn; try congruence. apply text_leb_total. Qed.

(** *** ORDER BY .. DESC sorts, and keeps the rows *)

Section OrderByFacts.
Context {A K : Type} (leb : K -> K -> bool) (key : A -> K).
Hypothesis leb_trans :
  forall a b c, leb a b = true -> leb b c = true -> leb a c = true.
Hypothesis leb_total : forall a b, leb a b = false -> leb b a = true.

Lemma insert_desc_perm (x : A) (l : list A) :
  Permutation (insert_desc leb key x l) (x :: l).
Proof.
  induction l as [|y l IH]; cbn; [reflexivity|].
  destruct (leb (key y) (key x)); [reflexivity|].
  rewrite IH. apply perm_swap.
Qed.

Lemma order_by_desc_perm (l : list A) :
  Permutation (order_by_desc leb key l) l.
Proof.
  induction l as [|x l IH]; cbn; [reflexivity|].
  rewrite insert_desc_perm. now constructor.
Qed.

Lemma insert_desc_sorted (x : A) (l : list A) :
  StronglySorted (desc leb key) l -> StronglySorted (desc leb key) (insert_desc leb key x l).
Proof.
  induction 1 as [|y l Hs IH Hy]; cbn.
  - constructor; constructor.
  - destruct (leb (key y) (key x)) eqn:E.
    + constructor; [now constructor|]. constructor; [exact E|].
      eapply Forall_impl; [|exact Hy]. intros z Hz. unfold desc in *.
      now apply leb_trans with (b := key y).
    + constructor; [exact IH|].
      apply (Permutation_Forall (Permutation_sym (insert_desc_perm x l))).
      constructor; [|exact Hy]. unfold desc. now apply leb_total.
Qed.

Lemma order_by_desc_sorted (l : list A) :
  StronglySorted (desc leb key) (order_by_desc leb key l).
Proof.
  induction l as [|x l IH]; cbn; [constructor|].
  now apply insert_desc_sorted.
Qed.

(** The first [n] rows of the ordered table: a sorted prefix of a
    rearrangement of the table, so no row left out comes before a row
    kept. *)
Lemma limit_order_by (n : nat) (l : list A) :
  exists rest,
    Permutation (firstn n (order_by_desc leb key l) ++ rest) l /\
    StronglySorted (desc leb key) (firstn n (order_by_desc leb key l) ++ rest) /\
    List.length (firstn n (order_by_desc leb key l)) = Nat.min n (List.length l).
Proof.
  exists (skipn n (order_by_desc leb key l)). rewrite firstn_skipn.
  split; [apply order_by_desc_perm|]. split; [apply order_by_desc_sorted|].
  rewrite length_firstn. f_equal.
  apply Permutation_length, order_by_desc_perm.
Qed.

Lemma sorted_app_desc (l1 l2 : list A) :
  StronglySorted (desc leb key) (l1 ++ l2) ->
  forall x y, In x l1 -> In y l2 -> desc leb key x y.
Proof.
  induction l1 as [|a l1 IH]; cbn; intros Hs x y Hx Hy; [contradiction|].
  apply StronglySorted_inv in Hs. destruct Hs as [Hs Ha].
  destruct Hx as [<-|Hx].
  - rewrite Forall_forall in Ha. apply Ha, in_or_app. now right.
  - now apply IH.
Qed.
End OrderByFacts.

(** *** The percentages *)







(** No attendance record in the store. *)
Example no_attendance_zero :
  match GET Scenario.t1 Scenario.db0 with
  | Json _ stats =>
      as_overallPercentage (attendanceStats stats) = 0%float /\
      es_completionRate (enrollmentStats stats) = 0%float
  | Fail _ _ => False
  end.
Proof. cbn. split; reflexivity. Qed.

(** In doubles 57 / 200 * 100 is 28.499999999999996, which rounds to 28;
    1 / 200 * 100 is 0.5, which rounds to 1. *)
Example percentage_57_of_200 : percentage 57 200 = 28%float.
Proof. reflexivity. Qed.

Example percentage_1_of_200 : percentage 1 200 = 1%float.
Proof. reflexivity. Qed.

Example percentage_2_of_3 : percentage 2 3 = 67%float.
Proof. reflexivity. Qed.

(** *** The activity feeds *)

Lemma col_eq_true (col : option Z) (v : Z) :
  col_eq col v = true <-> col = Some v.
Proof.
  destruct col as [x|]; cbn; [|split; discriminate].
  rewrite Z.eqb_eq. split; congruence.
Qed.

Lemma enrollment_join_spec (db : DB) (e : Enrollment) (s : Student) (c : Course) :
  In (e, s, c) (enrollment_join db) <->
  In e (enrollments db) /\ In s (students db) /\ In c (courses db) /\
  e_studentId e = Some (s_id s) /\ e_courseId e = Some (c_id c).
Proof.
  unfold enrollment_join. rewrite in_flat_map. split.
  - intros (e' & He & H). apply in_flat_map in H. destruct H as (s' & Hs & H).
    apply in_map_iff in H. destruct H as (c' & Heq & Hc).
    injection Heq as -> -> ->.
    apply filter_In in Hs, Hc. rewrite col_eq_true in Hs, Hc. tauto.
  - intros (He & Hs & Hc & Hes & Hec). exists e. split; [exact He|].
    apply in_flat_map. exists s. split.
    + apply filter_In. now rewrite col_eq_true.
    + apply in_map_iff. exists c. split; [reflexivity|].
      apply filter_In. now rewrite col_eq_true.
Qed.

Lemma paid_fee_join_spec (db : DB) (f : Fee) (s : Student) :
  In (f, s) (paid_fee_join db) <->
  In f (fees db) /\ f_status f = "paid" /\ In s (students db) /\
  f_studentId f = Some (s_id s).
Proof.
  unfold paid_fee_join. rewrite in_flat_map. split.
  - intros (f' & Hf & H). apply in_map_iff in H. destruct H as (s' & Heq & Hs).
    injection Heq as -> ->.
    apply filter_In in Hf, Hs. rewrite col_eq_true in Hs.
    rewrite String.eqb_eq in Hf. tauto.
  - intros (Hf & Hp & Hs & Hfs). exists f. split.
    + apply filter_In. now rewrite String.eqb_eq.
    + apply in_map_iff. exists s. split; [reflexivity|].
      apply filter_In. now rewrite col_eq_true.
Qed.

(** C8, as the handler has it.  The enrollment feed lists, with the student's
    name and the course's title, the first 10 of the enrollments that have a
    student and a course, ordered by createdAt descending.  The payment feed
    lists, with the student's name, the first 10 of the fees with status
    "paid" that have a student, ordered by paidDate descending (a missing
    paidDate last), not by creation time. *)
Theorem dashboard_feeds (now : string) (db : DB) :
  exists stats : DashboardStats,
    GET now db = Json 200 stats /\
    (exists rows rest,
       ra_enrollments (recentActivities stats) = map select_enrollment rows /\
       Permutation (rows ++ rest) (enrollment_join db) /\
       StronglySorted (desc text_leb enrollment_createdAt) (rows ++ rest) /\
       List.length rows = Nat.min 10 (List.length (enrollment_join db))) /\
    (exists rows rest,
       ra_feePayments (recentActivities stats) = map select_payment rows /\
       Permutation (rows ++ rest) (paid_fee_join db) /\
       StronglySorted (desc null_leb fee_paidDate) (rows ++ rest) /\
       List.length rows = Nat.min 10 (List.length (paid_fee_join db))) /\
    (forall e s c,
       In (e, s, c) (enrollment_join db) <->
       In e (enrollments db) /\ In s (students db) /\ In c (courses db) /\
       e_studentId e = Some (s_id s) /\ e_courseId e = Some (c_id c)) /\
    (forall f s,
       In (f, s) (paid_fee_join db) <->
       In f (fees db) /\ f_status f = "paid" /\ In s (students db) /\
       f_studentId f = Some (s_id s)) /\
    (forall e s c,
       select_enrollment (e, s, c)
       = mkRecentEnrollment (e_id e) (s_name s) (c_title c)
           (e_enrollmentDate e) (e_status e)) /\
    (forall f s,
       select_payment (f, s)
       = mkRecentFeePayment (f_id f) (s_name s) (f_amount f) (f_type f)
           (f_paidDate f) (f_status f)).
Proof.
  eexists. split; [reflexivity|]. cbn [recentActivities ra_enrollments ra_feePayments].
  split; [|split; [|split; [|split; [|split]]]].
  - destruct (limit_order_by text_leb enrollment_createdAt text_leb_trans
                text_leb_total 10 (enrollment_join db)) as (rest & Hp & Hs & Hl).
    exists (recent_enrollment_rows db), rest. repeat split; assumption.
  - destruct (limit_order_by null_leb fee_paidDate null_leb_trans
                null_leb_total 10 (paid_fee_join db)) as (rest & Hp & Hs & Hl).
    exists (recent_payment_rows db), rest. repeat split; assumption.
  - apply enrollment_join_spec.
  - apply paid_fee_join_spec.
  - reflexivity.
  - reflexivity.
Qed.

(** The newest enrollment first; the one without a course is not listed. *)
Example campus_enrollment_feed :
  recentEnrollments Scenario.campus
  = [ mkRecentEnrollment 22 "Asha Rao" "Mechanics" "2025-02-10" "active";
      mkRecentEnrollment 21 "Asha Rao" "Mechanics" "2025-01-10" "completed" ].
Proof. reflexivity. Qed.

Example campus_completion_rate :
  match GET Scenario.t1 Scenario.campus with
  | Json _ stats =>
      es_total (enrollmentStats stats) = 3 /\
      es_active (enrollmentStats stats) = 2 /\
      es_completionRate (enrollmentStats stats) = 67%float
  | Fail _ _ => False
  end.
Proof. vm_compute. repeat split. Qed.

(** C8 as stated fails: the payment feed puts fee 11 before fee 12, the order
    of their paidDate, although fee 12 was created later. *)
Lemma payment_feed_not_by_creation :
  map rf_id (recentFeePayments Scenario.two_payments) = [11; 12] /\
  option_map f_createdAt (fee_by_id Scenario.two_payments 11)
  = Some "2025-01-01T09:00:00.000Z" /\
  option_map f_createdAt (fee_by_id Scenario.two_payments 12)
  = Some "2025-02-01T09:00:00.000Z" /\
  text_leb "2025-02-01T09:00:00.000Z" "2025-01-01T09:00:00.000Z" = false.
Proof. vm_compute. repeat split. Qed.

End DashboardFacts.

(* ================================================================= *)
(** ** Facts about the marks endpoints *)

Module MarksFacts.
Import JS Schema Http MarksRoute TableFacts.

Lemma int_or_zero_id (x : Z) : int_or_zero x = x.
Proof. unfold int_or_zero. destruct (x =? 0) eqn:E; lia. Qed.

Lemma calculateTotalMarks_sum (i e : Z) : calculateTotalMarks i e = i + e.
Proof. unfold calculateTotalMarks. now rewrite !int_or_zero_id. Qed.

Lemma calculateGrade_thresholds (t : Z) :
  (90 <= t -> calculateGrade t = "A") /\
  (80 <= t < 90 -> calculateGrade t = "B") /\
  (70 <= t < 80 -> calculateGrade t = "C") /\
  (60 <= t < 70 -> calculateGrade t = "D") /\
  (t < 60 -> calculateGrade t = "F").
Proof.
  unfold calculateGrade.
  destruct (90 <=? t) eqn:E90; destruct (80 <=? t) eqn:E80;
    destruct (70 <=? t) eqn:E70; destruct (60 <=? t) eqn:E60;
    repeat split; intros; first [reflexivity | lia].
Qed.

Lemma get_set_other (k k' : string) (v : JSValue) (o : JSObject) :
  k <> k' -> get k (JS.set k' v o) = get k o.
Proof.
  intros Hne. induction o as [|[k0 v0] o IH]; cbn.
  - apply String.eqb_neq in Hne. now rewrite Hne.
  - destruct (String.eqb k' k0) eqn:E; cbn.
    + apply String.eqb_eq in E. subst k0.
      apply String.eqb_neq in Hne. now rewrite Hne.
    + now rewrite IH.
Qed.

(** A marks field that passed the range check, as POST stores it. *)
Lemma posted_marks_range (eng : Engine) (v : JSValue) :
  negb (is_undefined v) && marks_out_of_range eng v = false ->
  0 <= opt_or_zero (parseInt (frac_digits eng) v) <= 100.
Proof.
  unfold marks_out_of_range.
  destruct v; cbn [is_undefined negb andb];
    try (destruct (parseInt (frac_digits eng) _) as [n|]; cbn;
         [rewrite int_or_zero_id; lia | discriminate]).
  intros _. cbn. lia.
Qed.

Lemma POST_success (eng : Engine) (now later : string) (newId : Z)
    (body : JSObject) (db : DB) :
  is_success (fst (POST eng now later newId body db)) = true ->
  exists (m : Marks) (i e : Z),
    POST eng now later newId body db
    = (Json 201 (Some m), with_marks (marks db ++ [m]) db) /\
    m_id m = newId /\
    m_internalMarks m = Some i /\ m_externalMarks m = Some e /\
    0 <= i <= 100 /\ 0 <= e <= 100 /\
    m_totalMarks m = Some (i + e) /\
    m_grade m = Some (calculateGrade (i + e)).
Proof.
  unfold POST.
  destruct (negb (truthy (get "studentId" body))); [discriminate|].
  destruct (negb (truthy (get "courseId" body))); [discriminate|].
  destruct (negb (truthy (get "semester" body))); [discriminate|].
  destruct (parseInt (frac_digits eng) (get "studentId" body)) as [sid|];
    [|discriminate].
  destruct (parseInt (frac_digits eng) (get "courseId" body)) as [cid|];
    [|discriminate].
  destruct (parseInt (frac_digits eng) (get "semester" body)) as [sem|];
    [|discriminate].
  destruct (negb (is_undefined (get "internalMarks" body))
            && marks_out_of_range eng (get "internalMarks" body)) eqn:Hi;
    [discriminate|].
  destruct (negb (is_undefined (get "externalMarks" body))
            && marks_out_of_range eng (get "externalMarks" body)) eqn:He;
    [discriminate|].
  destruct (student_rows db sid); [discriminate|].
  destruct (course_rows db cid); [discriminate|].
  intros _. eexists _, _, _. split; [reflexivity|]. cbn.
  pose proof (posted_marks_range eng _ Hi).
  pose proof (posted_marks_range eng _ He).
  rewrite calculateTotalMarks_sum. repeat split; lia.
Qed.

Lemma checked_marks_inr (eng : Engine) (v : JSValue) (invalid : Resp)
    (x : option Z) :
  checked_marks eng v invalid = inr x ->
  in_range x /\ (x = None <-> is_undefined v = true).
Proof.
  unfold checked_marks, marks_out_of_range.
  destruct v; cbn; try discriminate;
    try (destruct (parseInt (frac_digits eng) _) as [n|]; [|discriminate];
         destruct ((n <? 0) || (100 <? n)) eqn:E; [discriminate|];
         intros H; injection H as <-; cbn; split; [lia|split; discriminate]).
  intros H. injection H as <-. cbn. tauto.
Qed.

(** What [build_updates] derives for the total and the grade. *)
Lemma build_updates_marks (eng : Engine) (now : string) (body : JSObject)
    (db : DB) (cur : Marks) (up : Updates) :
  build_updates eng now body db cur = inr up ->
  in_range (up_internalMarks up) /\ in_range (up_externalMarks up) /\
  (up_internalMarks up = None <-> is_undefined (get "internalMarks" body) = true) /\
  (up_externalMarks up = None <-> is_undefined (get "externalMarks" body) = true) /\
  up_updatedAt up = now /\
  if negb (is_undefined (get "internalMarks" body))
     || negb (is_undefined (get "externalMarks" body))
  then
    let sum := opt_or_zero (over (up_internalMarks up) (m_internalMarks cur))
               + opt_or_zero (over (up_externalMarks up) (m_externalMarks cur)) in
    up_totalMarks up = Some sum /\ up_grade up = Some (calculateGrade sum)
  else up_totalMarks up = None /\ up_grade up = None.
Proof.
  unfold build_updates.
  destruct (checked_id eng (get "studentId" body) _ _ _) as [r|usid];
    [discriminate|].
  destruct (checked_id eng (get "courseId" body) _ _ _) as [r|ucid];
    [discriminate|].
  match goal with
  | |- context [match ?x with inl r => inl r | inr up_sem => _ end] =>
      destruct x as [r|usem]; [discriminate|]
  end.
  destruct (checked_marks eng (get "internalMarks" body) _) as [r|uint] eqn:Hi;
    [discriminate|].
  destruct (checked_marks eng (get "externalMarks" body) _) as [r|uext] eqn:He;
    [discriminate|].
  destruct (checked_marks_inr _ _ _ _ Hi) as [Hri Hui].
  destruct (checked_marks_inr _ _ _ _ He) as [Hre Hue].
  destruct (negb (is_undefined (get "internalMarks" body))
            || negb (is_undefined (get "externalMarks" body)));
    intros H; injection H as <-; cbn; rewrite ?calculateTotalMarks_sum;
    repeat split; tauto.
Qed.

Lemma checked_id_inl {A : Type} (eng : Engine) (v : JSValue)
    (rows : Z -> list A) (invalid missing r : Resp) :
  is_success invalid = false -> is_success missing = false ->
  checked_id eng v rows invalid missing = inl r -> is_success r = false.
Proof.
  intros Hi Hm. unfold checked_id.
  destruct v; try discriminate;
    destruct (parseInt (frac_digits eng) _) as [k|];
    try (intros H; injection H as <-; exact Hi);
    destruct (rows k); intros H; try discriminate H;
    injection H as <-; exact Hm.
Qed.

Lemma checked_marks_inl (eng : Engine) (v : JSValue) (invalid r : Resp) :
  is_success invalid = false ->
  checked_marks eng v invalid = inl r -> is_success r = false.
Proof.
  intros Hi. unfold checked_marks.
  destruct v; try discriminate; destruct (marks_out_of_range eng _);
    intros H; try discriminate H; injection H as <-; exact Hi.
Qed.

Lemma build_updates_inl (eng : Engine) (now : string) (body : JSObject)
    (db : DB) (cur : Marks) (r : Resp) :
  build_updates eng now body db cur = inl r -> is_success r = false.
Proof.
  unfold build_updates.
  destruct (checked_id eng (get "studentId" body) _ _ _) as [r1|usid] eqn:H1.
  { intros H. injection H as <-. eapply checked_id_inl; [| |exact H1]; reflexivity. }
  destruct (checked_id eng (get "courseId" body) _ _ _) as [r2|ucid] eqn:H2.
  { intros H. injection H as <-. eapply checked_id_inl; [| |exact H2]; reflexivity. }
  match goal with
  | |- context [match ?x with inl r => inl r | inr up_sem => _ end] =>
      destruct x as [r3|usem] eqn:H3
  end.
  { intros H. injection H as <-.
    destruct (get "semester" body); try discriminate H3;
      destruct (parseInt (frac_digits eng) _); try discriminate H3;
      injection H3 as <-; reflexivity. }
  destruct (checked_marks eng (get "internalMarks" body) _) as [r4|uint] eqn:H4.
  { intros H. injection H as <-. eapply checked_marks_inl; [|exact H4]. reflexivity. }
  destruct (checked_marks eng (get "externalMarks" body) _) as [r5|uext] eqn:H5.
  { intros H. injection H as <-. eapply checked_marks_inl; [|exact H5]. reflexivity. }
  destruct (negb _ || negb _); discriminate.
Qed.

Lemma PUT_success (eng : Engine) (now : string) (id : option string)
    (body : JSObject) (db : DB) :
  is_success (fst (PUT eng now id body db)) = true ->
  exists (s : string) (k : Z) (cur : Marks) (up : Updates),
    id = Some s /\ parseInt_string s = Some k /\
    marks_by_id db k = Some cur /\
    build_updates eng now body db cur = inr up /\
    fst (PUT eng now id body db) = Json 200 (Some (apply_updates up cur)) /\
    forall k',
      marks_by_id (snd (PUT eng now id body db)) k'
      = if k' =? k then option_map (apply_updates up) (marks_by_id db k')
        else marks_by_id db k'.
Proof.
  unfold PUT. destruct id as [s|]; [|discriminate].
  destruct (parseInt_string s) as [k|] eqn:Hk; [|discriminate].
  destruct (filter (fun m => m_id m =? k) (marks db)) as [|cur rest] eqn:Hf;
    [discriminate|]. cbn [firstn].
  destruct (build_updates eng now body db cur) as [r|up] eqn:Hb.
  { cbn. now rewrite (build_updates_inl _ _ _ _ _ _ Hb). }
  intros _. unfold update_where. rewrite Hf. cbn [fst snd map hd_error].
  assert (Hcur : marks_by_id db k = Some cur).
  { unfold marks_by_id. clear - Hf.
    induction (marks db) as [|y l IH]; cbn in *; [discriminate|].
    destruct (m_id y =? k); [now injection Hf as -> _ | auto]. }
  exists s, k, cur, up. repeat split; try assumption.
  intros k'. unfold marks_by_id. cbn [marks with_marks].
  apply (find_update m_id). reflexivity.
Qed.

Lemma find_snoc {A : Type} (p : A -> bool) (l : list A) (x : A) :
  find p (l ++ [x])
  = match find p l with
    | Some y => Some y
    | None => if p x then Some x else None
    end.
Proof.
  induction l as [|y l IH]; cbn; [reflexivity|].
  destruct (p y); [reflexivity | exact IH].
Qed.

Lemma POST_ignores (eng : Engine) (now later : string) (newId : Z)
    (body : JSObject) (db : DB) (total grade : JSValue) :
  POST eng now later newId (JS.set "totalMarks" total (JS.set "grade" grade body)) db
  = POST eng now later newId body db.
Proof.
  unfold POST. rewrite !get_set_other by discriminate. reflexivity.
Qed.

Lemma PUT_ignores (eng : Engine) (now : string) (id : option string)
    (body : JSObject) (db : DB) (total grade : JSValue) :
  PUT eng now id (JS.set "totalMarks" total (JS.set "grade" grade body)) db
  = PUT eng now id body db.
Proof.
  unfold PUT, build_updates. rewrite !get_set_other by discriminate.
  reflexivity.
Qed.

(** The handlers' sum, a missing component read as 0 by [|| 0], is the sum
    of the components. *)
Lemma components_sum_or_zero (m : Marks) :
  opt_or_zero (m_internalMarks m) + opt_or_zero (m_externalMarks m)
  = components_sum m.
Proof.
  unfold components_sum, opt_or_zero.
  destruct (m_internalMarks m), (m_externalMarks m);
    rewrite ?int_or_zero_id; lia.
Qed.

(** What a successful PUT stores for the record it updates. *)
Lemma PUT_stores (eng : Engine) (now : string) (id : option string)
    (body : JSObject) (db : DB) :
  is_success (fst (PUT eng now id body db)) = true ->
  exists (k : Z) (cur m : Marks),
    marks_by_id db k = Some cur /\
    fst (PUT eng now id body db) = Json 200 (Some m) /\
    marks_by_id (snd (PUT eng now id body db)) k = Some m /\
    (forall k', k' <> k ->
       marks_by_id (snd (PUT eng now id body db)) k' = marks_by_id db k') /\
    (in_range (m_internalMarks cur) -> in_range (m_internalMarks m)) /\
    (in_range (m_externalMarks cur) -> in_range (m_externalMarks m)) /\
    if negb (is_undefined (get "internalMarks" body))
       || negb (is_undefined (get "externalMarks" body))
    then derived m
    else m_internalMarks m = m_internalMarks cur /\
         m_externalMarks m = m_externalMarks cur /\
         m_totalMarks m = m_totalMarks cur /\
         m_grade m = m_grade cur.
Proof.
  intros Hok.
  destruct (PUT_success _ _ _ _ _ Hok) as (s & k & cur & up & _ & _ & Hcur & Hb & Hr & Hdb).
  exists k, cur, (apply_updates up cur).
  destruct (build_updates_marks _ _ _ _ _ _ Hb) as (Hri & Hre & Hui & Hue & _ & Hd).
  split; [exact Hcur|]. split; [exact Hr|]. split.
  { rewrite Hdb, Z.eqb_refl, Hcur. reflexivity. }
  split.
  { intros k' Hne. rewrite Hdb. assert ((k' =? k) = false) as -> by lia.
    reflexivity. }
  split.
  { cbn. destruct (up_internalMarks up); cbn; auto. }
  split.
  { cbn. destruct (up_externalMarks up); cbn; auto. }
  destruct (negb (is_undefined (get "internalMarks" body))
            || negb (is_undefined (get "externalMarks" body))) eqn:Hp.
  - destruct Hd as [Ht Hg]. unfold derived.
    rewrite <- components_sum_or_zero. cbn. rewrite Ht, Hg. cbn.
    split; reflexivity.
  - destruct Hd as [Ht Hg]. apply orb_false_iff in Hp. destruct Hp as [Hp1 Hp2].
    apply negb_false_iff in Hp1, Hp2.
    apply Hui in Hp1. apply Hue in Hp2. cbn. rewrite Hp1, Hp2, Ht, Hg.
    repeat split.
Qed.

(** C10, as the handlers have it.  A record created by POST stores components
    in [0,100], their sum as totalMarks (at most 200) and the grade of that
    sum.  A record updated by PUT with a marks field has its totalMarks and
    grade recomputed: totalMarks is the sum of the components it now stores (a
    NULL component adding nothing) and the grade is the grade of that sum.  A
    PUT that names no marks field leaves components, totalMarks and grade as
    they were stored, whatever they were.  The grade is "A" from 90, "B" from
    80, "C" from 70, "D" from 60 and "F" below, so 45 + 45 is an "A"; and a
    totalMarks or grade supplied by the caller changes nothing.  Hence, once
    every record has the sum and its grade, every record still has them after
    any POST or PUT. *)
Theorem marks_total_and_grade (eng : Engine) (now later : string) :
  (forall newId body db,
     is_success (fst (POST eng now later newId body db)) = true ->
     exists (m : Marks) (i e : Z),
       fst (POST eng now later newId body db) = Json 201 (Some m) /\
       marks (snd (POST eng now later newId body db)) = (marks db ++ [m])%list /\
       m_internalMarks m = Some i /\ m_externalMarks m = Some e /\
       0 <= i <= 100 /\ 0 <= e <= 100 /\
       m_totalMarks m = Some (i + e) /\ i + e <= 200 /\
       m_grade m = Some (calculateGrade (i + e))) /\
  (forall id body db,
     is_success (fst (PUT eng now id body db)) = true ->
     exists (k : Z) (cur m : Marks),
       marks_by_id db k = Some cur /\
       fst (PUT eng now id body db) = Json 200 (Some m) /\
       marks_by_id (snd (PUT eng now id body db)) k = Some m /\
       (in_range (m_internalMarks cur) -> in_range (m_internalMarks m)) /\
       (in_range (m_externalMarks cur) -> in_range (m_externalMarks m)) /\
       if negb (is_undefined (get "internalMarks" body))
          || negb (is_undefined (get "externalMarks" body))
       then derived m
       else m_internalMarks m = m_internalMarks cur /\
            m_externalMarks m = m_externalMarks cur /\
            m_totalMarks m = m_totalMarks cur /\
            m_grade m = m_grade cur) /\
  (forall t,
     (90 <= t -> calculateGrade t = "A") /\
     (80 <= t < 90 -> calculateGrade t = "B") /\
     (70 <= t < 80 -> calculateGrade t = "C") /\
     (60 <= t < 70 -> calculateGrade t = "D") /\
     (t < 60 -> calculateGrade t = "F")) /\
  (forall newId id body db total grade,
     POST eng now later newId (JS.set "totalMarks" total (JS.set "grade" grade body)) db
     = POST eng now later newId body db /\
     PUT eng now id (JS.set "totalMarks" total (JS.set "grade" grade body)) db
     = PUT eng now id body db) /\
  (forall newId id body db,
     (forall k m, marks_by_id db k = Some m -> derived m) ->
     (forall k m,
        marks_by_id (snd (POST eng now later newId body db)) k = Some m -> derived m) /\
     (forall k m,
        marks_by_id (snd (PUT eng now id body db)) k = Some m -> derived m)).
Proof.
  split; [|split; [|split; [|split]]].
  - intros newId body db Hok.
    destruct (POST_success _ _ _ _ _ _ Hok)
      as (m & i & e & HP & _ & Hi & He & Hri & Hre & Ht & Hg).
    exists m, i, e. rewrite HP. cbn. repeat split; try assumption; lia.
  - intros id body db Hok.
    destruct (PUT_stores _ _ _ _ _ Hok)
      as (k & cur & m & Hcur & Hr & Hm & _ & Hri & Hre & Hd).
    exists k, cur, m. repeat split; assumption.
  - apply calculateGrade_thresholds.
  - intros. split; [apply POST_ignores | apply PUT_ignores].
  - intros newId id body db Hinv. split; intros k m.
    + destruct (is_success (fst (POST eng now later newId body db))) eqn:Hok.
      * destruct (POST_success _ _ _ _ _ _ Hok)
          as (m' & i & e & HP & _ & Hi & He & _ & _ & Ht & Hg).
        rewrite HP. unfold marks_by_id. cbn. rewrite find_snoc.
        destruct (find (fun m0 => m_id m0 =? k) (marks db)) as [y|] eqn:Hy.
        -- intros H. injection H as <-. now apply Hinv with (k := k).
        -- destruct (m_id m' =? k); [|discriminate].
           intros H. injection H as <-. unfold derived, components_sum.
           rewrite Hi, He, Ht, Hg. split; reflexivity.
      * assert (Hdb : snd (POST eng now later newId body db) = db).
        { revert Hok. unfold POST.
          repeat match goal with
                 | |- context [match ?x with _ => _ end] => destruct x
                 end; cbn; congruence. }
        rewrite Hdb. apply Hinv.
    + destruct (is_success (fst (PUT eng now id body db))) eqn:Hok.
      * destruct (PUT_stores _ _ _ _ _ Hok)
          as (k0 & cur & m' & Hcur & _ & Hm & Hother & _ & _ & Hd).
        destruct (Z.eq_dec k k0) as [->|Hne].
        -- rewrite Hm. intros H. injection H as <-.
           destruct (negb _ || negb _); [exact Hd|].
           destruct Hd as (Hi & He & Ht & Hg). unfold derived, components_sum.
           rewrite Hi, He, Ht, Hg. now apply Hinv with (k := k0).
        -- rewrite (Hother _ Hne). apply Hinv.
      * assert (Hdb : snd (PUT eng now id body db) = db).
        { revert Hok. unfold PUT.
          repeat match goal with
                 | |- context [match ?x with _ => _ end] => destruct x
                 end; cbn; congruence. }
        rewrite Hdb. apply Hinv.
Qed.

(** Internal 45 and external 45 for student 7 in course 3. *)
Example marks_45_45_is_A :
  let db := mkDB [Scenario.student7]
              [mkCourse 3 "Mechanics" "PH101" 4 "Physics" None (Some 0)
                 Scenario.t0 Scenario.t0] [] [] [] [] [] in
  let body : JSObject :=
    [("studentId", JNumber 7%float); ("courseId", JNumber 3%float);
     ("semester", JNumber 1%float); ("internalMarks", JNumber 45%float);
     ("externalMarks", JNumber 45%float); ("grade", JString "F");
     ("totalMarks", JNumber 10%float)] in
  fst (POST Scenario.engine Scenario.t1 Scenario.t2 1 body db)
  = Json 201
      (Some (mkMarks 1 (Some 7) (Some 3) 1 (Some 45) (Some 45) (Some 90)
               (Some "A") Scenario.t1 Scenario.t2)).
Proof. reflexivity. Qed.

(** The total of a stored record that is not the sum of its components
    survives an update that names no marks field: the update of the semester
    is answered 200 and the record still has 35, 50 and the total 0 with
    grade F. *)
Lemma semester_update_keeps_stale_total :
  exists m : Marks,
    PUT Scenario.engine Scenario.t1 (Some "31") [("semester", JNumber 2%float)]
      Scenario.stale
    = (Json 200 (Some m), with_marks [m] Scenario.stale) /\
    m_semester m = 2 /\
    m_internalMarks m = Some 35 /\ m_externalMarks m = Some 50 /\
    m_totalMarks m = Some 0 /\ m_grade m = Some "F" /\
    m_totalMarks m <> Some (35 + 50) /\ ~ derived m.
Proof.
  eexists. split; [reflexivity|]. cbn. repeat split; try discriminate.
  intros [H _]. discriminate H.
Qed.

End MarksFacts.

Module JSTests.
Import JS.

Example round_half_up : Math_round 0.5%float = 1%float.
Proof. reflexivity. Qed.

Example round_ties_positive : Math_round (-2.5)%float = (-2)%float.
Proof. reflexivity. Qed.

Example round_below_half : Math_round 28.499999999999996%float = 28%float.
Proof. reflexivity. Qed.

Example round_neg_zero : Prim2SF (Math_round (-0.25)%float) = S754_zero true.
Proof. reflexivity. Qed.

Example toString_integer : Number_toString (fun _ => "") 250%float = "250".
Proof. reflexivity. Qed.

Example parseInt_prefix : parseInt_string "  45abc" = Some 45.
Proof. reflexivity. Qed.

Example parseInt_hex : parseInt_string "-0x1f" = Some (-31).
Proof. reflexivity. Qed.

Example parseInt_none : parseInt_string "abc" = None.
Proof. reflexivity. Qed.

Example parseInt_number : parseInt (fun _ => "") (JNumber 45%float) = Some 45.
Proof. reflexivity. Qed.

Example float_to_Z_frac : float_to_Z 7.5%float = None.
Proof. reflexivity. Qed.

(** U+00A0 before the digits is skipped, as a space is. *)
Example parseInt_no_break_space :
  parseInt_string (String (ascii_of_N 194) (String (ascii_of_N 160) "1"))
  = Some 1.
Proof. reflexivity. Qed.

Example parseInt_ideographic_space :
  parseInt_string
    (String (ascii_of_N 227) (String (ascii_of_N 128)
       (String (ascii_of_N 128) " 42")))
  = Some 42.
Proof. reflexivity. Qed.

(** Beyond 2^53 the value is the nearest double. *)
Example parseInt_rounds :
  parseInt_string "9007199254740993" = Some 9007199254740992 /\
  parseInt_string "9007199254740995" = Some 9007199254740996 /\
  parseInt_string "-9007199254740993" = Some (-9007199254740992) /\
  parseInt_string "9007199254740992" = Some 9007199254740992.
Proof. repeat split. Qed.

Example trim_both_ends :
  Payment.trim
    (String (ascii_of_N 194) (String (ascii_of_N 160)
       (" cash on hand " ++ String (ascii_of_N 194) (String (ascii_of_N 160) ""))))
  = "cash on hand".
Proof. reflexivity. Qed.

End JSTests.

(* ================================================================= *)
(** ** Facts about two payments in flight *)

Module ConcurrentFacts.
Import JS Schema Http Payment Concurrent TwoPayments TableFacts PaymentFacts.

(** Run alone, the stages are the handler. *)
Lemma alone_is_PUT (eng : Engine) (r : Request) (db : DB) :
  alone eng r db
  = (Done (fst (PUT eng (rq_now r) (rq_user r) (rq_id r) (rq_body r) db)),
     snd (PUT eng (rq_now r) (rq_user r) (rq_id r) (rq_body r) db)).
Proof.
  unfold alone, PUT, step.
  destruct (validate (rq_user r) (rq_id r) (rq_body r)) as [e|v];
    [reflexivity|].
  destruct (check eng v (select_fee db (v_feeId v))) as [e|[fee st]];
    [reflexivity|].
  destruct (write_fee (rq_now r) (v_feeId v) db) as [db1 [|u us]]; reflexivity.
Qed.

Lemma good_init : good abs_init = true.
Proof. reflexivity. Qed.

Lemma good_step (who : bool) (a : Abs) :
  good a = true -> good (abs_step who a) = true.
Proof.
  destruct a as [[] [] [[]|] [[]|]]; destruct who; cbn; congruence.
Qed.

Lemma good_run (sched : list bool) (a : Abs) :
  good a = true -> good (abs_run sched a) = true.
Proof.
  revert a. induction sched as [|who sched IH]; intros a Ha; cbn; [exact Ha|].
  apply IH. now apply good_step.
Qed.

(** Two updates of the same rows in a row: the second one stands. *)
Lemma update_twice {A : Type} (cond : A -> bool) (u1 u2 : A -> A) (l : list A) :
  (forall r, cond (u1 r) = cond r) ->
  (forall r, u2 (u1 r) = u2 r) ->
  map (fun r => if cond r then u2 r else r)
      (map (fun r => if cond r then u1 r else r) l)
  = map (fun r => if cond r then u2 r else r) l.
Proof.
  intros Hc Hu. rewrite map_map. apply map_ext. intros r.
  destruct (cond r) eqn:E; [|now rewrite E]. now rewrite Hc, E, Hu.
Qed.

Section Simulation.
Variable S : Setting.
Hypothesis HS : well_set S.

Lemma validated (who : bool) :
  validate (rq_user (rq S who)) (rq_id (rq S who)) (rq_body (rq S who))
  = inr (vd S who) /\
  v_feeId (vd S who) = feeId S /\
  (0.01 <? Math_abs (v_amount (vd S who) - f_amount (fee0 S)))%float = false.
Proof.
  destruct HS as (H1 & H2 & H3 & H4 & _ & _ & _ & _ & H5 & H6).
  destruct who; cbn; auto.
Qed.

Lemma st0_id : s_id (st0 S) = sid S.
Proof.
  destruct HS as (_ & _ & _ & _ & _ & _ & Hst & _).
  now apply (find_key s_id) with (l := students (db0 S)).
Qed.

Lemma cdb_fee (a : Abs) :
  fee_by_id (cdb S a) (feeId S)
  = Some (match fee_writer a with
          | None => fee0 S
          | Some w => mark_paid (rq_now (rq S w)) (fee0 S)
          end).
Proof.
  destruct HS as (_ & _ & _ & _ & Hfee & _).
  unfold fee_by_id, cdb in *. cbn [fees with_students with_fees].
  destruct (fee_writer a) as [w|]; cbn [cfees]; [|exact Hfee].
  rewrite (find_update f_id) by reflexivity.
  now rewrite Z.eqb_refl, Hfee.
Qed.

Lemma cdb_student (a : Abs) :
  student_by_id (cdb S a) (sid S)
  = Some (match student_writer a with
          | None => st0 S
          | Some w =>
              set_balance (newBalance (st0 S) (v_amount (vd S w)))
                (rq_now (rq S w)) (st0 S)
          end).
Proof.
  pose proof st0_id as Hid.
  destruct HS as (_ & _ & _ & _ & _ & _ & Hst & _).
  unfold student_by_id, cdb in *. cbn [students with_students with_fees].
  destruct (student_writer a) as [w|]; cbn [cstudents]; [|exact Hst].
  rewrite (find_update s_id) by reflexivity.
  now rewrite Hid, Z.eqb_refl, Hst.
Qed.

(** One move of a request is one move of the abstract state. *)
Lemma step_simulated (who : bool) (a : Abs) :
  good a = true ->
  step (eng S) (rq S who) (cstage S who (stage_of who a)) (cdb S a)
  = (cstage S who (stage_of who (abs_step who a)), cdb S (abs_step who a)).
Proof.
  intros Hgood.
  destruct (validated who) as (Hv & Hid & Htol).
  pose proof (cdb_fee a) as Hfee. pose proof (cdb_student a) as Hst.
  pose proof st0_id as Hsid.
  destruct HS as (_ & _ & _ & _ & Hfee0 & Hfs & Hst0 & Hpay & _).
  unfold abs_step. destruct (stage_of who a) eqn:Hp; cbn [cstage step].
  - (* the select and the checks *)
    rewrite Hv, Hid.
    destruct (fee_writer a) as [w|] eqn:Hw.
    + rewrite (select_fee_found _ _ (sid S) _ _ Hfee Hfs Hst).
      destruct a as [q1 q2 fw sw]; destruct who; cbn in *; subst;
        reflexivity.
    + assert (Hsw : student_writer a = None).
      { unfold good in Hgood. rewrite Hw in Hgood.
        destruct (student_writer a); [|reflexivity].
        rewrite andb_false_r in Hgood. discriminate. }
      rewrite Hsw in Hst.
      rewrite (select_fee_found _ _ (sid S) _ _ Hfee Hfs Hst).
      unfold check.
      assert (String.eqb (f_status (fee0 S)) "paid" = false) as ->
        by (destruct Hpay as [-> | ->]; reflexivity).
      assert (negb (String.eqb (f_status (fee0 S)) "pending")
              && negb (String.eqb (f_status (fee0 S)) "overdue") = false) as ->
        by (destruct Hpay as [-> | ->]; reflexivity).
      rewrite Htol.
      destruct a as [q1 q2 fw sw]; destruct who; cbn in *; subst;
        reflexivity.
  - (* the update of the fee *)
    rewrite Hid. unfold write_fee, update_where.
    unfold fee_by_id in Hfee. destruct (find_filter _ _ _ Hfee) as [rest Hr].
    rewrite Hr. cbn [map].
    assert (Hfees : map (fun f => if f_id f =? feeId S
                                  then mark_paid (rq_now (rq S who)) f else f)
                      (fees (cdb S a))
                    = cfees S (Some who)).
    { unfold cdb. cbn [fees with_students with_fees cfees].
      destruct (fee_writer a) as [w|]; cbn [cfees]; [|reflexivity].
      apply update_twice; reflexivity. }
    rewrite Hfees.
    destruct a as [q1 q2 fw sw]; destruct who, fw as [w|]; cbn in *; subst;
      reflexivity.
  - (* the update of the student *)
    unfold write_student, update_where. cbn [fst].
    assert (Hss : map (fun s => if s_id s =? s_id (st0 S)
                                then set_balance
                                       (newBalance (st0 S)
                                          (v_amount (vd S who)))
                                       (rq_now (rq S who)) s
                                else s)
                    (students (cdb S a))
                  = cstudents S (Some who)).
    { unfold cdb. cbn [students with_students with_fees cfees].
      destruct (student_writer a) as [w|]; cbn [cstudents]; [|reflexivity].
      apply update_twice; reflexivity. }
    rewrite Hss.
    destruct a as [q1 q2 fw sw]; destruct who; cbn in *; subst; reflexivity.
  - destruct a as [q1 q2 fw sw]; destruct who; cbn in *; subst; reflexivity.
  - destruct a as [q1 q2 fw sw]; destruct who; cbn in *; subst; reflexivity.
Qed.

Lemma run_simulated (sched : list bool) (a : Abs) :
  good a = true ->
  run (eng S) (rq1 S) (rq2 S) sched (cstage S true (p1 a))
      (cstage S false (p2 a)) (cdb S a)
  = (cstage S true (p1 (abs_run sched a)),
     cstage S false (p2 (abs_run sched a)),
     cdb S (abs_run sched a)).
Proof.
  revert a. induction sched as [|who sched IH]; intros a Ha; [reflexivity|].
  cbn [run abs_run]. destruct who.
  - pose proof (step_simulated true a Ha) as Hs. cbn [stage_of rq] in Hs.
    rewrite Hs. rewrite <- (IH _ (good_step true a Ha)).
    destruct a as [[] q2 [w|] sw]; reflexivity.
  - pose proof (step_simulated false a Ha) as Hs. cbn [stage_of rq] in Hs.
    rewrite Hs. rewrite <- (IH _ (good_step false a Ha)).
    destruct a as [q1 [] [w|] sw]; reflexivity.
Qed.
End Simulation.

Lemma cdb_init (S : Setting) : cdb S abs_init = db0 S.
Proof. destruct S as [? ? ? ? ? [] ? ? ? ?]. reflexivity. Qed.

(** C9, as the handler has it.  Two valid payments of the same pending or
    overdue fee, each statement on the database atomic and the two requests
    interleaved in any way: when both have answered, at least one succeeded,
    a request that failed got the Conflict "already paid", the fee is paid,
    and the student's balance is its prior value minus the amount of one
    successful request, so it is decremented once and never twice.  One after
    the other, the first succeeds and the second gets Conflict.  But when
    both read the fee before either writes it, both succeed. *)
Theorem two_payments_outcome (S : Setting) :
  well_set S ->
  (forall sched res1 res2 db',
     run (eng S) (rq1 S) (rq2 S) sched Start Start (db0 S)
     = (Done res1, Done res2, db') ->
     (is_success res1 = true \/ is_success res2 = true) /\
     (is_success res1 = false -> res1 = conflict) /\
     (is_success res2 = false -> res2 = conflict) /\
     option_map f_status (fee_by_id db' (feeId S)) = Some "paid" /\
     exists who : bool,
       is_success (if who then res1 else res2) = true /\
       option_map s_balance (student_by_id db' (sid S))
       = Some (Some (or_zero (s_balance (st0 S)) - v_amount (vd S who))%float)) /\
  (exists db',
     run (eng S) (rq1 S) (rq2 S) [true; true; true; false] Start Start (db0 S)
     = (Done (paid_response S true), Done conflict, db')) /\
  (exists db',
     run (eng S) (rq1 S) (rq2 S) [false; false; false; true] Start Start (db0 S)
     = (Done conflict, Done (paid_response S false), db')) /\
  (exists db',
     run (eng S) (rq1 S) (rq2 S) [true; false; true; true; false; false]
       Start Start (db0 S)
     = (Done (paid_response S true), Done (paid_response S false), db')).
Proof.
  intros HS.
  assert (Hrun : forall sched,
            run (eng S) (rq1 S) (rq2 S) sched Start Start (db0 S)
            = (cstage S true (p1 (abs_run sched abs_init)),
               cstage S false (p2 (abs_run sched abs_init)),
               cdb S (abs_run sched abs_init))).
  { intros sched. rewrite <- (cdb_init S) at 1.
    exact (run_simulated S HS sched abs_init good_init). }
  split; [|split; [|split]];
    try (rewrite Hrun; eexists; reflexivity).
  intros sched res1 res2 db' H. rewrite Hrun in H.
  pose proof (good_run sched abs_init good_init) as Hgood.
  pose proof (cdb_fee S HS (abs_run sched abs_init)) as Hfee.
  pose proof (cdb_student S HS (abs_run sched abs_init)) as Hst.
  destruct (abs_run sched abs_init) as [q1 q2 fw sw].
  injection H as H1 H2 <-. cbn [fee_writer student_writer] in Hfee, Hst.
  rewrite Hfee, Hst. clear Hfee Hst.
  destruct q1; try discriminate H1; destruct q2; try discriminate H2;
    injection H1 as <-; injection H2 as <-;
    destruct fw as [[]|]; try discriminate Hgood;
    destruct sw as [[]|]; try discriminate Hgood;
    cbn; (repeat split; try discriminate; auto);
    first [ exists true; split; reflexivity
          | exists false; split; reflexivity ].
Qed.

Lemma double_payment_well_set : well_set Scenario.double_payment.
Proof.
  unfold well_set. repeat split; try reflexivity. left; reflexivity.
Defined.

(** The two requests for fee 1 of the scenario. *)
Lemma two_payments_outcome_scenario :
  well_set Scenario.double_payment /\
  exists db',
    run Scenario.engine Scenario.first_request Scenario.second_request
      [true; true; true; false] Start Start Scenario.db0
    = (Done (paid_response Scenario.double_payment true), Done conflict, db').
Proof.
  split; [exact double_payment_well_set|].
  exact (proj1 (proj2 (two_payments_outcome Scenario.double_payment
                         double_payment_well_set))).
Defined.

(** C9 as stated fails: when both requests read fee 1 before either writes
    it, both are answered 200 and none gets Conflict; the balance ends at
    700.00 all the same, each request having written 1200.00 - 500.00. *)
Lemma both_payments_succeed :
  match run Scenario.engine Scenario.first_request Scenario.second_request
          [true; false; true; true; false; false] Start Start Scenario.db0 with
  | (Done r1, Done r2, db') =>
      status_of r1 = 200 /\ status_of r2 = 200 /\
      is_success r1 = true /\ is_success r2 = true /\
      kind r1 <> Some Conflict /\ kind r2 <> Some Conflict /\
      option_map s_balance (student_by_id db' 7) = Some (Some 700%float)
  | _ => False
  end.
Proof. cbn. repeat split; discriminate. Qed.

End ConcurrentFacts.

(* ================================================================= *)
(** ** Facts about the fees route *)

Module FeesCrudFacts.
Import JS Schema Http FeesRoute FeesCrud Frames TableFacts.

Lemma find_filter_out {A : Type} (key : A -> Z) (k k' : Z) (l : list A) :
  find (fun r => key r =? k') (filter (fun r => negb (key r =? k)) l)
  = if k' =? k then None else find (fun r => key r =? k') l.
Proof.
  induction l as [|y l IH]; cbn.
  - now destruct (k' =? k).
  - destruct (key y =? k) eqn:Ek; cbn.
    + rewrite IH. destruct (k' =? k) eqn:E; [reflexivity|].
      assert ((key y =? k') = false) as -> by lia. reflexivity.
    + destruct (key y =? k') eqn:Ek'.
      * assert ((k' =? k) = false) as -> by lia. reflexivity.
      * exact IH.
Qed.

Lemma find_snoc_fresh {A : Type} (key : A -> Z) (k : Z) (l : list A) (x : A) :
  find (fun r => key r =? k) (l ++ [x])
  = match find (fun r => key r =? k) l with
    | Some y => Some y
    | None => if key x =? k then Some x else None
    end.
Proof.
  induction l as [|y l IH]; cbn; [reflexivity|].
  destruct (key y =? k); [reflexivity | exact IH].
Qed.

Lemma filter_out_fresh {A : Type} (key : A -> Z) (k : Z) (l : list A) (x : A) :
  find (fun r => key r =? k) l = None -> key x = k ->
  filter (fun r => negb (key r =? k)) (l ++ [x]) = l.
Proof.
  intros Hnone Hx. rewrite filter_app. cbn. rewrite Hx, Z.eqb_refl. cbn.
  rewrite app_nil_r. induction l as [|y l IH]; cbn in *; [reflexivity|].
  destruct (key y =? k); [discriminate|]. cbn. now rewrite IH.
Qed.

Lemma first_row {A : Type} (key : A -> Z) (k : Z) (l : list A) :
  firstn 1 (filter (fun r => key r =? k) l)
  = match find (fun r => key r =? k) l with Some y => [y] | None => [] end.
Proof.
  induction l as [|y l IH]; cbn; [reflexivity|].
  destruct (key y =? k); [reflexivity | exact IH].
Qed.

Lemma includes_In (l : list string) (v : JSValue) :
  includes l v = true -> exists s, v = JString s /\ In s l.
Proof.
  destruct v; try discriminate. cbn [includes]. intros H.
  apply existsb_exists in H. destruct H as (t & Ht & Heq).
  apply String.eqb_eq in Heq. subst t. eauto.
Qed.

(** *** POST *)

Lemma POST_inv (eng : Engine) (now later : string) (newId : Z)
    (body : JSObject) (db : DB) :
  is_success (fst (POST eng now later newId body db)) = true ->
  exists (sid amt : float) (k : Z) (due ty st : string) (pd : option string),
    get "studentId" body = JNumber sid /\
    float_to_Z sid = Some k /\ student_by_id db k <> None /\
    get "amount" body = JNumber amt /\ (amt <=? 0)%float = false /\
    get "dueDate" body = JString due /\
    get "type" body = JString ty /\ In ty validTypes /\
    In st validStatuses /\
    (truthy (get "status" body) = true -> get "status" body = JString st) /\
    (truthy (get "status" body) = false -> st = "pending") /\
    (truthy (get "paidDate" body) = true ->
     stored_text eng (get "paidDate" body) = pd /\ pd <> None) /\
    (truthy (get "paidDate" body) = false -> pd = None) /\
    POST eng now later newId body db
    = (Json 201 (Some (mkFee newId (Some k) amt due pd st ty now later)),
       with_fees (fees db ++ [mkFee newId (Some k) amt due pd st ty now later]) db).
Proof.
  unfold POST.
  destruct (get "studentId" body) as [| | |sid| |] eqn:Hsid; try discriminate.
  destruct (negb (truthy (JNumber sid))); [discriminate|].
  destruct (get "amount" body) as [| | |amt| |] eqn:Hamt; try discriminate.
  destruct (negb (truthy (JNumber amt)) || (amt <=? 0)%float) eqn:Ha;
    [discriminate|].
  apply orb_false_iff in Ha. destruct Ha as [_ Ha].
  destruct (get "dueDate" body) as [| | | |due|] eqn:Hdue; try discriminate.
  destruct (negb (truthy (JString due))); [discriminate|].
  destruct (get "type" body) as [| | | |ty|] eqn:Hty; try discriminate.
  destruct (negb (truthy (JString ty))); [discriminate|].
  destruct (negb (includes validTypes (JString ty))) eqn:Hin; [discriminate|].
  apply negb_false_iff in Hin. apply includes_In in Hin.
  destruct Hin as (t & Heq & Ht). injection Heq as <-.
  destruct (truthy (get "status" body)
            && negb (includes validStatuses (get "status" body))) eqn:Hst;
    [discriminate|].
  destruct (date_is_NaN eng (JString due)); [discriminate|].
  unfold studentExists.
  destruct (float_to_Z sid) as [k|] eqn:Hk; [|discriminate].
  rewrite (first_row s_id).
  destruct (find (fun s => s_id s =? k) (students db)) as [s0|] eqn:Hs0;
    [|discriminate].
  destruct (truthy (get "paidDate" body)
            && date_is_NaN eng (get "paidDate" body)) eqn:Hpd; [discriminate|].
  set (st := match get "status" body with
             | JString s => if truthy (get "status" body) then s else "pending"
             | _ => "pending"
             end).
  assert (Hstv : In st validStatuses /\
          (truthy (get "status" body) = true -> get "status" body = JString st) /\
          (truthy (get "status" body) = false -> st = "pending")).
  { subst st. destruct (truthy (get "status" body)) eqn:Htr.
    - cbn [andb] in Hst. apply negb_false_iff in Hst.
      apply includes_In in Hst. destruct Hst as (t & Heq & Ht').
      rewrite Heq. cbv beta iota. repeat split; auto. discriminate.
    - split; [|split; [discriminate|]];
        destruct (get "status" body); cbn; auto. }
  destruct Hstv as (Hst1 & Hst2 & Hst3).
  destruct (truthy (get "paidDate" body)) eqn:Htp.
  - destruct (stored_text eng (get "paidDate" body)) as [p|] eqn:Hp;
      [|discriminate].
    intros _. exists sid, amt, k, due, ty, st, (Some p).
    repeat split; auto; try discriminate.
    unfold student_by_id. rewrite Hs0. discriminate.
  - intros _. exists sid, amt, k, due, ty, st, None.
    repeat split; auto; try discriminate.
    unfold student_by_id. rewrite Hs0. discriminate.
Qed.

(** A successful POST answers 201 with the fee it appended to the table:
    the key assigned, an amount that is not [<= 0], a valid type, a valid
    status that is "pending" when the body gives none, no paidDate when the
    body gives none, a student that exists, createdAt the first reading of
    the clock and updatedAt the second.  Nothing but the fees table changes:
    creating a fee does not touch the student's balance. *)
Theorem fee_created (eng : Engine) (now later : string) (newId : Z)
    (body : JSObject) (db : DB) :
  is_success (fst (POST eng now later newId body db)) = true ->
  exists fee : Fee,
    fst (POST eng now later newId body db) = Json 201 (Some fee) /\
    fees (snd (POST eng now later newId body db)) = (fees db ++ [fee])%list /\
    only_fees_changed db (snd (POST eng now later newId body db)) /\
    f_id fee = newId /\ fee_ok fee /\
    f_createdAt fee = now /\ f_updatedAt fee = later /\
    (exists k, f_studentId fee = Some k /\ student_by_id db k <> None) /\
    (truthy (get "status" body) = false -> f_status fee = "pending") /\
    (truthy (get "paidDate" body) = false -> f_paidDate fee = None).
Proof.
  intros Hok.
  destruct (POST_inv _ _ _ _ _ _ Hok)
    as (sid & amt & k & due & ty & st & pd & _ & _ & Hk & _ & Hamt & _ & _ & Hty
        & Hst & _ & Hdef & _ & Hpd & ->).
  eexists. cbn. repeat split; eauto.
  exists k. split; [reflexivity | exact Hk].
Qed.

Lemma fee_created_exam_fee :
  exists fee : Fee,
    fst (POST Scenario.dated Scenario.t1 Scenario.t2 2 Scenario.new_fee
           Scenario.db0)
    = Json 201 (Some fee) /\
    fees (snd (POST Scenario.dated Scenario.t1 Scenario.t2 2 Scenario.new_fee
                 Scenario.db0))
    = (fees Scenario.db0 ++ [fee])%list /\
    only_fees_changed Scenario.db0
      (snd (POST Scenario.dated Scenario.t1 Scenario.t2 2 Scenario.new_fee
              Scenario.db0)) /\
    f_id fee = 2 /\ fee_ok fee /\
    f_createdAt fee = Scenario.t1 /\ f_updatedAt fee = Scenario.t2 /\
    (exists k, f_studentId fee = Some k /\ student_by_id Scenario.db0 k <> None) /\
    (truthy (get "status" Scenario.new_fee) = false -> f_status fee = "pending") /\
    (truthy (get "paidDate" Scenario.new_fee) = false -> f_paidDate fee = None).
Proof.
  apply (fee_created Scenario.dated Scenario.t1 Scenario.t2 2 Scenario.new_fee
           Scenario.db0).
  reflexivity.
Defined.

Example exam_fee_stored :
  fst (POST Scenario.dated Scenario.t1 Scenario.t2 2 Scenario.new_fee Scenario.db0)
  = Json 201
      (Some (mkFee 2 (Some 7) 300%float "2025-02-28" None "pending" "exam"
               Scenario.t1 Scenario.t2)).
Proof. reflexivity. Qed.

(** *** The generic update *)

(** [build_updates], its conversions to text named. *)
Lemma build_updates_eq (eng : Engine) (now : string) (body : JSObject)
    (db : DB) :
  build_updates eng now body db
  = match (match get "studentId" body with
           | JUndefined => inr None
           | JNumber x =>
               match studentExists db x with
               | [] => inl (fail 400 "Student not found" "STUDENT_NOT_FOUND")
               | _ :: _ => inr (float_to_Z x)
               end
           | _ => inl (fail 400 "Student ID must be a number"
                         "INVALID_STUDENT_ID")
           end : Resp + option Z) with
    | inl r => inl r
    | inr up_sid =>
        match (match get "amount" body with
               | JUndefined => inr None
               | JNumber x =>
                   if (x <=? 0)%float then
                     inl (fail 400 "Amount must be a positive number"
                            "INVALID_AMOUNT")
                   else inr (Some x)
               | _ => inl (fail 400 "Amount must be a positive number"
                             "INVALID_AMOUNT")
               end : Resp + option float) with
        | inl r => inl r
        | inr up_amt =>
            if negb (is_undefined (get "dueDate" body))
               && date_is_NaN eng (get "dueDate" body) then
              inl (fail 400 "Due date must be a valid date" "INVALID_DUE_DATE")
            else if negb (is_undefined (get "type" body))
                    && negb (includes validTypes (get "type" body)) then
              inl (fail 400
                     "Invalid fee type. Must be one of: tuition, exam, library, hostel"
                     "INVALID_TYPE")
            else if negb (is_undefined (get "status" body))
                    && negb (includes validStatuses (get "status" body)) then
              inl (fail 400
                     "Invalid status. Must be one of: pending, paid, overdue"
                     "INVALID_STATUS")
            else if negb (is_undefined (get "paidDate" body))
                    && negb (is_null (get "paidDate" body))
                    && date_is_NaN eng (get "paidDate" body) then
              inl (fail 400 "Paid date must be a valid date" "INVALID_PAID_DATE")
            else
              match text_of eng (get "dueDate" body),
                    text_of eng (get "type" body),
                    text_of eng (get "status" body) with
              | inr up_due, inr up_ty, inr up_st =>
                  match paid_of eng (get "paidDate" body) with
                  | inr up_paid =>
                      inr (mkUpdates up_sid up_amt up_due up_ty up_st up_paid now)
                  | inl r => inl r
                  end
              | inl r, _, _ => inl r
              | _, inl r, _ => inl r
              | _, _, inl r => inl r
              end
        end
    end.
Proof. reflexivity. Qed.

Lemma text_of_inl (eng : Engine) (v : JSValue) (r : Resp) :
  text_of eng v = inl r -> is_success r = false.
Proof.
  unfold text_of. destruct v; try discriminate;
    destruct (stored_text eng _); try discriminate;
    intros H; injection H as <-; reflexivity.
Qed.

Lemma paid_of_inl (eng : Engine) (v : JSValue) (r : Resp) :
  paid_of eng v = inl r -> is_success r = false.
Proof.
  unfold paid_of. destruct v; try discriminate;
    destruct (stored_text eng _); try discriminate;
    intros H; injection H as <-; reflexivity.
Qed.

Lemma text_of_inr (eng : Engine) (v : JSValue) (x : option string) :
  text_of eng v = inr x ->
  (is_undefined v = true -> x = None) /\
  (forall s, v = JString s -> x = Some s).
Proof.
  unfold text_of. destruct v; cbn [stored_text is_undefined];
    try (destruct (text_cell eng _); [|discriminate]);
    intros H; injection H as <-; split; try discriminate; auto.
  intros s0 Hs. now injection Hs as ->.
Qed.

Lemma paid_of_inr (eng : Engine) (v : JSValue) (x : option (option string)) :
  paid_of eng v = inr x -> is_undefined v = true -> x = None.
Proof.
  unfold paid_of. destruct v; cbn [stored_text is_undefined];
    try (destruct (text_cell eng _); [|discriminate]);
    intros H; injection H as <-; try discriminate; auto.
Qed.

(** What the validation lets through. *)
Lemma build_updates_valid (eng : Engine) (now : string) (body : JSObject)
    (db : DB) (up : Updates) :
  build_updates eng now body db = inr up ->
  (forall x, up_amount up = Some x -> (x <=? 0)%float = false) /\
  (forall t, up_type up = Some t -> In t validTypes) /\
  (forall s, up_status up = Some s -> In s validStatuses) /\
  up_updatedAt up = now /\
  (is_undefined (get "studentId" body) = true -> up_studentId up = None) /\
  (is_undefined (get "amount" body) = true -> up_amount up = None) /\
  (is_undefined (get "dueDate" body) = true -> up_dueDate up = None) /\
  (is_undefined (get "type" body) = true -> up_type up = None) /\
  (is_undefined (get "status" body) = true -> up_status up = None) /\
  (is_undefined (get "paidDate" body) = true -> up_paidDate up = None).
Proof.
  rewrite build_updates_eq.
  destruct (match get "studentId" body with JUndefined => _ | _ => _ end)
    as [r|usid] eqn:Hsid; [discriminate|].
  destruct (match get "amount" body with JUndefined => _ | _ => _ end)
    as [r|uamt] eqn:Hamt; [discriminate|].
  destruct (negb (is_undefined (get "dueDate" body)) && _); [discriminate|].
  destruct (negb (is_undefined (get "type" body)) && _) eqn:Hty; [discriminate|].
  destruct (negb (is_undefined (get "status" body)) && _) eqn:Hst;
    [discriminate|].
  destruct (negb (is_undefined (get "paidDate" body)) && _ && _);
    [discriminate|].
  destruct (text_of eng (get "dueDate" body)) as [r|udue] eqn:Hdue;
    [discriminate|].
  destruct (text_of eng (get "type" body)) as [r|uty] eqn:Htyt;
    [destruct (text_of eng (get "status" body)); discriminate|].
  destruct (text_of eng (get "status" body)) as [r|ust] eqn:Hstt;
    [discriminate|].
  destruct (paid_of eng (get "paidDate" body)) as [r|upd] eqn:Hpd;
    [discriminate|].
  intros H. injection H as <-. cbn.
  destruct (text_of_inr _ _ _ Hdue) as [Hdue1 _].
  destruct (text_of_inr _ _ _ Htyt) as [Hty1 Hty2].
  destruct (text_of_inr _ _ _ Hstt) as [Hst1 Hst2].
  pose proof (paid_of_inr _ _ _ Hpd) as Hpd1.
  repeat split; auto.
  - intros x ->. destruct (get "amount" body); try discriminate.
    + destruct (_ <=? 0)%float eqn:E; [discriminate|]. now injection Hamt as ->.
  - intros t ->. destruct (is_undefined (get "type" body)) eqn:Hu.
    + specialize (Hty1 eq_refl). discriminate.
    + cbn in Hty. apply negb_false_iff in Hty. apply includes_In in Hty.
      destruct Hty as (t' & Heq & Ht). specialize (Hty2 _ Heq).
      now injection Hty2 as ->.
  - intros s ->. destruct (is_undefined (get "status" body)) eqn:Hu.
    + specialize (Hst1 eq_refl). discriminate.
    + cbn in Hst. apply negb_false_iff in Hst. apply includes_In in Hst.
      destruct Hst as (t' & Heq & Ht). specialize (Hst2 _ Heq).
      now injection Hst2 as ->.
  - intros Hu. destruct (get "studentId" body); try discriminate.
    now injection Hsid as <-.
  - intros Hu. destruct (get "amount" body); try discriminate.
    now injection Hamt as <-.
Qed.

Lemma fee_updates_refused (eng : Engine) (now : string) (body : JSObject)
    (db : DB) (r : Resp) :
  build_updates eng now body db = inl r -> is_success r = false.
Proof.
  rewrite build_updates_eq.
  destruct (match get "studentId" body with JUndefined => _ | _ => _ end)
    as [r1|usid] eqn:Hsid.
  { intros H. injection H as <-.
    destruct (get "studentId" body); try discriminate;
      try (injection Hsid as <-; reflexivity).
    destruct (studentExists db x); [|discriminate].
    injection Hsid as <-; reflexivity. }
  destruct (match get "amount" body with JUndefined => _ | _ => _ end)
    as [r2|uamt] eqn:Hamt.
  { intros H. injection H as <-.
    destruct (get "amount" body); try discriminate;
      try (injection Hamt as <-; reflexivity).
    destruct (_ <=? 0)%float; [|discriminate].
    injection Hamt as <-; reflexivity. }
  destruct (negb (is_undefined (get "dueDate" body)) && _);
    [intros H; injection H as <-; reflexivity|].
  destruct (negb (is_undefined (get "type" body)) && _);
    [intros H; injection H as <-; reflexivity|].
  destruct (negb (is_undefined (get "status" body)) && _);
    [intros H; injection H as <-; reflexivity|].
  destruct (negb (is_undefined (get "paidDate" body)) && _ && _);
    [intros H; injection H as <-; reflexivity|].
  destruct (text_of eng (get "dueDate" body)) as [r3|udue] eqn:Hdue.
  { intros H. injection H as <-. exact (text_of_inl _ _ _ Hdue). }
  destruct (text_of eng (get "type" body)) as [r4|uty] eqn:Htyt.
  { destruct (text_of eng (get "status" body));
      intros H; injection H as <-; exact (text_of_inl _ _ _ Htyt). }
  destruct (text_of eng (get "status" body)) as [r5|ust] eqn:Hstt.
  { intros H. injection H as <-. exact (text_of_inl _ _ _ Hstt). }
  destruct (paid_of eng (get "paidDate" body)) as [r6|upd] eqn:Hpd;
    [|discriminate].
  intros H. injection H as <-. exact (paid_of_inl _ _ _ Hpd).
Qed.

Lemma PUT_inv (eng : Engine) (now : string) (id : option string)
    (body : JSObject) (db : DB) :
  is_success (fst (PUT eng now id body db)) = true ->
  exists (s : string) (k : Z) (g : Fee) (up : Updates),
    id = Some s /\ parseInt_string s = Some k /\
    fee_by_id db k = Some g /\
    build_updates eng now body db = inr up /\
    PUT eng now id body db
    = (Json 200 (Some (apply_updates up g)),
       with_fees (map (fun f => if f_id f =? k then apply_updates up f else f)
                    (fees db)) db).
Proof.
  unfold PUT. destruct id as [s|]; [|discriminate].
  destruct (parseInt_string s) as [k|] eqn:Hk; [|discriminate].
  rewrite (first_row f_id).
  destruct (find (fun f => f_id f =? k) (fees db)) as [g|] eqn:Hg;
    [|discriminate].
  destruct (build_updates eng now body db) as [r|up] eqn:Hb.
  { cbn. now rewrite (fee_updates_refused _ _ _ _ _ Hb). }
  intros _. exists s, k, g, up. repeat split; try assumption.
  unfold update_where. destruct (find_filter _ _ _ Hg) as [rest ->].
  reflexivity.
Qed.

Lemma DELETE_inv (id : option string) (db : DB) :
  is_success (fst (DELETE id db)) = true ->
  exists (s : string) (k : Z) (g : Fee),
    id = Some s /\ parseInt_string s = Some k /\
    fee_by_id db k = Some g /\
    DELETE id db
    = (Json 200 (mkDeleted "Fee record deleted successfully" (Some g)),
       with_fees (filter (fun f => negb (f_id f =? k)) (fees db)) db).
Proof.
  unfold DELETE. destruct id as [s|]; [|discriminate].
  destruct (parseInt_string s) as [k|] eqn:Hk; [|discriminate].
  rewrite (first_row f_id).
  destruct (find (fun f => f_id f =? k) (fees db)) as [g|] eqn:Hg;
    [|discriminate].
  intros _. exists s, k, g. repeat split; try assumption.
  destruct (find_filter _ _ _ Hg) as [rest ->]. reflexivity.
Qed.

Lemma post_failed (eng : Engine) (now later : string) (newId : Z)
    (body : JSObject) (db : DB) :
  is_success (fst (POST eng now later newId body db)) = false ->
  snd (POST eng now later newId body db) = db.
Proof.
  unfold POST.
  repeat match goal with
         | |- context [match ?x with _ => _ end] => destruct x
         end; cbn; congruence.
Qed.

Lemma put_failed (eng : Engine) (now : string) (id : option string)
    (body : JSObject) (db : DB) :
  is_success (fst (PUT eng now id body db)) = false ->
  snd (PUT eng now id body db) = db.
Proof.
  unfold PUT.
  destruct (match id with Some s => parseInt_string s | None => None end);
    [|reflexivity].
  destruct (firstn 1 _); [reflexivity|].
  destruct (build_updates eng now body db); [reflexivity|].
  unfold update_where. cbn. discriminate.
Qed.

Lemma delete_failed (id : option string) (db : DB) :
  is_success (fst (DELETE id db)) = false -> snd (DELETE id db) = db.
Proof.
  unfold DELETE.
  destruct (match id with Some s => parseInt_string s | None => None end);
    [|reflexivity].
  destruct (firstn 1 _); [reflexivity|]. cbn. discriminate.
Qed.

(** A POST, a generic PUT or a DELETE of the fees route that does not
    succeed leaves the database as it was. *)
Theorem fees_route_failure_keeps_db (eng : Engine) (now later : string)
    (newId : Z)
    (id : option string) (body : JSObject) (db : DB) :
  (is_success (fst (POST eng now later newId body db)) = false ->
   snd (POST eng now later newId body db) = db) /\
  (is_success (fst (PUT eng now id body db)) = false ->
   snd (PUT eng now id body db) = db) /\
  (is_success (fst (DELETE id db)) = false -> snd (DELETE id db) = db).
Proof.
  split; [|split].
  - apply post_failed.
  - apply put_failed.
  - apply delete_failed.
Qed.

(** The generic update and the deletion write the rows of the fee named and
    nothing else: every other fee is found as before, and no other table
    changes. *)
Theorem fees_route_frame (eng : Engine) (now : string) (id : string) (k : Z)
    (body : JSObject) (db : DB) :
  parseInt_string id = Some k ->
  (only_fees_changed db (snd (PUT eng now (Some id) body db)) /\
   forall k', k' <> k ->
     fee_by_id (snd (PUT eng now (Some id) body db)) k' = fee_by_id db k') /\
  (only_fees_changed db (snd (DELETE (Some id) db)) /\
   forall k', k' <> k ->
     fee_by_id (snd (DELETE (Some id) db)) k' = fee_by_id db k').
Proof.
  intros Hid. split.
  - destruct (is_success (fst (PUT eng now (Some id) body db))) eqn:Hok.
    + destruct (PUT_inv _ _ _ _ _ Hok) as (s & k0 & g & up & Hs & Hk0 & _ & _ & ->).
      injection Hs as <-. rewrite Hid in Hk0. injection Hk0 as <-.
      split; [repeat split|]. intros k' Hne. unfold fee_by_id. cbn.
      rewrite (find_update f_id) by reflexivity.
      assert ((k' =? k) = false) as -> by lia. reflexivity.
    + rewrite (put_failed _ _ _ _ _ Hok).
      split; [repeat split | reflexivity].
  - destruct (is_success (fst (DELETE (Some id) db))) eqn:Hok.
    + destruct (DELETE_inv _ _ Hok) as (s & k0 & g & Hs & Hk0 & _ & ->).
      injection Hs as <-. rewrite Hid in Hk0. injection Hk0 as <-.
      split; [repeat split|]. intros k' Hne. unfold fee_by_id. cbn.
      rewrite (find_filter_out f_id).
      assert ((k' =? k) = false) as -> by lia. reflexivity.
    + rewrite (delete_failed _ _ Hok).
      split; [repeat split | reflexivity].
Qed.

Lemma fees_route_frame_fee1 :
  (only_fees_changed Scenario.db0
     (snd (PUT Scenario.engine Scenario.t1 (Some "1")
             [("status", JString "overdue")] Scenario.db0)) /\
   forall k', k' <> 1 ->
     fee_by_id (snd (PUT Scenario.engine Scenario.t1 (Some "1")
                       [("status", JString "overdue")] Scenario.db0)) k'
     = fee_by_id Scenario.db0 k') /\
  (only_fees_changed Scenario.db0 (snd (DELETE (Some "1") Scenario.db0)) /\
   forall k', k' <> 1 ->
     fee_by_id (snd (DELETE (Some "1") Scenario.db0)) k'
     = fee_by_id Scenario.db0 k').
Proof.
  apply (fees_route_frame Scenario.engine Scenario.t1 "1" 1
           [("status", JString "overdue")] Scenario.db0).
  reflexivity.
Defined.

(** A generic update whose body names none of the six fields still succeeds
    on an existing fee, and changes nothing of it but updatedAt. *)
Theorem fee_update_without_fields (eng : Engine) (now : string) (id : string)
    (k : Z) (body : JSObject) (db : DB) (g : Fee) :
  parseInt_string id = Some k ->
  fee_by_id db k = Some g ->
  get "studentId" body = JUndefined -> get "amount" body = JUndefined ->
  get "dueDate" body = JUndefined -> get "type" body = JUndefined ->
  get "status" body = JUndefined -> get "paidDate" body = JUndefined ->
  let g' := mkFee (f_id g) (f_studentId g) (f_amount g) (f_dueDate g)
              (f_paidDate g) (f_status g) (f_type g) (f_createdAt g) now in
  fst (PUT eng now (Some id) body db) = Json 200 (Some g') /\
  fee_by_id (snd (PUT eng now (Some id) body db)) k = Some g'.
Proof.
  intros Hid Hg H1 H2 H3 H4 H5 H6 g'.
  assert (Hb : build_updates eng now body db
               = inr (mkUpdates None None None None None None now)).
  { rewrite build_updates_eq, H1, H2, H3, H4, H5, H6. reflexivity. }
  unfold PUT. rewrite Hid, (first_row f_id).
  unfold fee_by_id in Hg. rewrite Hg, Hb. unfold update_where.
  destruct (find_filter _ _ _ Hg) as [rest ->]. cbn [fst snd map hd_error].
  split; [reflexivity|]. unfold fee_by_id. cbn [fees with_fees].
  rewrite (find_update f_id) by reflexivity.
  now rewrite Z.eqb_refl, Hg.
Qed.

Lemma fee_update_without_fields_fee1 :
  let g' := mkFee 1 (Some 7) 500%float "2025-01-31" None "pending" "tuition"
              Scenario.t0 Scenario.t2 in
  fst (PUT Scenario.engine Scenario.t2 (Some "1") [] Scenario.db0)
  = Json 200 (Some g') /\
  fee_by_id (snd (PUT Scenario.engine Scenario.t2 (Some "1") [] Scenario.db0)) 1
  = Some g'.
Proof.
  apply (fee_update_without_fields Scenario.engine Scenario.t2 "1" 1 []
           Scenario.db0 Scenario.fee1);
    reflexivity.
Defined.

(** *** Creating, fetching, deleting *)

(** A fee created under a key no fee has is what GET returns for that key,
    and deleting it gives back the fees table as it was before the POST. *)
Theorem fee_post_get_delete (eng : Engine) (now later : string) (newId : Z)
    (id : string) (body : JSObject) (db : DB) :
  is_success (fst (POST eng now later newId body db)) = true ->
  fee_by_id db newId = None ->
  parseInt_string id = Some newId ->
  let db1 := snd (POST eng now later newId body db) in
  exists fee : Fee,
    fst (POST eng now later newId body db) = Json 201 (Some fee) /\
    GET (Some id) db1 = Some (Json 200 fee) /\
    fst (DELETE (Some id) db1)
    = Json 200 (mkDeleted "Fee record deleted successfully" (Some fee)) /\
    fees (snd (DELETE (Some id) db1)) = fees db /\
    only_fees_changed db (snd (DELETE (Some id) db1)).
Proof.
  intros Hok Hfresh Hid db1. subst db1.
  destruct (POST_inv _ _ _ _ _ _ Hok)
    as (sid & amt & k & due & ty & st & pd & _ & _ & _ & _ & _ & _ & _ & _ & _
        & _ & _ & _ & _ & ->).
  set (fee := mkFee newId (Some k) amt due pd st ty now later).
  exists fee. cbn [fst snd]. split; [reflexivity|].
  assert (Hne : String.eqb id "" = false).
  { destruct id; [discriminate Hid | reflexivity]. }
  assert (Hfind : find (fun f => f_id f =? newId) (fees db ++ [fee]) = Some fee).
  { rewrite (find_snoc_fresh f_id). unfold fee_by_id in Hfresh.
    rewrite Hfresh. cbn. now rewrite Z.eqb_refl. }
  split; [|split; [|split]].
  - unfold GET. rewrite Hne, Hid, (first_row f_id). cbn [fees with_fees].
    now rewrite Hfind.
  - unfold DELETE. rewrite Hid, (first_row f_id). cbn [fees with_fees].
    rewrite Hfind. destruct (find_filter _ _ _ Hfind) as [rest ->]. reflexivity.
  - unfold DELETE. rewrite Hid, (first_row f_id). cbn [fees with_fees].
    rewrite Hfind. cbn [snd fees with_fees].
    apply (filter_out_fresh f_id); [exact Hfresh | reflexivity].
  - unfold DELETE. rewrite Hid, (first_row f_id). cbn [fees with_fees].
    rewrite Hfind. repeat split.
Qed.

(** After a successful DELETE the fee is gone: GET answers 404 for its id,
    and a second DELETE does too. *)
Theorem fee_deleted_is_gone (id : string) (db : DB) :
  is_success (fst (DELETE (Some id) db)) = true ->
  let db1 := snd (DELETE (Some id) db) in
  (exists k, parseInt_string id = Some k /\ fee_by_id db1 k = None) /\
  GET (Some id) db1 = Some (Fail 404 (mkError "Fee record not found" None)) /\
  DELETE (Some id) db1 = (Fail 404 (mkError "Fee record not found" None), db1).
Proof.
  intros Hok db1. subst db1.
  destruct (DELETE_inv _ _ Hok) as (s & k & g & Hs & Hk & Hg & ->).
  injection Hs as <-. cbn [snd].
  assert (Hne : String.eqb id "" = false).
  { destruct id; [discriminate Hk | reflexivity]. }
  assert (Hgone : find (fun f => f_id f =? k)
                    (filter (fun f => negb (f_id f =? k)) (fees db)) = None).
  { rewrite (find_filter_out f_id). now rewrite Z.eqb_refl. }
  split; [|split].
  - exists k. split; [exact Hk|]. unfold fee_by_id. cbn [fees with_fees].
    exact Hgone.
  - unfold GET. rewrite Hne, Hk, (first_row f_id). cbn [fees with_fees].
    now rewrite Hgone.
  - unfold DELETE. rewrite Hk, (first_row f_id). cbn [fees with_fees].
    now rewrite Hgone.
Qed.

Lemma fee_post_get_delete_exam_fee :
  let db1 := snd (POST Scenario.dated Scenario.t1 Scenario.t2 2 Scenario.new_fee
                    Scenario.db0) in
  exists fee : Fee,
    fst (POST Scenario.dated Scenario.t1 Scenario.t2 2 Scenario.new_fee Scenario.db0)
    = Json 201 (Some fee) /\
    GET (Some "2") db1 = Some (Json 200 fee) /\
    fst (DELETE (Some "2") db1)
    = Json 200 (mkDeleted "Fee record deleted successfully" (Some fee)) /\
    fees (snd (DELETE (Some "2") db1)) = fees Scenario.db0 /\
    only_fees_changed Scenario.db0 (snd (DELETE (Some "2") db1)).
Proof.
  apply (fee_post_get_delete Scenario.dated Scenario.t1 Scenario.t2 2 "2"
           Scenario.new_fee
           Scenario.db0);
    reflexivity.
Defined.

Lemma fee_deleted_is_gone_fee1 :
  let db1 := snd (DELETE (Some "1") Scenario.db0) in
  (exists k, parseInt_string "1" = Some k /\ fee_by_id db1 k = None) /\
  GET (Some "1") db1 = Some (Fail 404 (mkError "Fee record not found" None)) /\
  DELETE (Some "1") db1 = (Fail 404 (mkError "Fee record not found" None), db1).
Proof.
  apply (fee_deleted_is_gone "1" Scenario.db0). reflexivity.
Defined.

(** *** What the fees table keeps *)

Lemma apply_updates_ok (eng : Engine) (now : string) (body : JSObject)
    (db : DB) (up : Updates) (f : Fee) :
  build_updates eng now body db = inr up ->
  fee_ok f -> fee_ok (apply_updates up f).
Proof.
  intros Hb (Ha & Ht & Hs).
  destruct (build_updates_valid _ _ _ _ _ Hb) as (Hua & Hut & Hus & _).
  unfold fee_ok, apply_updates, or_else.
  cbn [f_amount f_type f_status].
  destruct (up_amount up) as [x|]; destruct (up_type up) as [t|];
    destruct (up_status up) as [s|]; split; [|split| |split| |split| |split
    | |split| |split| |split| |split]; auto.
Qed.

(** Amounts that are not [<= 0], valid types and valid statuses are kept by
    every writer of the fees table: POST, the generic PUT, DELETE and the
    payment.  And while they hold, the payment never answers
    INVALID_FEE_STATUS. *)
Theorem fees_stay_valid (eng : Engine) (now : string) (db : DB) :
  fees_ok db ->
  (forall later newId body, fees_ok (snd (POST eng now later newId body db))) /\
  (forall id body, fees_ok (snd (PUT eng now id body db))) /\
  (forall id, fees_ok (snd (DELETE id db))) /\
  (forall user id body,
     fees_ok (snd (Payment.PUT eng now user id body db)) /\
     code_of (fst (Payment.PUT eng now user id body db))
     <> Some "INVALID_FEE_STATUS").
Proof.
  intros Hok. unfold fees_ok in *. split; [|split; [|split]].
  - intros later newId body.
    destruct (is_success (fst (POST eng now later newId body db))) eqn:Hs.
    + destruct (POST_inv _ _ _ _ _ _ Hs)
        as (sid & amt & k & due & ty & st & pd & _ & _ & _ & _ & Hamt & _ & _
            & Hty & Hst & _ & _ & _ & _ & ->).
      cbn [snd fees with_fees]. apply Forall_app. split; [exact Hok|].
      constructor; [|constructor]. repeat split; assumption.
    + now rewrite (post_failed _ _ _ _ _ _ Hs).
  - intros id body.
    destruct (is_success (fst (PUT eng now id body db))) eqn:Hs.
    + destruct (PUT_inv _ _ _ _ _ Hs) as (s & k & g & up & _ & _ & _ & Hb & ->).
      cbn [snd fees with_fees]. apply Forall_map.
      eapply Forall_impl; [|exact Hok]. intros f Hf.
      destruct (f_id f =? k); [|exact Hf].
      now apply (apply_updates_ok eng now body db).
    + now rewrite (put_failed _ _ _ _ _ Hs).
  - intros id.
    destruct (is_success (fst (DELETE id db))) eqn:Hs.
    + destruct (DELETE_inv _ _ Hs) as (s & k & g & _ & _ & _ & ->).
      cbn [snd fees with_fees]. apply Forall_forall. intros f Hf.
      apply filter_In in Hf. rewrite Forall_forall in Hok. now apply Hok.
    + now rewrite (delete_failed _ _ Hs).
  - intros user id body. split.
    + destruct (is_success (fst (Payment.PUT eng now user id body db))) eqn:Hs.
      * destruct (FeesFacts.payment_success_inv _ _ _ _ _ _ Hs)
          as (v & fee & st & _ & _ & _ & _ & _ & _ & ->).
        cbn. apply Forall_map. eapply Forall_impl; [|exact Hok].
        intros f (Ha & Ht & Hs'). destruct (f_id f =? Payment.v_feeId v).
        -- split; [exact Ha|]. split; [exact Ht|]. cbn. auto.
        -- exact (conj Ha (conj Ht Hs')).
      * now rewrite PaymentFacts.PUT_failure_keeps_db.
    + unfold Payment.PUT.
      destruct (Payment.validate user id body) as [r|v] eqn:Hv.
      { unfold Payment.validate in Hv.
        repeat match type of Hv with
               | inl _ = inl _ => injection Hv as <-; discriminate
               | inr _ = inl _ => discriminate Hv
               | context [match ?x with _ => _ end] => destruct x
               end. }
      destruct (Payment.select_fee db (Payment.v_feeId v))
        as [|[fee [st|]] tl] eqn:Hsel; try (cbn; discriminate).
      destruct (PaymentFacts.select_fee_fee _ _ _ _ _ Hsel) as (Hf & _ & rest & Hr).
      apply find_some in Hf. destruct Hf as [Hin _].
      rewrite Forall_forall in Hok. destruct (Hok _ Hin) as (_ & _ & Hst).
      unfold Payment.check.
      destruct Hst as [<-|[<-|[<-|[]]]]; cbn [String.eqb Ascii.eqb Bool.eqb negb andb].
      all: try (cbn; discriminate).
      all: destruct (0.01 <? _)%float; [cbn; discriminate|].
      all: unfold Payment.write_fee, update_where; rewrite Hr; cbn; discriminate.
Qed.

Lemma fees_stay_valid_db0 :
  (forall later newId body,
     fees_ok (snd (POST Scenario.dated Scenario.t1 later newId body
                     Scenario.db0))) /\
  (forall id body,
     fees_ok (snd (PUT Scenario.dated Scenario.t1 id body Scenario.db0))) /\
  (forall id, fees_ok (snd (DELETE id Scenario.db0))) /\
  (forall user id body,
     fees_ok (snd (Payment.PUT Scenario.dated Scenario.t1 user id body
                     Scenario.db0)) /\
     code_of (fst (Payment.PUT Scenario.dated Scenario.t1 user id body
                     Scenario.db0))
     <> Some "INVALID_FEE_STATUS").
Proof.
  apply (fees_stay_valid Scenario.dated Scenario.t1 Scenario.db0).
  repeat constructor.
Defined.

End FeesCrudFacts.

(* ================================================================= *)
(** ** More facts about the payment handler *)

Module PaymentMore.
Import JS Schema Http Payment Frames TableFacts PaymentFacts.

Lemma recordPayment_statuses (eng : Engine) (now : string)
    (user : option User) (id : string) (body : JSObject) (db : DB) :
  let call := PUT eng now user id body db in
  (status_of (fst call) <> 200 -> snd call = db) /\
  (is_success (fst call) = true <-> status_of (fst call) = 200) /\
  In (status_of (fst call)) [200; 400; 401; 404] /\
  code_of (fst call) <> Some "UPDATE_FAILED".
Proof.
  intros call. subst call.
  destruct (is_success (fst (PUT eng now user id body db))) eqn:Hok.
  - destruct (FeesFacts.payment_success_inv _ _ _ _ _ _ Hok)
      as (v & fee & st & _ & _ & _ & _ & _ & _ & ->).
    cbn. repeat split; auto; try discriminate. congruence.
  - pose proof (PUT_failure_keeps_db _ _ _ _ _ _ Hok) as Hdb.
    split; [intros _; exact Hdb|].
    revert Hok. unfold PUT.
    destruct (validate user id body) as [r|v] eqn:Hv.
    { unfold validate in Hv.
      repeat match type of Hv with
             | inl _ = inl _ =>
                 injection Hv as <-; cbn; intros _;
                 repeat split; try discriminate; auto
             | inr _ = inl _ => discriminate Hv
             | context [match ?x with _ => _ end] => destruct x
             end. }
    destruct (select_fee db (v_feeId v)) as [|[fee [st|]] tl] eqn:Hsel;
      try solve [cbn; intros _; repeat split; try discriminate; auto].
    destruct (select_fee_fee _ _ _ _ _ Hsel) as (_ & _ & rest & Hr).
    unfold check.
    destruct (String.eqb (f_status fee) "paid");
      [cbn; intros _; repeat split; try discriminate; auto|].
    destruct (negb (String.eqb (f_status fee) "pending")
              && negb (String.eqb (f_status fee) "overdue"));
      [cbn; intros _; repeat split; try discriminate; auto|].
    destruct (0.01 <? _)%float;
      [cbn; intros _; repeat split; try discriminate; auto|].
    unfold write_fee, update_where. rewrite Hr. cbn. discriminate.
Qed.

(** On an object the request is handled as [Payment.PUT] has it. *)
Lemma request_object (eng : Engine) (now : string) (user : option User)
    (id : string) (o : JSObject) (db : DB) :
  PaymentRequest.PUT eng now user id (PaymentRequest.Object o) db
  = PUT eng now user id o db.
Proof.
  unfold PaymentRequest.PUT, PUT, validate.
  destruct user as [u|]; [|reflexivity].
  destruct (parseInt_string id); reflexivity.
Qed.

(** A payment request that is not answered 200 leaves the database as it
    was.  The handler, run without interruption, answers 200, 400, 401, 404
    or 500: 500 exactly when a request with a session and an id that parses
    carries a body that is not a JSON object, and never its 500
    UPDATE_FAILED. *)
Theorem payment_failure_frame (eng : Engine) (now : string)
    (user : option User) (id : string) (body : PaymentRequest.Body) (db : DB) :
  let call := PaymentRequest.PUT eng now user id body db in
  (status_of (fst call) <> 200 -> snd call = db) /\
  (is_success (fst call) = true <-> status_of (fst call) = 200) /\
  In (status_of (fst call)) [200; 400; 401; 404; 500] /\
  (status_of (fst call) = 500 <->
   user <> None /\ parseInt_string id <> None /\
   PaymentRequest.is_object body = false) /\
  code_of (fst call) <> Some "UPDATE_FAILED".
Proof.
  intros call. subst call.
  destruct body as [| |b|x|s|o];
    try (unfold PaymentRequest.PUT; destruct user as [u|];
         [destruct (parseInt_string id) as [k|]|]; cbn;
         repeat split; try discriminate; try tauto; try lia;
         intros (H1 & H2 & H3); congruence).
  rewrite request_object.
  destruct (recordPayment_statuses eng now user id o db) as (H1 & H2 & H3 & H4).
  cbv zeta in H1, H2, H3, H4.
  split; [exact H1|]. split; [exact H2|]. split.
  { cbn in H3 |- *. tauto. }
  split; [|exact H4]. cbn [PaymentRequest.is_object]. split.
  - intros H. rewrite H in H3. cbn in H3. lia.
  - intros (_ & _ & H). discriminate H.
Qed.

(** A body that is not an object: a JSON string instead of the payment is
    answered 500 and nothing is written. *)
Example text_body_is_500 :
  PaymentRequest.PUT Scenario.engine Scenario.t1 (Some Scenario.admin) "1"
    (PaymentRequest.Text "cash") Scenario.db0
  = (PaymentRequest.internal_error, Scenario.db0).
Proof. reflexivity. Qed.

(** The checks before the body is read, and the first check on it.  Without
    a session the answer is 401, whatever the id and the body; with a
    session, an id that does not parse is answered INVALID_ID whatever the
    body, be it no JSON at all; and with an id that parses, an object that
    has a [userId] or [user_id] key is refused with USER_ID_NOT_ALLOWED
    whatever else it carries.  None of them writes anything, and a payment
    that succeeds has neither key. *)
Theorem payment_guards (eng : Engine) (now : string) (u : User) (id : string)
    (body : PaymentRequest.Body) (db : DB) :
  PaymentRequest.PUT eng now None id body db
  = (Fail 401 (mkError "Authentication required" None), db) /\
  (parseInt_string id = None ->
   PaymentRequest.PUT eng now (Some u) id body db
   = (fail 400 "Valid fee ID is required" "INVALID_ID", db)) /\
  (forall o, body = PaymentRequest.Object o ->
     parseInt_string id <> None ->
     has "userId" o || has "user_id" o = true ->
     PaymentRequest.PUT eng now (Some u) id body db
     = (fail 400 "User ID cannot be provided in request body"
          "USER_ID_NOT_ALLOWED", db)) /\
  (forall o, body = PaymentRequest.Object o ->
     is_success (fst (PaymentRequest.PUT eng now (Some u) id body db)) = true ->
     has "userId" o = false /\ has "user_id" o = false).
Proof.
  split; [reflexivity|]. split.
  { intros Hid. unfold PaymentRequest.PUT. now rewrite Hid. }
  split.
  - intros o -> Hid Hk. rewrite request_object. unfold PUT, validate.
    destruct (parseInt_string id); [|congruence]. now rewrite Hk.
  - intros o -> Hok. rewrite request_object in Hok.
    destruct (FeesFacts.payment_success_inv _ _ _ _ _ _ Hok)
      as (v & _ & _ & Hv & _).
    destruct (validate_inr _ _ _ _ Hv) as (_ & _ & H1 & H2 & _). auto.
Qed.

(** A request without a session for an id that does not parse, and a body
    with a [userId] key for fee 1. *)
Example guards_of_fee1 :
  PaymentRequest.PUT Scenario.engine Scenario.t1 None "abc"
    PaymentRequest.NotJSON Scenario.db0
  = (Fail 401 (mkError "Authentication required" None), Scenario.db0) /\
  PaymentRequest.PUT Scenario.engine Scenario.t1 (Some Scenario.admin) "abc"
    PaymentRequest.NotJSON Scenario.db0
  = (fail 400 "Valid fee ID is required" "INVALID_ID", Scenario.db0) /\
  PaymentRequest.PUT Scenario.engine Scenario.t1 (Some Scenario.admin) "1"
    (PaymentRequest.Object
       (("userId", JNumber 9%float) :: Scenario.payment 500%float "TXN-001"))
    Scenario.db0
  = (fail 400 "User ID cannot be provided in request body"
       "USER_ID_NOT_ALLOWED", Scenario.db0).
Proof. repeat split. Qed.

(** A payment answered 200 reports what it stored: the fee of the response
    is the fee now found under the id, with status "paid", and the new
    balance of the response, which is its previous balance minus the amount
    paid, is the balance now stored for the student.  It wrote the rows of
    that fee and of that student only: every other fee and student is found
    as before, and no other table changed. *)
Theorem payment_success_frame (eng : Engine) (now : string)
    (user : option User) (id : string) (body : JSObject) (db : DB)
    (p : PaymentResponse) :
  fst (PUT eng now user id body db) = Json 200 p ->
  let db' := snd (PUT eng now user id body db) in
  exists feeId : Z,
    parseInt_string id = Some feeId /\
    fee_by_id db' feeId = Some (pr_fee p) /\
    f_status (pr_fee p) = "paid" /\
    option_map s_balance (student_by_id db' (si_id (pr_studentInfo p)))
    = Some (Some (si_newBalance (pr_studentInfo p))) /\
    si_newBalance (pr_studentInfo p)
    = (si_previousBalance (pr_studentInfo p)
       - pd_amount_paid (pr_paymentDetails p))%float /\
    (forall k, k <> feeId -> fee_by_id db' k = fee_by_id db k) /\
    (forall k, k <> si_id (pr_studentInfo p) ->
               student_by_id db' k = student_by_id db k) /\
    only_ledger_changed db db'.
Proof.
  intros Hr db'. subst db'.
  assert (Hok : is_success (fst (PUT eng now user id body db)) = true)
    by now rewrite Hr.
  destruct (FeesFacts.payment_success_inv _ _ _ _ _ _ Hok)
    as (v & fee & st & Hv & Hf & Hs & Hst & _ & _ & HPUT).
  rewrite HPUT in Hr |- *. cbn [fst snd] in *. injection Hr as <-.
  destruct (validate_inr _ _ _ _ Hv) as (_ & Hid & _).
  exists (v_feeId v). cbn [pr_fee pr_studentInfo pr_paymentDetails paymentResponse
                          si_id si_newBalance si_previousBalance pd_amount_paid].
  split; [exact Hid|]. split.
  { change (fee_by_id (fst (write_fee now (v_feeId v) db)) (v_feeId v)
            = Some (mark_paid now fee)).
    now rewrite fee_after_write_fee, Z.eqb_refl, Hf. }
  split; [reflexivity|]. split.
  { rewrite student_after_write_student, Z.eqb_refl.
    change (student_by_id (fst (write_fee now (v_feeId v) db)) (s_id st))
      with (student_by_id db (s_id st)).
    now rewrite Hst. }
  split; [reflexivity|]. split.
  { intros k Hne.
    change (fee_by_id (fst (write_fee now (v_feeId v) db)) k = fee_by_id db k).
    rewrite fee_after_write_fee.
    assert ((k =? v_feeId v) = false) as -> by lia. reflexivity. }
  split.
  { intros k Hne. rewrite student_after_write_student.
    assert ((k =? s_id st) = false) as -> by lia. reflexivity. }
  repeat split.
Qed.

Lemma payment_success_frame_scenario :
  exists feeId : Z,
    parseInt_string "1" = Some feeId /\
    fee_by_id Scenario.db_paid feeId = Some (mark_paid Scenario.t1 Scenario.fee1) /\
    f_status (mark_paid Scenario.t1 Scenario.fee1) = "paid" /\
    option_map s_balance (student_by_id Scenario.db_paid 7)
    = Some (Some (1200 - 500)%float) /\
    (1200 - 500)%float = (1200 - 500)%float /\
    (forall k, k <> feeId -> fee_by_id Scenario.db_paid k = fee_by_id Scenario.db0 k) /\
    (forall k, k <> 7 ->
               student_by_id Scenario.db_paid k = student_by_id Scenario.db0 k) /\
    only_ledger_changed Scenario.db0 Scenario.db_paid.
Proof.
  exact (payment_success_frame Scenario.engine Scenario.t1 (Some Scenario.admin)
           "1" (Scenario.payment 500%float "TXN-001") Scenario.db0 _ eq_refl).
Defined.

(** Two payments that succeed one after the other, for two fees of one
    student: the second starts from the balance the first left, both fees
    are paid in the end, and the balance stored is the one the second
    payment reports. *)
Theorem two_fees_paid (eng : Engine) (now1 now2 : string)
    (user1 user2 : option User) (id1 id2 : string) (body1 body2 : JSObject)
    (db : DB) (p1 p2 : PaymentResponse) :
  let db1 := snd (PUT eng now1 user1 id1 body1 db) in
  let db2 := snd (PUT eng now2 user2 id2 body2 db1) in
  fst (PUT eng now1 user1 id1 body1 db) = Json 200 p1 ->
  fst (PUT eng now2 user2 id2 body2 db1) = Json 200 p2 ->
  f_id (pr_fee p1) <> f_id (pr_fee p2) ->
  si_id (pr_studentInfo p1) = si_id (pr_studentInfo p2) ->
  si_previousBalance (pr_studentInfo p2)
  = or_zero (Some (si_newBalance (pr_studentInfo p1))) /\
  si_newBalance (pr_studentInfo p2)
  = (or_zero (Some (si_newBalance (pr_studentInfo p1)))
     - pd_amount_paid (pr_paymentDetails p2))%float /\
  fee_by_id db2 (f_id (pr_fee p1)) = Some (pr_fee p1) /\
  fee_by_id db2 (f_id (pr_fee p2)) = Some (pr_fee p2) /\
  f_status (pr_fee p1) = "paid" /\ f_status (pr_fee p2) = "paid" /\
  option_map s_balance (student_by_id db2 (si_id (pr_studentInfo p2)))
  = Some (Some (si_newBalance (pr_studentInfo p2))).
Proof.
  intros db1 db2 H1 H2 Hne Hsame. subst db2 db1.
  assert (Hok1 : is_success (fst (PUT eng now1 user1 id1 body1 db)) = true)
    by now rewrite H1.
  destruct (FeesFacts.payment_success_inv _ _ _ _ _ _ Hok1)
    as (v1 & fee1 & st1 & _ & Hf1 & _ & Hst1 & _ & _ & HPUT1).
  rewrite HPUT1 in H1, H2 |- *. cbn [fst snd] in H1, H2 |- *.
  injection H1 as <-.
  set (db1 := write_student now1 st1 (newBalance st1 (v_amount v1))
                (fst (write_fee now1 (v_feeId v1) db))) in *.
  assert (Hok2 : is_success (fst (PUT eng now2 user2 id2 body2 db1)) = true)
    by now rewrite H2.
  destruct (FeesFacts.payment_success_inv _ _ _ _ _ _ Hok2)
    as (v2 & fee2 & st2 & _ & Hf2 & _ & Hst2 & _ & _ & HPUT2).
  rewrite HPUT2 in H2 |- *. cbn [fst snd] in H2 |- *. injection H2 as <-.
  cbn [pr_fee pr_studentInfo pr_paymentDetails paymentResponse si_id
       si_newBalance si_previousBalance pd_amount_paid mark_paid f_id f_status]
    in Hne, Hsame |- *.
  assert (Hid1 : f_id fee1 = v_feeId v1).
  { unfold fee_by_id in Hf1. exact (find_key f_id _ _ _ Hf1). }
  assert (Hid2 : f_id fee2 = v_feeId v2).
  { unfold fee_by_id in Hf2. exact (find_key f_id _ _ _ Hf2). }
  assert (Hst2' : st2 = set_balance (newBalance st1 (v_amount v1)) now1 st1).
  { unfold db1 in Hst2. rewrite student_after_write_student in Hst2.
    rewrite <- Hsame, Z.eqb_refl in Hst2.
    change (student_by_id (fst (write_fee now1 (v_feeId v1) db)) (s_id st1))
      with (student_by_id db (s_id st1)) in Hst2.
    rewrite Hst1 in Hst2. cbn [option_map] in Hst2. now injection Hst2 as <-. }
  assert (Hbal : s_balance st2 = Some (newBalance st1 (v_amount v1)))
    by now rewrite Hst2'.
  split; [now rewrite Hbal|]. split; [unfold newBalance at 1; now rewrite Hbal|].
  split.
  { change (fee_by_id (fst (write_fee now2 (v_feeId v2) db1)) (f_id fee1)
            = Some (mark_paid now1 fee1)).
    rewrite fee_after_write_fee.
    assert ((f_id fee1 =? v_feeId v2) = false) as -> by lia.
    change (fee_by_id (fst (write_fee now1 (v_feeId v1) db)) (f_id fee1)
            = Some (mark_paid now1 fee1)).
    rewrite fee_after_write_fee, Hid1, Z.eqb_refl, Hf1. reflexivity. }
  split.
  { change (fee_by_id (fst (write_fee now2 (v_feeId v2) db1)) (f_id fee2)
            = Some (mark_paid now2 fee2)).
    rewrite fee_after_write_fee, Hid2, Z.eqb_refl, Hf2. reflexivity. }
  split; [reflexivity|]. split; [reflexivity|].
  rewrite student_after_write_student, Z.eqb_refl.
  change (student_by_id (fst (write_fee now2 (v_feeId v2) db1)) (s_id st2))
    with (student_by_id db1 (s_id st2)).
  now rewrite Hst2.
Qed.

Lemma two_fees_paid_scenario :
  let db1 := snd (PUT Scenario.engine Scenario.t1 (Some Scenario.admin) "1"
                    (Scenario.payment 500%float "TXN-001") Scenario.two_fees) in
  let db2 := snd (PUT Scenario.engine Scenario.t2 (Some Scenario.admin) "2"
                    (Scenario.payment 300%float "TXN-002") db1) in
  let p1 := paymentResponse Scenario.t1
              (mkValidated Scenario.admin 1 500%float "cash" "TXN-001")
              Scenario.student7 (mark_paid Scenario.t1 Scenario.fee1) in
  let p2 := paymentResponse Scenario.t2
              (mkValidated Scenario.admin 2 300%float "cash" "TXN-002")
              (set_balance (1200 - 500)%float Scenario.t1 Scenario.student7)
              (mark_paid Scenario.t2 Scenario.fee300) in
  si_previousBalance (pr_studentInfo p2)
  = or_zero (Some (si_newBalance (pr_studentInfo p1))) /\
  si_newBalance (pr_studentInfo p2)
  = (or_zero (Some (si_newBalance (pr_studentInfo p1)))
     - pd_amount_paid (pr_paymentDetails p2))%float /\
  fee_by_id db2 (f_id (pr_fee p1)) = Some (pr_fee p1) /\
  fee_by_id db2 (f_id (pr_fee p2)) = Some (pr_fee p2) /\
  f_status (pr_fee p1) = "paid" /\ f_status (pr_fee p2) = "paid" /\
  option_map s_balance (student_by_id db2 (si_id (pr_studentInfo p2)))
  = Some (Some (si_newBalance (pr_studentInfo p2))).
Proof.
  apply (two_fees_paid Scenario.engine Scenario.t1 Scenario.t2
           (Some Scenario.admin) (Some Scenario.admin) "1" "2"
           (Scenario.payment 500%float "TXN-001")
           (Scenario.payment 300%float "TXN-002") Scenario.two_fees).
  - vm_compute. reflexivity.
  - vm_compute. reflexivity.
  - cbn. lia.
  - reflexivity.
Defined.

Example two_fees_paid_balance :
  option_map s_balance
    (student_by_id
       (snd (PUT Scenario.engine Scenario.t2 (Some Scenario.admin) "2"
               (Scenario.payment 300%float "TXN-002")
               (snd (PUT Scenario.engine Scenario.t1 (Some Scenario.admin) "1"
                       (Scenario.payment 500%float "TXN-001")
                       Scenario.two_fees)))) 7)
  = Some (Some 400%float).
Proof. vm_compute. reflexivity. Qed.

End PaymentMore.

(* ================================================================= *)
(** ** More facts about the marks route *)

Module MarksMore.
Import JS Schema Http MarksRoute MarksCrud Frames TableFacts MarksFacts.
Import FeesCrudFacts.

(** The grade is one of A, B, C, D and F, and a higher total never gets a
    worse grade. *)
Theorem grade_monotone (t t' : Z) :
  t <= t' ->
  In (calculateGrade t) ["A"; "B"; "C"; "D"; "F"] /\
  grade_rank (calculateGrade t) <= grade_rank (calculateGrade t').
Proof.
  intros Hle. unfold calculateGrade.
  destruct (90 <=? t) eqn:E1; destruct (80 <=? t) eqn:E2;
    destruct (70 <=? t) eqn:E3; destruct (60 <=? t) eqn:E4;
    destruct (90 <=? t') eqn:F1; destruct (80 <=? t') eqn:F2;
    destruct (70 <=? t') eqn:F3; destruct (60 <=? t') eqn:F4;
    try lia; cbn; split; auto 10; lia.
Qed.

Lemma grade_monotone_59_60 :
  In (calculateGrade 59) ["A"; "B"; "C"; "D"; "F"] /\
  grade_rank (calculateGrade 59) <= grade_rank (calculateGrade 60).
Proof. apply (grade_monotone 59 60). lia. Defined.

(** A POST or PUT of marks that does not succeed, or a DELETE that does not,
    leaves the database as it was; one that succeeds changes the marks table
    only, and PUT and DELETE leave every record but the one named as it
    was. *)
Theorem marks_route_frame (eng : Engine) (now later : string) (newId : Z)
    (id : string) (k : Z) (body : JSObject) (db : DB) :
  parseInt_string id = Some k ->
  (is_success (fst (POST eng now later newId body db)) = false ->
   snd (POST eng now later newId body db) = db) /\
  (is_success (fst (PUT eng now (Some id) body db)) = false ->
   snd (PUT eng now (Some id) body db) = db) /\
  (is_success (fst (DELETE (Some id) db)) = false ->
   snd (DELETE (Some id) db) = db) /\
  only_marks_changed db (snd (POST eng now later newId body db)) /\
  only_marks_changed db (snd (PUT eng now (Some id) body db)) /\
  only_marks_changed db (snd (DELETE (Some id) db)) /\
  (forall k', k' <> k ->
     marks_by_id (snd (PUT eng now (Some id) body db)) k' = marks_by_id db k' /\
     marks_by_id (snd (DELETE (Some id) db)) k' = marks_by_id db k').
Proof.
  intros Hid.
  assert (HP : is_success (fst (POST eng now later newId body db)) = false ->
               snd (POST eng now later newId body db) = db).
  { unfold POST.
    repeat match goal with
           | |- context [match ?x with _ => _ end] => destruct x
           end; cbn; congruence. }
  assert (HU : is_success (fst (PUT eng now (Some id) body db)) = false ->
               snd (PUT eng now (Some id) body db) = db).
  { unfold PUT. rewrite Hid.
    destruct (firstn 1 _) as [|cur ?]; [reflexivity|].
    destruct (build_updates eng now body db cur); [reflexivity|].
    unfold update_where. cbn. discriminate. }
  assert (HD : is_success (fst (DELETE (Some id) db)) = false ->
               snd (DELETE (Some id) db) = db).
  { unfold DELETE. rewrite Hid.
    destruct (firstn 1 _); [reflexivity|]. cbn. discriminate. }
  split; [exact HP|]. split; [exact HU|]. split; [exact HD|].
  split; [|split; [|split]].
  - destruct (is_success (fst (POST eng now later newId body db))) eqn:Hs.
    + destruct (POST_success _ _ _ _ _ _ Hs) as (m & i & e & -> & _).
      repeat split.
    + rewrite (HP eq_refl). repeat split.
  - unfold PUT. rewrite Hid.
    destruct (firstn 1 _) as [|cur ?]; [repeat split|].
    destruct (build_updates eng now body db cur); repeat split.
  - unfold DELETE. rewrite Hid.
    destruct (firstn 1 _); repeat split.
  - intros k' Hne. split.
    + unfold PUT. rewrite Hid.
      destruct (firstn 1 _) as [|cur ?]; [reflexivity|].
      destruct (build_updates eng now body db cur); [reflexivity|].
      unfold marks_by_id, update_where. cbn.
      rewrite (find_update m_id) by reflexivity.
      assert ((k' =? k) = false) as -> by lia. reflexivity.
    + unfold DELETE. rewrite Hid.
      destruct (firstn 1 _); [reflexivity|].
      unfold marks_by_id. cbn. rewrite (find_filter_out m_id).
      assert ((k' =? k) = false) as -> by lia. reflexivity.
Qed.

Lemma marks_route_frame_marks31 :
  let body := [("internalMarks", JNumber 60%float)] in
  let db := Scenario.graded in
  (is_success (fst (POST Scenario.engine Scenario.t1 Scenario.t1 32 body db)) = false ->
   snd (POST Scenario.engine Scenario.t1 Scenario.t1 32 body db) = db) /\
  (is_success (fst (PUT Scenario.engine Scenario.t1 (Some "31") body db)) = false ->
   snd (PUT Scenario.engine Scenario.t1 (Some "31") body db) = db) /\
  (is_success (fst (DELETE (Some "31") db)) = false ->
   snd (DELETE (Some "31") db) = db) /\
  only_marks_changed db (snd (POST Scenario.engine Scenario.t1 Scenario.t1 32 body db)) /\
  only_marks_changed db (snd (PUT Scenario.engine Scenario.t1 (Some "31") body db)) /\
  only_marks_changed db (snd (DELETE (Some "31") db)) /\
  (forall k', k' <> 31 ->
     marks_by_id (snd (PUT Scenario.engine Scenario.t1 (Some "31") body db)) k'
     = marks_by_id db k' /\
     marks_by_id (snd (DELETE (Some "31") db)) k' = marks_by_id db k').
Proof.
  apply (marks_route_frame Scenario.engine Scenario.t1 Scenario.t1 32 "31" 31
           [("internalMarks", JNumber 60%float)] Scenario.graded).
  reflexivity.
Defined.

(** A record created under a key no record has is what GET returns for that
    key; deleting it answers with the record and gives back the marks table
    as it was before the POST, after which GET answers 404. *)
Theorem marks_post_get_delete (eng : Engine) (now later : string) (newId : Z)
    (id : string) (body : JSObject) (db : DB) :
  is_success (fst (POST eng now later newId body db)) = true ->
  marks_by_id db newId = None ->
  parseInt_string id = Some newId ->
  let db1 := snd (POST eng now later newId body db) in
  let db2 := snd (DELETE (Some id) db1) in
  exists m : Marks,
    fst (POST eng now later newId body db) = Json 201 (Some m) /\
    GET (Some id) db1 = Some (Json 200 m) /\
    fst (DELETE (Some id) db1)
    = Json 200 (mkDeleted "Marks record deleted successfully" (Some m)) /\
    db2 = db /\
    GET (Some id) db2 = Some (Fail 404 (mkError "Marks record not found" None)).
Proof.
  intros Hok Hfresh Hid db1 db2. subst db2 db1.
  destruct (POST_success _ _ _ _ _ _ Hok) as (m & i & e & -> & Hm & _).
  exists m. cbn [fst snd]. split; [reflexivity|].
  assert (Hne : String.eqb id "" = false).
  { destruct id; [discriminate Hid | reflexivity]. }
  assert (Hfind : find (fun r => m_id r =? newId) (marks db ++ [m]) = Some m).
  { rewrite (find_snoc_fresh m_id). unfold marks_by_id in Hfresh.
    rewrite Hfresh, Hm. now rewrite Z.eqb_refl. }
  assert (Hdel : DELETE (Some id) (with_marks (marks db ++ [m]) db)
                 = (Json 200 (mkDeleted "Marks record deleted successfully"
                                (Some m)), db)).
  { unfold DELETE. rewrite Hid, (first_row m_id). cbn [marks with_marks].
    rewrite Hfind. destruct (find_filter _ _ _ Hfind) as [rest ->].
    cbn [hd_error]. f_equal.
    rewrite (filter_out_fresh m_id) by assumption.
    destruct db; reflexivity. }
  split; [|split; [|split]].
  - unfold GET. rewrite Hne, Hid, (first_row m_id). cbn [marks with_marks].
    now rewrite Hfind.
  - now rewrite Hdel.
  - now rewrite Hdel.
  - rewrite Hdel. cbn [snd]. unfold GET.
    rewrite Hne, Hid, (first_row m_id). unfold marks_by_id in Hfresh.
    now rewrite Hfresh.
Qed.

Lemma marks_post_get_delete_new_marks :
  let db1 := snd (POST Scenario.engine Scenario.t1 Scenario.t1 32 Scenario.new_marks
                    Scenario.graded) in
  let db2 := snd (DELETE (Some "32") db1) in
  exists m : Marks,
    fst (POST Scenario.engine Scenario.t1 Scenario.t1 32 Scenario.new_marks Scenario.graded)
    = Json 201 (Some m) /\
    GET (Some "32") db1 = Some (Json 200 m) /\
    fst (DELETE (Some "32") db1)
    = Json 200 (mkDeleted "Marks record deleted successfully" (Some m)) /\
    db2 = Scenario.graded /\
    GET (Some "32") db2
    = Some (Fail 404 (mkError "Marks record not found" None)).
Proof.
  apply (marks_post_get_delete Scenario.engine Scenario.t1 Scenario.t1 32 "32"
           Scenario.new_marks Scenario.graded);
    reflexivity.
Defined.

(** POST checks no existing record: a body that was accepted is accepted
    again under another key, so that the table then holds two records of the
    same student, course and semester with the same marks. *)
Theorem marks_post_accepts_duplicates (eng : Engine)
    (now later now' later' : string)
    (newId newId' : Z) (body : JSObject) (db : DB) :
  is_success (fst (POST eng now later newId body db)) = true ->
  let db1 := snd (POST eng now later newId body db) in
  exists m m' : Marks,
    fst (POST eng now later newId body db) = Json 201 (Some m) /\
    fst (POST eng now' later' newId' body db1) = Json 201 (Some m') /\
    marks (snd (POST eng now' later' newId' body db1)) = (marks db ++ [m; m'])%list /\
    m_id m = newId /\ m_id m' = newId' /\
    m_studentId m' = m_studentId m /\ m_courseId m' = m_courseId m /\
    m_semester m' = m_semester m /\
    m_internalMarks m' = m_internalMarks m /\
    m_externalMarks m' = m_externalMarks m /\
    m_totalMarks m' = m_totalMarks m /\ m_grade m' = m_grade m.
Proof.
  intros Hok db1. subst db1. revert Hok.
  unfold POST.
  repeat match goal with
         | |- context [negb ?x] => destruct (negb x); [discriminate|]
         end.
  destruct (parseInt (frac_digits eng) (get "studentId" body)) as [sid|];
    [|discriminate].
  destruct (parseInt (frac_digits eng) (get "courseId" body)) as [cid|];
    [|discriminate].
  destruct (parseInt (frac_digits eng) (get "semester" body)) as [sem|];
    [|discriminate].
  destruct (negb (is_undefined (get "internalMarks" body)) && _);
    [discriminate|].
  destruct (negb (is_undefined (get "externalMarks" body)) && _);
    [discriminate|].
  unfold student_rows, course_rows.
  destruct (firstn 1 (filter _ (students db))) eqn:Hs; [discriminate|].
  destruct (firstn 1 (filter _ (courses db))) eqn:Hc; [discriminate|].
  intros _. cbn [fst snd students courses marks with_marks].
  rewrite Hs, Hc. cbn [fst snd students courses marks with_marks].
  eexists _, _. split; [reflexivity|]. split; [reflexivity|].
  split; [now rewrite <- app_assoc|]. repeat split.
Qed.

Lemma marks_post_accepts_duplicates_new_marks :
  let db1 := snd (POST Scenario.engine Scenario.t1 Scenario.t1 32 Scenario.new_marks
                    Scenario.graded) in
  exists m m' : Marks,
    fst (POST Scenario.engine Scenario.t1 Scenario.t1 32 Scenario.new_marks Scenario.graded)
    = Json 201 (Some m) /\
    fst (POST Scenario.engine Scenario.t2 Scenario.t2 33 Scenario.new_marks db1)
    = Json 201 (Some m') /\
    marks (snd (POST Scenario.engine Scenario.t2 Scenario.t2 33 Scenario.new_marks db1))
    = (marks Scenario.graded ++ [m; m'])%list /\
    m_id m = 32 /\ m_id m' = 33 /\
    m_studentId m' = m_studentId m /\ m_courseId m' = m_courseId m /\
    m_semester m' = m_semester m /\
    m_internalMarks m' = m_internalMarks m /\
    m_externalMarks m' = m_externalMarks m /\
    m_totalMarks m' = m_totalMarks m /\ m_grade m' = m_grade m.
Proof.
  apply (marks_post_accepts_duplicates Scenario.engine Scenario.t1 Scenario.t1
           Scenario.t2 Scenario.t2
           32 33 Scenario.new_marks Scenario.graded).
  reflexivity.
Defined.

End MarksMore.

(* ================================================================= *)
(** ** More facts about the dashboard statistics *)

Module DashboardMore.
Import JS Schema Http Dashboard Distributions DashboardFacts TableFacts.

Section GroupByFacts.
Context {A K : Type} (eqb : K -> K -> bool) (key : A -> K).
Hypothesis eqb_eq : forall a b, eqb a b = true <-> a = b.

Lemma total_bump (k : K) (groups : list (K * Z)) :
  total (bump eqb k groups) = total groups + 1.
Proof.
  induction groups as [|[k' n] rest IH]; cbn; [reflexivity|].
  destruct (eqb k' k); cbn; [lia|]. fold (total (bump eqb k rest)).
  fold (total rest). lia.
Qed.

Lemma count_of_bump (k k1 : K) (groups : list (K * Z)) :
  count_of eqb k (bump eqb k1 groups)
  = count_of eqb k groups + (if eqb k1 k then 1 else 0).
Proof.
  unfold count_of. induction groups as [|[k2 n] rest IH]; cbn.
  - destruct (eqb k1 k); reflexivity.
  - destruct (eqb k2 k1) eqn:E21; cbn.
    + apply eqb_eq in E21. subst k2. destruct (eqb k1 k); cbn; lia.
    + destruct (eqb k2 k) eqn:E2; cbn; [|exact IH].
      apply eqb_eq in E2. subst k2.
      destruct (eqb k1 k) eqn:E1; [|lia].
      apply eqb_eq in E1. subst k1.
      assert (eqb k k = true) by now apply eqb_eq. congruence.
Qed.

Lemma keys_bump (k : K) (groups : list (K * Z)) (x : K) :
  In x (map fst (bump eqb k groups)) -> x = k \/ In x (map fst groups).
Proof.
  induction groups as [|[k' n] rest IH]; cbn.
  - intros [<-|[]]. now left.
  - destruct (eqb k' k); cbn; [tauto|]. intros [<-|H]; [tauto|].
    destruct (IH H); tauto.
Qed.

Lemma well_grouped_bump (k : K) (groups : list (K * Z)) :
  well_grouped groups -> well_grouped (bump eqb k groups).
Proof.
  unfold well_grouped. induction groups as [|[k' n] rest IH]; cbn.
  - intros _. split; repeat constructor. intros [].
  - intros [Hnd Hpos]. apply NoDup_cons_iff in Hnd. destruct Hnd as [Hk' Hnd].
    apply Forall_cons_iff in Hpos. destruct Hpos as [Hn Hpos]. cbn in Hn.
    destruct (eqb k' k) eqn:E; cbn.
    + split; [now constructor|]. constructor; [cbn; lia | exact Hpos].
    + destruct (IH (conj Hnd Hpos)) as [Hnd' Hpos'].
      split; [|now constructor]. constructor; [|exact Hnd'].
      intros Hin. apply keys_bump in Hin. destruct Hin as [->|Hin]; [|tauto].
      assert (eqb k k = true) by now apply eqb_eq. congruence.
Qed.

Lemma group_count_from (rows : list A) (groups : list (K * Z)) :
  let result := fold_left (fun g r => bump eqb (key r) g) rows groups in
  total result = total groups + count rows /\
  (forall k, count_of eqb k result
             = count_of eqb k groups + count (filter (fun r => eqb (key r) k) rows)) /\
  (well_grouped groups -> well_grouped result).
Proof.
  revert groups. induction rows as [|r rows IH]; intros groups; cbn zeta.
  - unfold count. cbn [fold_left filter List.length Z.of_nat].
    split; [lia|]. split; [intros k; lia | auto].
  - cbn [fold_left]. destruct (IH (bump eqb (key r) groups)) as (Ht & Hc & Hw).
    split; [|split].
    + rewrite Ht, total_bump. unfold count. cbn [List.length]. lia.
    + intros k. rewrite Hc, count_of_bump. cbn [filter].
      destruct (eqb (key r) k); unfold count; cbn [List.length]; lia.
    + intros H. now apply Hw, well_grouped_bump.
Qed.

Lemma well_grouped_In (groups : list (K * Z)) (k : K) (n : Z) :
  well_grouped groups ->
  (In (k, n) groups <-> count_of eqb k groups = n /\ 0 < n).
Proof.
  unfold well_grouped, count_of.
  induction groups as [|[k' m] rest IH]; cbn.
  - intros _. split; [intros [] | lia].
  - intros [Hnd Hpos]. apply NoDup_cons_iff in Hnd. destruct Hnd as [Hk' Hnd].
    apply Forall_cons_iff in Hpos. destruct Hpos as [Hm Hpos]. cbn in Hm.
    destruct (eqb k' k) eqn:E; cbn.
    + apply eqb_eq in E. subst k'. split.
      * intros [Heq|Hin]; [injection Heq as <-; lia|].
        exfalso. apply Hk'. apply in_map_iff. now exists (k, n).
      * intros [<- _]. now left.
    + rewrite <- (IH (conj Hnd Hpos)). split; [|tauto].
      intros [Heq|Hin]; [|exact Hin]. injection Heq as -> _.
      assert (eqb k k = true) by now apply eqb_eq. congruence.
Qed.

(** The groups of a GROUP BY with [count()]: as many rows in all as the
    query has, one group for each key that occurs, with the number of its
    rows. *)
Lemma group_count_spec (rows : list A) :
  total (group_count eqb key rows) = count rows /\
  NoDup (map fst (group_count eqb key rows)) /\
  forall k n,
    In (k, n) (group_count eqb key rows) <->
    n = count (filter (fun r => eqb (key r) k) rows) /\ 0 < n.
Proof.
  destruct (group_count_from rows []) as (Ht & Hc & Hw). cbn zeta in *.
  assert (Hwg : well_grouped (group_count eqb key rows)).
  { apply Hw. split; constructor. }
  split; [exact Ht|]. split; [exact (proj1 Hwg)|].
  intros k n. rewrite (well_grouped_In _ k n Hwg).
  unfold group_count. rewrite Hc.
  change (count_of eqb k []) with 0.
  split; intros [H1 H2]; split; auto; lia.
Qed.
End GroupByFacts.

Lemma filter_filter {A : Type} (p q : A -> bool) (l : list A) :
  filter p (filter q l) = filter (fun x => q x && p x) l.
Proof.
  induction l as [|x l IH]; cbn; [reflexivity|].
  destruct (q x); cbn; [destruct (p x); now rewrite IH | exact IH].
Qed.

(** The distributions of the report add up to its totals: the active
    students by course and by year to totalStudents, the students by status
    to the number of students, the faculty by department to totalFaculty.
    Each distribution has one group for each value that occurs, with the
    number of its rows, and the group of the status "active" is
    totalStudents. *)
Theorem distributions_add_up (now : string) (db : DB) :
  exists stats : DashboardStats,
    GET now db = Json 200 stats /\
    total (studentsByCourse db) = ov_totalStudents (overview stats) /\
    total (studentsByYear db) = ov_totalStudents (overview stats) /\
    total (studentStatusDistribution db) = count (students db) /\
    total (facultyByDepartment db) = ov_totalFaculty (overview stats) /\
    NoDup (map fst (studentsByCourse db)) /\
    NoDup (map fst (studentsByYear db)) /\
    NoDup (map fst (studentStatusDistribution db)) /\
    NoDup (map fst (facultyByDepartment db)) /\
    (forall course n,
       In (course, n) (studentsByCourse db) <->
       n = count (filter (fun s => active s && String.eqb (s_course s) course)
                    (students db)) /\ 0 < n) /\
    (forall year n,
       In (year, n) (studentsByYear db) <->
       n = count (filter (fun s => active s && (s_year s =? year))
                    (students db)) /\ 0 < n) /\
    (forall department n,
       In (department, n) (facultyByDepartment db) <->
       n = count (filter (fun f => String.eqb (fa_department f) department)
                    (faculty db)) /\ 0 < n) /\
    (forall n, In ("active", n) (studentStatusDistribution db) <->
               n = ov_totalStudents (overview stats) /\ 0 < n).
Proof.
  eexists. split; [reflexivity|]. cbn [overview ov_totalStudents ov_totalFaculty].
  destruct (group_count_spec String.eqb s_course String.eqb_eq
              (filter active (students db))) as (T1 & N1 & M1).
  destruct (group_count_spec Z.eqb s_year Z.eqb_eq
              (filter active (students db))) as (T2 & N2 & M2).
  destruct (group_count_spec String.eqb s_status String.eqb_eq (students db))
    as (T3 & N3 & M3).
  destruct (group_count_spec String.eqb fa_department String.eqb_eq (faculty db))
    as (T4 & N4 & M4).
  split; [exact T1|]. split; [exact T2|]. split; [exact T3|].
  split; [exact T4|]. split; [exact N1|]. split; [exact N2|].
  split; [exact N3|]. split; [exact N4|].
  split; [|split; [|split]].
  - intros course n. rewrite M1, filter_filter. reflexivity.
  - intros year n. rewrite M2, filter_filter. reflexivity.
  - intros department n. apply M4.
  - intros n. apply M3.
Qed.

Example ledger_distributions :
  studentStatusDistribution Scenario.ledger = [("active", 1); ("inactive", 1)] /\
  studentsByCourse Scenario.ledger = [("B.Sc Physics", 1)] /\
  studentsByYear Scenario.ledger = [(2, 1)] /\
  facultyByDepartment Scenario.ledger = [("Physics", 2)].
Proof. repeat split. Qed.

(** *** The counts *)

Lemma count_filter_le {A : Type} (p : A -> bool) (l : list A) :
  0 <= count (filter p l) <= count l.
Proof.
  unfold count. pose proof (filter_length_le p l). lia.
Qed.

Lemma count_filter_disjoint {A : Type} (p q : A -> bool) (l : list A) :
  (forall x, p x = true -> q x = false) ->
  count (filter p l) + count (filter q l) <= count l.
Proof.
  intros Hpq. unfold count. induction l as [|x l IH]; cbn; [lia|].
  destruct (p x) eqn:Hp; [rewrite (Hpq x Hp)|destruct (q x)];
    cbn [List.length]; lia.
Qed.

(** The counts of the report are within their totals: the active
    enrollments within the enrollments, the present records within the
    attendance records, the active students within the students, the
    pending and the overdue fees together within the fees.  Each feed has
    10 entries at most. *)
Theorem dashboard_counts_bounded (now : string) (db : DB) :
  exists stats : DashboardStats,
    GET now db = Json 200 stats /\
    0 <= es_active (enrollmentStats stats) <= es_total (enrollmentStats stats) /\
    0 <= as_presentRecords (attendanceStats stats)
      <= as_totalRecords (attendanceStats stats) /\
    0 <= ov_totalStudents (overview stats) <= count (students db) /\
    0 <= ov_pendingFees (overview stats) /\
    0 <= ov_overdueFees (overview stats) /\
    ov_pendingFees (overview stats) + ov_overdueFees (overview stats)
      <= count (fees db) /\
    (List.length (ra_enrollments (recentActivities stats)) <= 10)%nat /\
    (List.length (ra_feePayments (recentActivities stats)) <= 10)%nat.
Proof.
  eexists. split; [reflexivity|].
  cbn [enrollmentStats attendanceStats overview recentActivities es_active
       es_total as_presentRecords as_totalRecords ov_totalStudents
       ov_pendingFees ov_overdueFees ra_enrollments ra_feePayments].
  split; [apply count_filter_le|]. split; [apply count_filter_le|].
  split; [apply count_filter_le|]. split; [apply count_filter_le|].
  split; [apply count_filter_le|]. split.
  { apply count_filter_disjoint. intros f Hf. apply String.eqb_eq in Hf.
    now rewrite Hf. }
  unfold recentEnrollments, recentFeePayments, recent_enrollment_rows,
    recent_payment_rows.
  rewrite !length_map. split; apply firstn_le_length.
Qed.

(** *** A payment, seen from the report *)

Section HeadFacts.
Context {A K : Type} (leb : K -> K -> bool) (key : A -> K).
Hypothesis leb_trans :
  forall a b c, leb a b = true -> leb b c = true -> leb a c = true.
Hypothesis leb_total : forall a b, leb a b = false -> leb b a = true.

(** When some rows have the key [top] and every other row a key strictly
    below it, one of the former heads the descending order. *)
Lemma order_by_desc_head (l : list A) (top : K) (P : A -> Prop) :
  (exists x, In x l /\ P x /\ key x = top) ->
  (forall y, In y l -> P y \/ leb top (key y) = false) ->
  exists h rest, order_by_desc leb key l = h :: rest /\ P h.
Proof.
  intros (x & Hx & HP & Hk) Hall.
  pose proof (order_by_desc_perm leb key l) as Hperm.
  pose proof (order_by_desc_sorted leb key leb_trans leb_total l) as Hsort.
  destruct (order_by_desc leb key l) as [|h rest].
  - apply Permutation.Permutation_nil in Hperm. subst l. destruct Hx.
  - exists h, rest. split; [reflexivity|].
    assert (Hh : In h l).
    { eapply Permutation.Permutation_in; [exact Hperm | now left]. }
    destruct (Hall h Hh) as [Hp|Hlow]; [exact Hp|].
    assert (Hx' : In x (h :: rest)).
    { eapply Permutation.Permutation_in;
        [apply Permutation.Permutation_sym, Hperm | exact Hx]. }
    destruct Hx' as [<-|Hr]; [exact HP|].
    apply StronglySorted_inv in Hsort. destruct Hsort as [_ Hf].
    rewrite Forall_forall in Hf. specialize (Hf x Hr). unfold desc in Hf.
    rewrite Hk in Hf. congruence.
Qed.
End HeadFacts.

(** The tables after a payment that succeeded. *)
Lemma payment_tables (eng : Engine) (now : string) (user : option Payment.User)
    (id : string) (body : JSObject) (db : DB) :
  is_success (fst (Payment.PUT eng now user id body db)) = true ->
  exists (v : Payment.Validated) (fee : Fee) (st : Student),
    fst (Payment.PUT eng now user id body db)
    = Json 200 (Payment.paymentResponse now v st (Payment.mark_paid now fee)) /\
    fee_by_id db (f_id fee) = Some fee /\
    f_studentId fee = Some (s_id st) /\
    student_by_id db (s_id st) = Some st /\
    (f_status fee = "pending" \/ f_status fee = "overdue") /\
    let db' := snd (Payment.PUT eng now user id body db) in
    fees db'
    = map (fun f => if f_id f =? f_id fee then Payment.mark_paid now f else f)
        (fees db) /\
    students db'
    = map (fun s => if s_id s =? s_id st
                    then Payment.set_balance
                           (Payment.newBalance st (Payment.v_amount v)) now s
                    else s) (students db) /\
    courses db' = courses db /\ faculty db' = faculty db /\
    marks db' = marks db /\ attendance db' = attendance db /\
    enrollments db' = enrollments db.
Proof.
  intros Hok.
  destruct (FeesFacts.payment_success_inv _ _ _ _ _ _ Hok)
    as (v & fee & st & _ & Hf & Hs & Hst & Hstatus & _ & ->).
  exists v, fee, st. cbn [fst snd].
  assert (Hid : f_id fee = Payment.v_feeId v).
  { unfold fee_by_id in Hf. exact (find_key f_id _ _ _ Hf). }
  rewrite Hid. repeat split; assumption || reflexivity.
Qed.

(** After a payment that succeeded, the fee heads the report's feed of
    payments, paid at the time of the payment, when every fee paid before
    has an earlier paidDate. *)
Theorem payment_heads_the_feed (eng : Engine) (now later : string)
    (user : option Payment.User) (id : string) (body : JSObject) (db : DB)
    (p : Payment.PaymentResponse) :
  fst (Payment.PUT eng now user id body db) = Json 200 p ->
  (forall f, In f (fees db) -> f_status f = "paid" ->
             null_leb (Some now) (f_paidDate f) = false) ->
  let db' := snd (Payment.PUT eng now user id body db) in
  exists (stats : DashboardStats) (first : RecentFeePayment)
         (rest : list RecentFeePayment),
    GET later db' = Json 200 stats /\
    ra_feePayments (recentActivities stats) = first :: rest /\
    rf_id first = f_id (Payment.pr_fee p) /\
    rf_paidDate first = Some now /\
    rf_status first = "paid".
Proof.
  intros Hr Hearlier db'.
  assert (Hok : is_success (fst (Payment.PUT eng now user id body db)) = true)
    by now rewrite Hr.
  destruct (payment_tables _ _ _ _ _ _ Hok)
    as (v & fee & st & Hresp & Hf & Hs & Hst & _ & Hfees & Hstudents & _).
  fold db' in Hfees, Hstudents. cbv zeta in Hfees, Hstudents.
  rewrite Hresp in Hr. injection Hr as <-.
  cbn [Payment.pr_fee Payment.paymentResponse Payment.mark_paid f_id].
  eexists. cbn [GET]. unfold GET.
  set (P := fun r : Fee * Student =>
              f_id (fst r) = f_id fee /\ f_paidDate (fst r) = Some now /\
              f_status (fst r) = "paid").
  destruct (order_by_desc_head null_leb fee_paidDate null_leb_trans
              null_leb_total (paid_fee_join db') (Some now) P)
    as (h & rest & Hsorted & Hh).
  - exists (Payment.mark_paid now fee,
            Payment.set_balance (Payment.newBalance st (Payment.v_amount v))
              now st).
    split; [|split; [|reflexivity]].
    + apply paid_fee_join_spec. rewrite Hfees, Hstudents.
      unfold fee_by_id in Hf. unfold student_by_id in Hst.
      apply find_some in Hf, Hst. destruct Hf as [Hf1 Hf2].
      destruct Hst as [Hst1 Hst2].
      split; [|split; [reflexivity|split]].
      * apply in_map_iff. exists fee. now rewrite Hf2.
      * apply in_map_iff. exists st. now rewrite Hst2.
      * exact Hs.
    + repeat split.
  - intros [f s] Hin. apply paid_fee_join_spec in Hin.
    destruct Hin as (Hin & Hpaid & _). rewrite Hfees in Hin.
    apply in_map_iff in Hin. destruct Hin as (g & Hg & Hgin).
    destruct (f_id g =? f_id fee) eqn:E.
    + left. subst f. unfold P. cbn. split; [lia | split; reflexivity].
    + right. subst f. unfold fee_paidDate. cbn [fst]. now apply Hearlier.
  - exists (select_payment h), (map select_payment (firstn 9 rest)).
    split; [reflexivity|].
    cbn [recentActivities ra_feePayments].
    unfold recentFeePayments, recent_payment_rows. rewrite Hsorted.
    cbn [firstn map]. split; [reflexivity|].
    destruct h as [f s]. destruct Hh as (H1 & H2 & H3). cbn in *.
    repeat split; assumption.
Qed.

Lemma payment_heads_the_feed_ledger :
  let db' := snd (Payment.PUT Scenario.engine Scenario.t1 (Some Scenario.admin)
                    "1" (Scenario.payment 500%float "TXN-001") Scenario.ledger) in
  exists (stats : DashboardStats) (first : RecentFeePayment)
         (rest : list RecentFeePayment),
    GET Scenario.t2 db' = Json 200 stats /\
    ra_feePayments (recentActivities stats) = first :: rest /\
    rf_id first
    = f_id (Payment.pr_fee
              (Payment.paymentResponse Scenario.t1
                 (Payment.mkValidated Scenario.admin 1 500%float "cash" "TXN-001")
                 Scenario.student7
                 (Payment.mark_paid Scenario.t1 Scenario.fee1))) /\
    rf_paidDate first = Some Scenario.t1 /\
    rf_status first = "paid".
Proof.
  apply (payment_heads_the_feed Scenario.engine Scenario.t1 Scenario.t2
           (Some Scenario.admin) "1" (Scenario.payment 500%float "TXN-001")
           Scenario.ledger).
  - reflexivity.
  - intros f [<-|[<-|[]]] Hst; [reflexivity | discriminate Hst].
Defined.

Lemma map_no_key {A : Type} (key : A -> Z) (k : Z) (upd : A -> A) (l : list A) :
  ~ In k (map key l) ->
  map (fun r => if key r =? k then upd r else r) l = l.
Proof.
  induction l as [|y l IH]; cbn; [reflexivity|]. intros Hn.
  destruct (key y =? k) eqn:E; [exfalso; apply Hn; left; lia|].
  rewrite IH; [reflexivity | tauto].
Qed.

(** An update by a key that no two rows share changes one row. *)
Lemma update_unique {A : Type} (key : A -> Z) (k : Z) (upd : A -> A)
    (l : list A) (x : A) :
  NoDup (map key l) -> find (fun r => key r =? k) l = Some x ->
  exists l1 l2,
    l = (l1 ++ x :: l2)%list /\
    map (fun r => if key r =? k then upd r else r) l = (l1 ++ upd x :: l2)%list.
Proof.
  induction l as [|y l IH]; cbn; [discriminate|]. intros Hnd Hf.
  apply NoDup_cons_iff in Hnd. destruct Hnd as [Hy Hnd].
  destruct (key y =? k) eqn:E.
  - injection Hf as <-. exists [], l. split; [reflexivity|]. cbn.
    rewrite map_no_key; [reflexivity|]. assert (key y = k) by lia. congruence.
  - destruct (IH Hnd Hf) as (l1 & l2 & -> & ->).
    exists (y :: l1), l2. split; reflexivity.
Qed.

Lemma count_filter_update {A : Type} (p : A -> bool) (cond : A -> bool)
    (upd : A -> A) (l : list A) :
  (forall x, p (upd x) = p x) ->
  count (filter p (map (fun r => if cond r then upd r else r) l))
  = count (filter p l).
Proof.
  intros Hp. unfold count. f_equal.
  induction l as [|y l IH]; cbn; [reflexivity|].
  assert (p (if cond y then upd y else y) = p y) as ->
    by (destruct (cond y); [apply Hp | reflexivity]).
  destruct (p y); cbn; now rewrite IH.
Qed.

(** When no two fees share an id, a payment that succeeded lowers the
    number of pending and overdue fees of the report by one, and changes no
    other count of it. *)
Theorem payment_lowers_open_fees (eng : Engine) (now later : string)
    (user : option Payment.User) (id : string) (body : JSObject) (db : DB) :
  is_success (fst (Payment.PUT eng now user id body db)) = true ->
  NoDup (map f_id (fees db)) ->
  let db' := snd (Payment.PUT eng now user id body db) in
  exists before after : DashboardStats,
    GET later db = Json 200 before /\ GET later db' = Json 200 after /\
    ov_pendingFees (overview after) + ov_overdueFees (overview after) + 1
    = ov_pendingFees (overview before) + ov_overdueFees (overview before) /\
    ov_pendingFees (overview after) <= ov_pendingFees (overview before) /\
    ov_overdueFees (overview after) <= ov_overdueFees (overview before) /\
    ov_totalStudents (overview after) = ov_totalStudents (overview before) /\
    ov_totalCourses (overview after) = ov_totalCourses (overview before) /\
    ov_totalFaculty (overview after) = ov_totalFaculty (overview before) /\
    enrollmentStats after = enrollmentStats before /\
    attendanceStats after = attendanceStats before.
Proof.
  intros Hok Hnd db'.
  destruct (payment_tables _ _ _ _ _ _ Hok)
    as (v & fee & st & _ & Hf & _ & _ & Hstatus & Hfees & Hstudents & Hc & Hfa
        & _ & Ha & He).
  fold db' in Hfees, Hstudents, Hc, Hfa, Ha, He.
  cbv zeta in Hfees, Hstudents, Hc, Hfa, Ha, He.
  eexists _, _. split; [reflexivity|]. split; [reflexivity|].
  cbn [overview enrollmentStats attendanceStats ov_pendingFees
       ov_overdueFees ov_totalStudents ov_totalCourses ov_totalFaculty].
  rewrite Hc, Hfa, Ha, He.
  rewrite Hfees, Hstudents.
  rewrite (count_filter_update (fun s => String.eqb (s_status s) "active"))
    by reflexivity.
  unfold fee_by_id in Hf.
  destruct (update_unique f_id (f_id fee) (Payment.mark_paid now) _ _ Hnd Hf)
    as (l1 & l2 & Hl & ->).
  rewrite Hl. unfold count. rewrite !filter_app, !length_app. cbn [filter].
  cbn [Payment.mark_paid f_status].
  change (String.eqb "paid" "pending") with false.
  change (String.eqb "paid" "overdue") with false.
  destruct Hstatus as [-> | ->]; cbn [String.eqb Ascii.eqb Bool.eqb andb];
    cbn [List.length]; repeat split; lia.
Qed.

Lemma payment_lowers_open_fees_ledger :
  let db' := snd (Payment.PUT Scenario.engine Scenario.t1 (Some Scenario.admin)
                    "1" (Scenario.payment 500%float "TXN-001") Scenario.ledger) in
  exists before after : DashboardStats,
    GET Scenario.t2 Scenario.ledger = Json 200 before /\
    GET Scenario.t2 db' = Json 200 after /\
    ov_pendingFees (overview after) + ov_overdueFees (overview after) + 1
    = ov_pendingFees (overview before) + ov_overdueFees (overview before) /\
    ov_pendingFees (overview after) <= ov_pendingFees (overview before) /\
    ov_overdueFees (overview after) <= ov_overdueFees (overview before) /\
    ov_totalStudents (overview after) = ov_totalStudents (overview before) /\
    ov_totalCourses (overview after) = ov_totalCourses (overview before) /\
    ov_totalFaculty (overview after) = ov_totalFaculty (overview before) /\
    enrollmentStats after = enrollmentStats before /\
    attendanceStats after = attendanceStats before.
Proof.
  apply (payment_lowers_open_fees Scenario.engine Scenario.t1 Scenario.t2
           (Some Scenario.admin) "1" (Scenario.payment 500%float "TXN-001")
           Scenario.ledger).
  - reflexivity.
  - cbn. repeat constructor; cbn; intuition lia.
Defined.

End DashboardMore.

(* ================================================================= *)
(** ** Facts about the enrollments route *)

Module EnrollmentFacts.
Import JS Schema Http EnrollmentsRoute TableFacts FeesCrudFacts.

Lemma firstn_1_nil {A : Type} (l : list A) : firstn 1 l = [] -> l = [].
Proof. destruct l; [reflexivity | discriminate]. Qed.

Lemma firstn_1_In {A : Type} (l rest : list A) (x : A) :
  firstn 1 l = x :: rest -> In x l.
Proof. destruct l; [discriminate|]. cbn. intros H. injection H as -> _. now left. Qed.

Lemma same_pair_true (sid cid : Z) (e : Enrollment) :
  same_pair sid cid e = true <->
  e_studentId e = Some sid /\ e_courseId e = Some cid.
Proof.
  unfold same_pair. rewrite andb_true_iff.
  destruct (e_studentId e) as [x|], (e_courseId e) as [y|]; cbn;
    rewrite ?Z.eqb_eq; split; intros [H1 H2]; split; congruence.
Qed.

Lemma valid_status_In (v : JSValue) :
  FeesRoute.includes VALID_STATUS_VALUES v = true ->
  exists s, v = JString s /\ In s VALID_STATUS_VALUES.
Proof. apply includes_In. Qed.

(** What a successful POST did. *)
Lemma enrollment_POST_inv (eng : Engine) (now : string) (newId : Z)
    (body : JSObject) (db : DB) :
  is_success (fst (POST eng now newId body db)) = true ->
  exists (sid cid : Z) (d s : string),
    parseInt (frac_digits eng) (get "studentId" body) = Some sid /\
    parseInt (frac_digits eng) (get "courseId" body) = Some cid /\
    MarksRoute.student_rows db sid <> [] /\
    MarksRoute.course_rows db cid <> [] /\
    filter (same_pair sid cid) (enrollments db) = [] /\
    In s VALID_STATUS_VALUES /\
    (truthy (get "status" body) = false -> s = "active") /\
    (truthy (get "enrollmentDate" body) = false -> d = now) /\
    POST eng now newId body db
    = (Json 201 (mkEnrollment newId (Some sid) (Some cid) d s now now),
       with_enrollments
         (enrollments db ++ [mkEnrollment newId (Some sid) (Some cid) d s now now])
         db).
Proof.
  unfold POST.
  destruct (negb (truthy (get "studentId" body))); [discriminate|].
  destruct (negb (truthy (get "courseId" body))); [discriminate|].
  destruct (parseInt (frac_digits eng) (get "studentId" body)) as [sid|];
    [|discriminate].
  destruct (parseInt (frac_digits eng) (get "courseId" body)) as [cid|];
    [|discriminate].
  destruct (truthy (get "status" body)
            && negb (FeesRoute.includes VALID_STATUS_VALUES (get "status" body)))
    eqn:Hst; [discriminate|].
  destruct (MarksRoute.student_rows db sid) as [|st0 sts] eqn:Hs;
    [discriminate|].
  destruct (MarksRoute.course_rows db cid) as [|c0 cs] eqn:Hc; [discriminate|].
  destruct (firstn 1 (filter (same_pair sid cid) (enrollments db))) eqn:Hdup;
    [|discriminate].
  apply firstn_1_nil in Hdup.
  assert (Hstored :
            exists s, (if truthy (get "status" body)
                       then FeesRoute.stored_text eng (get "status" body)
                       else Some "active") = Some s /\
                      In s VALID_STATUS_VALUES /\
                      (truthy (get "status" body) = false -> s = "active")).
  { destruct (truthy (get "status" body)) eqn:Ht.
    - cbn [andb] in Hst. apply negb_false_iff in Hst.
      apply valid_status_In in Hst. destruct Hst as (s & Heq & Hin).
      rewrite Heq. exists s. repeat split; [exact Hin | discriminate].
    - exists "active". repeat split. cbn. auto. }
  destruct Hstored as (s & -> & Hin & Hdef).
  destruct (truthy (get "enrollmentDate" body)) eqn:Hd.
  - destruct (FeesRoute.stored_text eng (get "enrollmentDate" body)) as [d|];
      [|discriminate].
    intros _. exists sid, cid, d, s.
    repeat split; try discriminate; try congruence; auto.
  - intros _. exists sid, cid, now, s.
    repeat split; try discriminate; try congruence; auto.
Qed.

Lemma pair_fresh (sid cid : Z) (db : DB) :
  filter (same_pair sid cid) (enrollments db) = [] ->
  ~ In (Some sid, Some cid) (pairs db).
Proof.
  intros Hnone Hin. unfold pairs in Hin. apply in_map_iff in Hin.
  destruct Hin as (e & Heq & He). injection Heq as H1 H2.
  assert (Hf : In e (filter (same_pair sid cid) (enrollments db))).
  { apply filter_In. split; [exact He|]. now apply same_pair_true. }
  rewrite Hnone in Hf. exact Hf.
Qed.

(** A successful POST answers 201 with the enrollment it appended: of a
    student and a course that exist, with a valid status that is "active"
    when the body gives none, and for a pair of student and course that no
    enrollment had.  So enrollments that did not share a pair do not share
    one afterwards.  No other table changes. *)
Theorem enrollment_created (eng : Engine) (now : string) (newId : Z)
    (body : JSObject) (db : DB) :
  is_success (fst (POST eng now newId body db)) = true ->
  exists (e : Enrollment) (sid cid : Z),
    fst (POST eng now newId body db) = Json 201 e /\
    enrollments (snd (POST eng now newId body db)) = (enrollments db ++ [e])%list /\
    only_enrollments_changed db (snd (POST eng now newId body db)) /\
    e_id e = newId /\ e_studentId e = Some sid /\ e_courseId e = Some cid /\
    student_by_id db sid <> None /\
    (exists c, In c (courses db) /\ c_id c = cid) /\
    In (e_status e) VALID_STATUS_VALUES /\
    (truthy (get "status" body) = false -> e_status e = "active") /\
    (truthy (get "enrollmentDate" body) = false -> e_enrollmentDate e = now) /\
    (forall e', In e' (enrollments db) ->
       ~ (e_studentId e' = Some sid /\ e_courseId e' = Some cid)) /\
    (NoDup (pairs db) -> NoDup (pairs (snd (POST eng now newId body db)))).
Proof.
  intros Hok.
  destruct (enrollment_POST_inv _ _ _ _ _ Hok)
    as (sid & cid & d & s & _ & _ & Hs & Hc & Hnone & Hin & Hdef & Hdate & ->).
  eexists _, sid, cid. cbn [fst snd enrollments with_enrollments].
  split; [reflexivity|]. split; [reflexivity|]. split; [repeat split|].
  cbn [e_id e_studentId e_courseId e_status e_enrollmentDate].
  repeat split; auto.
  - unfold MarksRoute.student_rows in Hs. rewrite (first_row s_id) in Hs.
    unfold student_by_id. destruct (find _ (students db)); congruence.
  - unfold MarksRoute.course_rows in Hc. rewrite (first_row c_id) in Hc.
    destruct (find (fun r => c_id r =? cid) (courses db)) as [c|] eqn:Hf;
      [|congruence].
    apply find_some in Hf. exists c. split; [tauto|]. lia.
  - intros e' He' Hp. apply same_pair_true in Hp.
    assert (Hf : In e' (filter (same_pair sid cid) (enrollments db)))
      by (apply filter_In; tauto).
    rewrite Hnone in Hf. exact Hf.
  - intros Hnd. unfold pairs. cbn [enrollments with_enrollments].
    rewrite map_app. cbn [map e_studentId e_courseId].
    apply (Permutation.Permutation_NoDup
             (Permutation.Permutation_cons_append _ _)).
    constructor; [|exact Hnd]. now apply pair_fresh.
Qed.

Lemma enrollment_created_new_enrollment :
  exists (e : Enrollment) (sid cid : Z),
    fst (POST Scenario.engine Scenario.t1 43 Scenario.new_enrollment
           Scenario.enrolled) = Json 201 e /\
    enrollments (snd (POST Scenario.engine Scenario.t1 43 Scenario.new_enrollment
                        Scenario.enrolled))
    = (enrollments Scenario.enrolled ++ [e])%list /\
    only_enrollments_changed Scenario.enrolled
      (snd (POST Scenario.engine Scenario.t1 43 Scenario.new_enrollment
              Scenario.enrolled)) /\
    e_id e = 43 /\ e_studentId e = Some sid /\ e_courseId e = Some cid /\
    student_by_id Scenario.enrolled sid <> None /\
    (exists c, In c (courses Scenario.enrolled) /\ c_id c = cid) /\
    In (e_status e) VALID_STATUS_VALUES /\
    (truthy (get "status" Scenario.new_enrollment) = false ->
     e_status e = "active") /\
    (truthy (get "enrollmentDate" Scenario.new_enrollment) = false ->
     e_enrollmentDate e = Scenario.t1) /\
    (forall e', In e' (enrollments Scenario.enrolled) ->
       ~ (e_studentId e' = Some sid /\ e_courseId e' = Some cid)) /\
    (NoDup (pairs Scenario.enrolled) ->
     NoDup (pairs (snd (POST Scenario.engine Scenario.t1 43
                          Scenario.new_enrollment Scenario.enrolled)))).
Proof.
  apply (enrollment_created Scenario.engine Scenario.t1 43
           Scenario.new_enrollment Scenario.enrolled).
  reflexivity.
Defined.

Example new_enrollment_stored :
  fst (POST Scenario.engine Scenario.t1 43 Scenario.new_enrollment
         Scenario.enrolled)
  = Json 201 (mkEnrollment 43 (Some 7) (Some 6) Scenario.t1 "active"
                Scenario.t1 Scenario.t1).
Proof. reflexivity. Qed.

(** The body of an accepted POST, sent again, is refused with
    ENROLLMENT_EXISTS, whatever key and time the second request has, and
    nothing is written. *)
Theorem enrollment_twice_refused (eng : Engine) (now now' : string)
    (newId newId' : Z) (body : JSObject) (db : DB) :
  is_success (fst (POST eng now newId body db)) = true ->
  let db1 := snd (POST eng now newId body db) in
  POST eng now' newId' body db1
  = (fail 400 "Student is already enrolled in this course" "ENROLLMENT_EXISTS",
     db1).
Proof.
  intros Hok db1. subst db1.
  destruct (enrollment_POST_inv _ _ _ _ _ Hok)
    as (sid & cid & d & s & Hsid & Hcid & Hs & Hc & Hnone & _ & _ & _ & Heq).
  rewrite Heq. cbn [snd]. revert Hok. unfold POST at 1.
  unfold POST.
  destruct (negb (truthy (get "studentId" body))); [discriminate|].
  destruct (negb (truthy (get "courseId" body))); [discriminate|].
  rewrite Hsid, Hcid.
  destruct (truthy (get "status" body) && _); [discriminate|].
  intros _.
  change (MarksRoute.student_rows (with_enrollments ?l db) sid)
    with (MarksRoute.student_rows db sid).
  change (MarksRoute.course_rows (with_enrollments ?l db) cid)
    with (MarksRoute.course_rows db cid).
  destruct (MarksRoute.student_rows db sid); [congruence|].
  destruct (MarksRoute.course_rows db cid); [congruence|].
  cbn [enrollments with_enrollments]. rewrite filter_app, Hnone.
  cbn [filter app]. unfold same_pair. cbn [e_studentId e_courseId col_eq].
  rewrite !Z.eqb_refl. reflexivity.
Qed.

Lemma enrollment_twice_refused_new_enrollment :
  let db1 := snd (POST Scenario.engine Scenario.t1 43 Scenario.new_enrollment
                    Scenario.enrolled) in
  POST Scenario.engine Scenario.t2 44 Scenario.new_enrollment db1
  = (fail 400 "Student is already enrolled in this course" "ENROLLMENT_EXISTS",
     db1).
Proof.
  apply (enrollment_twice_refused Scenario.engine Scenario.t1 Scenario.t2 43 44
           Scenario.new_enrollment Scenario.enrolled).
  reflexivity.
Defined.

(** *** PUT *)

Lemma checked_key_inl {A : Type} (eng : Engine) (v : JSValue)
    (rows : Z -> list A) (invalid missing r : Resp) :
  checked_key eng v rows invalid missing = inl r -> r = invalid \/ r = missing.
Proof.
  unfold checked_key.
  destruct v; try discriminate;
    (destruct (parseInt _ _) as [k|]; [destruct (rows k)|]);
    intros H; try discriminate; injection H as <-; auto.
Qed.

Lemma checked_key_inr {A : Type} (eng : Engine) (v : JSValue)
    (rows : Z -> list A) (invalid missing : Resp) (o : option Z) :
  checked_key eng v rows invalid missing = inr o ->
  (is_undefined v = true /\ o = None) \/
  (is_undefined v = false /\
   exists k, o = Some k /\ parseInt (frac_digits eng) v = Some k /\ rows k <> []).
Proof.
  unfold checked_key.
  destruct v;
    try (intros H; injection H as <-; left; split; reflexivity);
    (destruct (parseInt _ _) as [k|]; [destruct (rows k) eqn:Hr|]);
    intros H; try discriminate; injection H as <-; right;
    (split; [reflexivity|]); exists k; repeat split; congruence.
Qed.

Lemma checked_key_some {A : Type} (eng : Engine) (v : JSValue)
    (rows : Z -> list A) (invalid missing : Resp) (k : Z) :
  parseInt (frac_digits eng) v = Some k -> rows k <> [] ->
  is_undefined v = false /\
  checked_key eng v rows invalid missing = inr (Some k).
Proof.
  intros Hp Hr. unfold checked_key.
  destruct v; try (cbn in Hp; discriminate Hp);
    (split; [reflexivity|]); rewrite Hp; destruct (rows k); congruence.
Qed.

Lemma text_field_inl (eng : Engine) (v : JSValue) (r : Resp) :
  text_field eng v = inl r -> r = internal_error.
Proof.
  unfold text_field.
  destruct v; try discriminate; try (intros H; injection H as <-; reflexivity);
    destruct (FeesRoute.stored_text _ _); intros H; try discriminate;
    injection H as <-; reflexivity.
Qed.

Lemma text_field_inr (eng : Engine) (v : JSValue) (o : option string) :
  text_field eng v = inr o ->
  (is_undefined v = true /\ o = None) \/
  (is_undefined v = false /\ is_null v = false /\
   exists s, o = Some s /\ forall t, v = JString t -> s = t).
Proof.
  unfold text_field.
  destruct v as [| |b0|x0|t0|o0]; try discriminate;
    try (intros H; injection H as <-; left; split; reflexivity);
    (destruct (FeesRoute.stored_text _ _) as [s|] eqn:Hs; [|discriminate]);
    intros H; injection H as <-; right; repeat split; exists s;
    (split; [reflexivity|]); intros t Ht; try discriminate Ht.
  injection Ht as ->. cbn in Hs. congruence.
Qed.

(** The query for a duplicate names the record being updated, so the row it
    finds is never another record. *)
Lemma no_duplicate_found (db : DB) (k : Z) (fs fc : option Z) :
  match duplicateEnrollment db k fs fc with
  | d :: _ => negb (e_id d =? k)
  | [] => false
  end = false.
Proof.
  destruct (duplicateEnrollment db k fs fc) as [|d rest] eqn:Hd; [reflexivity|].
  unfold duplicateEnrollment in Hd. apply firstn_1_In in Hd.
  apply filter_In in Hd. destruct Hd as [_ Hd].
  apply andb_true_iff in Hd. destruct Hd as [_ ->]. reflexivity.
Qed.

(** What a successful PUT did. *)
Lemma enrollment_PUT_inv (eng : Engine) (now : string) (id : option string)
    (body : JSObject) (db : DB) :
  is_success (fst (PUT eng now id body db)) = true ->
  exists (s : string) (k : Z) (e : Enrollment) (osid ocid : option Z)
         (odate ost : option string),
    id = Some s /\ parseInt_string s = Some k /\
    enrollment_by_id db k = Some e /\
    truthy (get "status" body)
    && negb (FeesRoute.includes VALID_STATUS_VALUES (get "status" body)) = false /\
    checked_key eng (get "studentId" body) (MarksRoute.student_rows db)
      (fail 400 "Valid student ID is required" "INVALID_STUDENT_ID")
      (fail 400 "Student not found" "STUDENT_NOT_FOUND") = inr osid /\
    checked_key eng (get "courseId" body) (MarksRoute.course_rows db)
      (fail 400 "Valid course ID is required" "INVALID_COURSE_ID")
      (fail 400 "Course not found" "COURSE_NOT_FOUND") = inr ocid /\
    text_field eng (get "enrollmentDate" body) = inr odate /\
    text_field eng (get "status" body) = inr ost /\
    let up := mkUpdates now osid ocid odate ost in
    PUT eng now id body db
    = (Json 200 (apply_updates up e),
       with_enrollments
         (map (fun r => if e_id r =? k then apply_updates up r else r)
            (enrollments db)) db).
Proof.
  unfold PUT. destruct id as [s|]; [|discriminate].
  destruct (parseInt_string s) as [k|] eqn:Hk; [|discriminate].
  rewrite (first_row e_id).
  destruct (find (fun e => e_id e =? k) (enrollments db)) as [e|] eqn:He;
    [|discriminate].
  destruct (truthy (get "status" body) && _) eqn:Hst; [discriminate|].
  destruct (checked_key eng (get "studentId" body) _ _ _) as [r|osid] eqn:Hsid.
  { destruct (checked_key_inl _ _ _ _ _ _ Hsid) as [-> | ->]; discriminate. }
  destruct (checked_key eng (get "courseId" body) _ _ _) as [r|ocid] eqn:Hcid.
  { destruct (checked_key_inl _ _ _ _ _ _ Hcid) as [-> | ->]; discriminate. }
  destruct (negb (is_undefined (get "studentId" body))
            || negb (is_undefined (get "courseId" body)));
    rewrite ?no_duplicate_found.
  all: destruct (text_field eng (get "enrollmentDate" body)) as [r|odate] eqn:Hd;
    [rewrite (text_field_inl _ _ _ Hd); discriminate|].
  all: destruct (text_field eng (get "status" body)) as [r|ost] eqn:Hs;
    [rewrite (text_field_inl _ _ _ Hs); discriminate|].
  all: unfold update_where; destruct (find_filter _ _ _ He) as [rest ->];
    cbn [map fst snd]; intros _;
    exists s, k, e, osid, ocid, odate, ost; repeat split; assumption || reflexivity.
Qed.

(** PUT never answers ENROLLMENT_EXISTS, whatever the body and the table:
    its query for a duplicate can only find the record being updated. *)
Theorem enrollment_update_never_conflicts (eng : Engine) (now : string)
    (id : option string) (body : JSObject) (db : DB) :
  code_of (fst (PUT eng now id body db)) <> Some "ENROLLMENT_EXISTS".
Proof.
  unfold PUT.
  destruct (match id with Some s => parseInt_string s | None => None end);
    [|discriminate].
  destruct (firstn 1 _); [discriminate|].
  destruct (truthy (get "status" body) && _); [discriminate|].
  destruct (checked_key eng (get "studentId" body) _ _ _) as [r|osid] eqn:Hsid.
  { destruct (checked_key_inl _ _ _ _ _ _ Hsid) as [-> | ->]; discriminate. }
  destruct (checked_key eng (get "courseId" body) _ _ _) as [r|ocid] eqn:Hcid.
  { destruct (checked_key_inl _ _ _ _ _ _ Hcid) as [-> | ->]; discriminate. }
  destruct (negb (is_undefined (get "studentId" body))
            || negb (is_undefined (get "courseId" body)));
    rewrite ?no_duplicate_found.
  all: destruct (text_field eng (get "enrollmentDate" body)) as [r|odate] eqn:Hd;
    [rewrite (text_field_inl _ _ _ Hd); discriminate|].
  all: destruct (text_field eng (get "status" body)) as [r|ost] eqn:Hs;
    [rewrite (text_field_inl _ _ _ Hs); discriminate|].
  all: unfold update_where; destruct (map _ (filter _ _)); discriminate.
Qed.

(** So PUT can give a record the student and course of another one: when
    the body names a student and a course that exist, the update succeeds
    although another enrollment has that pair, and both records then have
    it. *)
Theorem enrollment_update_duplicates (eng : Engine) (now : string) (id : string)
    (k : Z) (body : JSObject) (db : DB) (e o : Enrollment) (sid cid : Z) :
  parseInt_string id = Some k ->
  enrollment_by_id db k = Some e ->
  enrollment_by_id db (e_id o) = Some o -> e_id o <> k ->
  e_studentId o = Some sid -> e_courseId o = Some cid ->
  parseInt (frac_digits eng) (get "studentId" body) = Some sid ->
  parseInt (frac_digits eng) (get "courseId" body) = Some cid ->
  student_by_id db sid <> None ->
  find (fun c => c_id c =? cid) (courses db) <> None ->
  get "enrollmentDate" body = JUndefined ->
  get "status" body = JUndefined ->
  let db' := snd (PUT eng now (Some id) body db) in
  exists u : Enrollment,
    fst (PUT eng now (Some id) body db) = Json 200 u /\
    e_id u = k /\ e_studentId u = Some sid /\ e_courseId u = Some cid /\
    enrollment_by_id db' k = Some u /\
    enrollment_by_id db' (e_id o) = Some o.
Proof.
  intros Hid He Ho Hne Hos Hoc Hsid Hcid Hs Hc Hdate Hstatus db'. subst db'.
  assert (Hrows : MarksRoute.student_rows db sid <> []).
  { unfold MarksRoute.student_rows. rewrite (first_row s_id).
    unfold student_by_id in Hs. destruct (find _ (students db)); congruence. }
  assert (Hcrows : MarksRoute.course_rows db cid <> []).
  { unfold MarksRoute.course_rows. rewrite (first_row c_id).
    destruct (find _ (courses db)); congruence. }
  destruct (checked_key_some eng _ (MarksRoute.student_rows db)
              (fail 400 "Valid student ID is required" "INVALID_STUDENT_ID")
              (fail 400 "Student not found" "STUDENT_NOT_FOUND") _ Hsid Hrows)
    as [Hu1 Hk1].
  destruct (checked_key_some eng _ (MarksRoute.course_rows db)
              (fail 400 "Valid course ID is required" "INVALID_COURSE_ID")
              (fail 400 "Course not found" "COURSE_NOT_FOUND") _ Hcid Hcrows)
    as [Hu2 Hk2].
  unfold PUT. rewrite Hid, (first_row e_id).
  unfold enrollment_by_id in He, Ho. rewrite He, Hstatus, Hdate.
  cbn [truthy andb]. rewrite Hk1, Hk2, Hu1. cbn [negb orb].
  rewrite no_duplicate_found. cbn [text_field].
  unfold update_where. destruct (find_filter _ _ _ He) as [rest ->].
  cbn [map fst snd]. eexists. split; [reflexivity|].
  cbn [apply_updates e_id e_studentId e_courseId up_studentId up_courseId].
  split; [exact (find_key e_id _ _ _ He)|]. split; [reflexivity|].
  split; [reflexivity|].
  unfold enrollment_by_id. cbn [enrollments with_enrollments].
  rewrite !(find_update e_id) by reflexivity.
  rewrite Z.eqb_refl, He.
  assert ((e_id o =? k) = false) as -> by lia.
  split; [reflexivity | exact Ho].
Qed.

Lemma enrollment_update_duplicates_enrolled :
  let body := [("studentId", JNumber 7%float); ("courseId", JNumber 3%float)] in
  let db' := snd (PUT Scenario.engine Scenario.t1 (Some "42") body
                    Scenario.enrolled) in
  exists u : Enrollment,
    fst (PUT Scenario.engine Scenario.t1 (Some "42") body Scenario.enrolled)
    = Json 200 u /\
    e_id u = 42 /\ e_studentId u = Some 7 /\ e_courseId u = Some 3 /\
    enrollment_by_id db' 42 = Some u /\
    enrollment_by_id db'
      (e_id (mkEnrollment 41 (Some 7) (Some 3) "2025-01-10" "active"
               Scenario.t0 Scenario.t0))
    = Some (mkEnrollment 41 (Some 7) (Some 3) "2025-01-10" "active"
              Scenario.t0 Scenario.t0).
Proof.
  apply (enrollment_update_duplicates Scenario.engine Scenario.t1 "42" 42
           [("studentId", JNumber 7%float); ("courseId", JNumber 3%float)]
           Scenario.enrolled
           (mkEnrollment 42 (Some 7) (Some 5) "2025-01-11" "active"
              Scenario.t0 Scenario.t0)
           (mkEnrollment 41 (Some 7) (Some 3) "2025-01-10" "active"
              Scenario.t0 Scenario.t0) 7 3);
    try reflexivity; cbn; try lia; discriminate.
Defined.

(** A successful PUT answers with the record as stored: its key and
    createdAt kept, updatedAt set, the fields the body does not name kept, a
    student or course named by the body one that exists.  The status of the
    body is stored when it is valid, and also when it is the empty string,
    which the check of the status lets through. *)
Theorem enrollment_updated (eng : Engine) (now : string) (id : option string)
    (body : JSObject) (db : DB) :
  is_success (fst (PUT eng now id body db)) = true ->
  exists (k : Z) (e u : Enrollment),
    enrollment_by_id db k = Some e /\
    fst (PUT eng now id body db) = Json 200 u /\
    enrollment_by_id (snd (PUT eng now id body db)) k = Some u /\
    e_id u = k /\ e_createdAt u = e_createdAt e /\ e_updatedAt u = now /\
    (if is_undefined (get "studentId" body)
     then e_studentId u = e_studentId e
     else exists sid, e_studentId u = Some sid /\ student_by_id db sid <> None) /\
    (if is_undefined (get "courseId" body)
     then e_courseId u = e_courseId e
     else exists cid c,
            e_courseId u = Some cid /\ In c (courses db) /\ c_id c = cid) /\
    (is_undefined (get "enrollmentDate" body) = true ->
     e_enrollmentDate u = e_enrollmentDate e) /\
    (is_undefined (get "status" body) = true -> e_status u = e_status e) /\
    (forall s, get "status" body = JString s ->
       e_status u = s /\ (In s VALID_STATUS_VALUES \/ s = "")).
Proof.
  intros Hok.
  destruct (enrollment_PUT_inv _ _ _ _ _ Hok)
    as (s & k & e & osid & ocid & odate & ost & _ & _ & He & Hst & Hsid & Hcid
        & Hdate & Hstat & Heq).
  cbv zeta in Heq. rewrite Heq. clear Heq Hok.
  exists k, e, (apply_updates (mkUpdates now osid ocid odate ost) e).
  cbn [fst snd]. split; [exact He|]. split; [reflexivity|].
  split.
  { unfold enrollment_by_id in *. cbn [enrollments with_enrollments].
    rewrite (find_update e_id) by reflexivity. now rewrite Z.eqb_refl, He. }
  cbn [apply_updates e_id e_createdAt e_updatedAt e_studentId e_courseId
       e_enrollmentDate e_status up_updatedAt up_studentId up_courseId
       up_enrollmentDate up_status].
  split; [exact (find_key e_id _ _ _ He)|]. split; [reflexivity|].
  split; [reflexivity|].
  split; [|split; [|split; [|split]]].
  - destruct (checked_key_inr _ _ _ _ _ _ Hsid)
      as [[-> ->] | (-> & sid & -> & _ & Hr)]; [reflexivity|].
    exists sid. split; [reflexivity|].
    unfold MarksRoute.student_rows in Hr. rewrite (first_row s_id) in Hr.
    unfold student_by_id. destruct (find _ (students db)); congruence.
  - destruct (checked_key_inr _ _ _ _ _ _ Hcid)
      as [[-> ->] | (-> & cid & -> & _ & Hr)]; [reflexivity|].
    unfold MarksRoute.course_rows in Hr. rewrite (first_row c_id) in Hr.
    destruct (find (fun r => c_id r =? cid) (courses db)) as [c|] eqn:Hf;
      [|congruence].
    apply find_some in Hf. exists cid, c. split; [reflexivity|].
    split; [tauto | lia].
  - intros Hu. destruct (text_field_inr _ _ _ Hdate)
      as [[_ ->] | (Hn & _)]; [reflexivity | congruence].
  - intros Hu. destruct (text_field_inr _ _ _ Hstat)
      as [[_ ->] | (Hn & _)]; [reflexivity | congruence].
  - intros t Ht. rewrite Ht in Hstat, Hst.
    destruct (text_field_inr _ _ _ Hstat)
      as [[Hu _] | (_ & _ & t' & -> & Ht')]; [discriminate Hu|].
    rewrite (Ht' t eq_refl). split; [reflexivity|].
    destruct t as [|c t]; [now right | left].
    cbn [truthy andb] in Hst. apply negb_false_iff in Hst.
    apply valid_status_In in Hst. destruct Hst as (t2 & Heq2 & Hin).
    now injection Heq2 as <-.
Qed.

Lemma enrollment_updated_enrolled :
  let body := [("status", JString "")] in
  exists (k : Z) (e u : Enrollment),
    enrollment_by_id Scenario.enrolled k = Some e /\
    fst (PUT Scenario.engine Scenario.t1 (Some "41") body Scenario.enrolled)
    = Json 200 u /\
    enrollment_by_id
      (snd (PUT Scenario.engine Scenario.t1 (Some "41") body Scenario.enrolled)) k
    = Some u /\
    e_id u = k /\ e_createdAt u = e_createdAt e /\ e_updatedAt u = Scenario.t1 /\
    (if is_undefined (get "studentId" body)
     then e_studentId u = e_studentId e
     else exists sid, e_studentId u = Some sid /\
                      student_by_id Scenario.enrolled sid <> None) /\
    (if is_undefined (get "courseId" body)
     then e_courseId u = e_courseId e
     else exists cid c,
            e_courseId u = Some cid /\ In c (courses Scenario.enrolled) /\
            c_id c = cid) /\
    (is_undefined (get "enrollmentDate" body) = true ->
     e_enrollmentDate u = e_enrollmentDate e) /\
    (is_undefined (get "status" body) = true -> e_status u = e_status e) /\
    (forall s, get "status" body = JString s ->
       e_status u = s /\ (In s VALID_STATUS_VALUES \/ s = "")).
Proof.
  apply (enrollment_updated Scenario.engine Scenario.t1 (Some "41")
           [("status", JString "")] Scenario.enrolled).
  reflexivity.
Defined.

(** The empty status is stored, although it is not one of the valid ones. *)
Example empty_status_stored :
  fst (PUT Scenario.engine Scenario.t1 (Some "41") [("status", JString "")]
         Scenario.enrolled)
  = Json 200 (mkEnrollment 41 (Some 7) (Some 3) "2025-01-10" "" Scenario.t0
                Scenario.t1).
Proof. reflexivity. Qed.

(** *** What the route leaves alone *)

Lemma enrollment_post_failed (eng : Engine) (now : string) (newId : Z)
    (body : JSObject) (db : DB) :
  is_success (fst (POST eng now newId body db)) = false ->
  snd (POST eng now newId body db) = db.
Proof.
  unfold POST.
  repeat match goal with
         | |- context [match ?x with _ => _ end] => destruct x
         end; cbn; congruence.
Qed.

Lemma enrollment_put_failed (eng : Engine) (now : string) (id : option string)
    (body : JSObject) (db : DB) :
  is_success (fst (PUT eng now id body db)) = false ->
  snd (PUT eng now id body db) = db.
Proof.
  unfold PUT.
  destruct (match id with Some s => parseInt_string s | None => None end) as [k|];
    [|reflexivity].
  rewrite (first_row e_id).
  destruct (find (fun e => e_id e =? k) (enrollments db)) as [e|] eqn:He;
    [|reflexivity].
  destruct (truthy (get "status" body) && _); [reflexivity|].
  destruct (checked_key eng (get "studentId" body) _ _ _); [reflexivity|].
  destruct (checked_key eng (get "courseId" body) _ _ _); [reflexivity|].
  destruct (if _ || _ then _ else _); [reflexivity|].
  destruct (text_field eng (get "enrollmentDate" body)); [reflexivity|].
  destruct (text_field eng (get "status" body)); [reflexivity|].
  unfold update_where. destruct (find_filter _ _ _ He) as [rest ->].
  cbn. discriminate.
Qed.

Lemma enrollment_delete_inv (id : option string) (db : DB) :
  (is_success (fst (DELETE id db)) = false /\ snd (DELETE id db) = db) \/
  (exists (s : string) (k : Z) (e : Enrollment),
     id = Some s /\ parseInt_string s = Some k /\
     enrollment_by_id db k = Some e /\
     DELETE id db
     = (Json 200 (mkDeleted "Enrollment deleted successfully" e),
        with_enrollments
          (filter (fun r => negb (e_id r =? k)) (enrollments db)) db)).
Proof.
  unfold DELETE. destruct id as [s|]; [|left; split; reflexivity].
  destruct (parseInt_string s) as [k|] eqn:Hk; [|left; split; reflexivity].
  rewrite (first_row e_id).
  destruct (find (fun e => e_id e =? k) (enrollments db)) as [e|] eqn:He;
    [|left; split; reflexivity].
  right. exists s, k, e. destruct (find_filter _ _ _ He) as [rest ->].
  repeat split; assumption || reflexivity.
Qed.

(** A POST, PUT or DELETE of the enrollments route that does not succeed
    leaves the database as it was; one that succeeds changes the
    enrollments table only.  PUT and DELETE leave every enrollment but the
    one named as it was, and the one deleted is not found afterwards. *)
Theorem enrollments_route_frame (eng : Engine) (now : string) (newId : Z)
    (id : string) (k : Z) (body : JSObject) (db : DB) :
  parseInt_string id = Some k ->
  (is_success (fst (POST eng now newId body db)) = false ->
   snd (POST eng now newId body db) = db) /\
  (is_success (fst (PUT eng now (Some id) body db)) = false ->
   snd (PUT eng now (Some id) body db) = db) /\
  (is_success (fst (DELETE (Some id) db)) = false ->
   snd (DELETE (Some id) db) = db) /\
  only_enrollments_changed db (snd (POST eng now newId body db)) /\
  only_enrollments_changed db (snd (PUT eng now (Some id) body db)) /\
  only_enrollments_changed db (snd (DELETE (Some id) db)) /\
  (forall k', k' <> k ->
     enrollment_by_id (snd (PUT eng now (Some id) body db)) k'
     = enrollment_by_id db k' /\
     enrollment_by_id (snd (DELETE (Some id) db)) k' = enrollment_by_id db k') /\
  (is_success (fst (DELETE (Some id) db)) = true ->
   enrollment_by_id (snd (DELETE (Some id) db)) k = None).
Proof.
  intros Hid.
  split; [apply enrollment_post_failed|].
  split; [apply enrollment_put_failed|].
  assert (HD : forall k',
             enrollment_by_id (snd (DELETE (Some id) db)) k'
             = if (k' =? k) && is_success (fst (DELETE (Some id) db))
               then None else enrollment_by_id db k').
  { intros k'.
    destruct (enrollment_delete_inv (Some id) db)
      as [[Hf ->] | (s & k0 & e & Hs & Hk0 & _ & ->)].
    - rewrite Hf, andb_false_r. reflexivity.
    - injection Hs as <-. rewrite Hid in Hk0. injection Hk0 as <-.
      unfold enrollment_by_id. cbn [fst snd enrollments with_enrollments is_success].
      rewrite (find_filter_out e_id), andb_true_r. reflexivity. }
  split.
  { destruct (enrollment_delete_inv (Some id) db)
      as [[_ H] | (s & k0 & e & _ & _ & _ & ->)]; [intros _; exact H|].
    cbn. discriminate. }
  split.
  { destruct (is_success (fst (POST eng now newId body db))) eqn:Hs.
    - destruct (enrollment_POST_inv _ _ _ _ _ Hs)
        as (sid & cid & d & s & _ & _ & _ & _ & _ & _ & _ & _ & ->).
      repeat split.
    - rewrite (enrollment_post_failed _ _ _ _ _ Hs). repeat split. }
  split.
  { destruct (is_success (fst (PUT eng now (Some id) body db))) eqn:Hs.
    - destruct (enrollment_PUT_inv _ _ _ _ _ Hs)
        as (s & k0 & e & osid & ocid & odate & ost & _ & _ & _ & _ & _ & _ & _
            & _ & Heq).
      cbv zeta in Heq. rewrite Heq. repeat split.
    - rewrite (enrollment_put_failed _ _ _ _ _ Hs). repeat split. }
  split.
  { destruct (enrollment_delete_inv (Some id) db)
      as [[_ ->] | (s & k0 & e & _ & _ & _ & ->)]; repeat split. }
  split.
  - intros k' Hne. split.
    + destruct (is_success (fst (PUT eng now (Some id) body db))) eqn:Hs.
      * destruct (enrollment_PUT_inv _ _ _ _ _ Hs)
          as (s & k0 & e & osid & ocid & odate & ost & Hs' & Hk0 & _ & _ & _ & _
              & _ & _ & Heq).
        cbv zeta in Heq. rewrite Heq. injection Hs' as <-.
        rewrite Hid in Hk0. injection Hk0 as <-.
        unfold enrollment_by_id. cbn [snd enrollments with_enrollments].
        rewrite (find_update e_id) by reflexivity.
        assert ((k' =? k) = false) as -> by lia. reflexivity.
      * now rewrite (enrollment_put_failed _ _ _ _ _ Hs).
    + rewrite HD. assert ((k' =? k) = false) as -> by lia. reflexivity.
  - intros Hs. rewrite HD, Hs, Z.eqb_refl. reflexivity.
Qed.

Lemma enrollments_route_frame_enrolled :
  let body := [("status", JString "dropped")] in
  let db := Scenario.enrolled in
  (is_success (fst (POST Scenario.engine Scenario.t1 43 body db)) = false ->
   snd (POST Scenario.engine Scenario.t1 43 body db) = db) /\
  (is_success (fst (PUT Scenario.engine Scenario.t1 (Some "41") body db)) = false ->
   snd (PUT Scenario.engine Scenario.t1 (Some "41") body db) = db) /\
  (is_success (fst (DELETE (Some "41") db)) = false ->
   snd (DELETE (Some "41") db) = db) /\
  only_enrollments_changed db (snd (POST Scenario.engine Scenario.t1 43 body db)) /\
  only_enrollments_changed db
    (snd (PUT Scenario.engine Scenario.t1 (Some "41") body db)) /\
  only_enrollments_changed db (snd (DELETE (Some "41") db)) /\
  (forall k', k' <> 41 ->
     enrollment_by_id (snd (PUT Scenario.engine Scenario.t1 (Some "41") body db)) k'
     = enrollment_by_id db k' /\
     enrollment_by_id (snd (DELETE (Some "41") db)) k' = enrollment_by_id db k') /\
  (is_success (fst (DELETE (Some "41") db)) = true ->
   enrollment_by_id (snd (DELETE (Some "41") db)) 41 = None).
Proof.
  apply (enrollments_route_frame Scenario.engine Scenario.t1 43 "41" 41
           [("status", JString "dropped")] Scenario.enrolled).
  reflexivity.
Defined.

End EnrollmentFacts.
